(** * set_refresh_rate.py: power-driven refresh-rate switching

    A shallow embedding of [src/set_refresh_rate.py] and the properties of
    its display-mode negotiation and of its power polling loop.

    The Win32 entry points the script reaches through [ctypes]
    ([EnumDisplaySettingsW], [ChangeDisplaySettingsExW],
    [GetSystemPowerStatus]) are an interface over an abstract world; every
    Python function is a computation in a state-and-exception monad that
    threads that world together with a chronological trace of the calls and
    of the user-interface updates the script performs. *)

From Stdlib Require Import ZArith String List Bool Lia Sorted.
Import ListNotations.
Local Open Scope Z_scope.

(** ** Integer conversions done by [ctypes] *)

Module Ctypes.

(** Storing a Python int into a [wintypes.DWORD] ([c_ulong]) field keeps
    the low 32 bits. *)
Definition DWORD (z : Z) : Z := z mod 2 ^ 32.

(** [wintypes.BYTE] is [ctypes.c_byte], a signed char: reading a field
    whose memory holds the byte [b] gives a value in [-128, 127]. *)
Definition BYTE (b : Z) : Z := (b + 128) mod 256 - 128.

End Ctypes.

(** ** Constants of the script *)

Definition ENUM_CURRENT_SETTINGS : Z := -1.
Definition DM_DISPLAYFREQUENCY : Z := 0x00400000.
Definition CDS_TEST : Z := 0x00000002.
Definition DISP_CHANGE_SUCCESSFUL : Z := 0.

(** ** Structures *)

(** [DEVMODEW], restricted to the fields the script reads or writes and
    the display fields next to them; the printer fields and the two name
    buffers are never touched by the script. Fields hold the value a
    Python read of the field returns. *)
Record DEVMODEW : Type := mkDEVMODEW {
  dmSize : Z;
  dmFields : Z;
  dmBitsPerPel : Z;
  dmPelsWidth : Z;
  dmPelsHeight : Z;
  dmDisplayFlags : Z;
  dmDisplayFrequency : Z
}.

(** [new_dm.dmDisplayFrequency = v] *)
Definition set_dmDisplayFrequency (dm : DEVMODEW) (v : Z) : DEVMODEW :=
  mkDEVMODEW (dmSize dm) (dmFields dm) (dmBitsPerPel dm) (dmPelsWidth dm)
             (dmPelsHeight dm) (dmDisplayFlags dm) (Ctypes.DWORD v).

(** [new_dm.dmFields = v] *)
Definition set_dmFields (dm : DEVMODEW) (v : Z) : DEVMODEW :=
  mkDEVMODEW (dmSize dm) (Ctypes.DWORD v) (dmBitsPerPel dm) (dmPelsWidth dm)
             (dmPelsHeight dm) (dmDisplayFlags dm) (dmDisplayFrequency dm).

(** [SYSTEM_POWER_STATUS]; the four [BYTE] fields hold the raw byte the
    system wrote (0..255), the signed reading is [Ctypes.BYTE]. *)
Record SYSTEM_POWER_STATUS : Type := mkSYSTEM_POWER_STATUS {
  ACLineStatus : Z;
  BatteryFlag : Z;
  BatteryLifePercent : Z;
  Reserved1 : Z;
  BatteryLifeTime : Z;
  BatteryFullLifeTime : Z
}.

(** A mode as [list_modes] records it:
    [(dmPelsWidth, dmPelsHeight, dmBitsPerPel, dmDisplayFrequency)]. *)
Definition mode : Type := (Z * Z * Z * Z)%type.

Definition mode_of (dm : DEVMODEW) : mode :=
  (dmPelsWidth dm, dmPelsHeight dm, dmBitsPerPel dm, dmDisplayFrequency dm).

(** ** Python built-ins used by the script *)

Module Py.

(** [x in xs] on a list or tuple of ints *)
Definition contains (x : Z) (xs : list Z) : bool := existsb (Z.eqb x) xs.

(** [max(xs)]; [None] stands for the [ValueError] on an empty sequence *)
Definition max (xs : list Z) : option Z :=
  match xs with
  | [] => None
  | x :: rest => Some (fold_left Z.max rest x)
  end.

(** [min(xs)] *)
Definition min (xs : list Z) : option Z :=
  match xs with
  | [] => None
  | x :: rest => Some (fold_left Z.min rest x)
  end.

Section SortedSet.
Variable A : Type.
Variable cmp : A -> A -> comparison.

Fixpoint insert (x : A) (l : list A) : list A :=
  match l with
  | [] => [x]
  | y :: rest =>
      match cmp x y with
      | Lt => x :: l
      | Eq => l
      | Gt => y :: insert x rest
      end
  end.

(** [sorted(set(xs), key=...)] for a key that tells all distinct
    elements apart: [cmp] compares the keys. The order in which the
    set is traversed is then immaterial, and the result is the
    strictly increasing list of the distinct elements. *)
Definition sorted_set (xs : list A) : list A :=
  fold_right insert [] xs.
End SortedSet.
Arguments insert {A} cmp x l.
Arguments sorted_set {A} cmp xs.

(** [sorted(set(xs))] on ints *)
Definition sorted_set_int (xs : list Z) : list Z := sorted_set Z.compare xs.

(** [a == b] on pairs of ints *)
Definition pair_eqb (a b : Z * Z) : bool :=
  (fst a =? fst b) && (snd a =? snd b).

End Py.

(** Lexicographic comparison of the keys [(x[0], x[1], x[3], x[2])] of
    two modes, the key [list_modes] sorts by. *)
Definition mode_key_compare (a b : mode) : comparison :=
  let '(aw, ah, abpp, ar) := a in
  let '(bw, bh, bbpp, br) := b in
  match aw ?= bw with
  | Eq => match ah ?= bh with
          | Eq => match ar ?= br with
                  | Eq => abpp ?= bbpp
                  | c => c
                  end
          | c => c
          end
  | c => c
  end.

(** ** Exceptions, results and the trace *)

(** The texts of the [RuntimeError]s the script raises, with the values
    formatted into them. *)
Inductive message : Type :=
| Unable_to_get_current_display_settings
    (* "Unable to get current display settings" *)
| Requested_not_supported (target_hz : Z) (cur_res : Z * Z) (available : list Z)
    (* "Requested {target_hz} Hz not supported at current resolution
        {cur_res}. Available: {sorted(set(valid_rates))}" *)
| Unable_to_read_current_settings
    (* "Unable to read current settings into new DEVMODE" *)
| Test_change_failed (res : Z)
    (* "Test-change failed (code {res}). Driver may not allow this mode." *)
| Change_failed (res : Z)
    (* "Change failed (code {res})." *)
| GetSystemPowerStatus_failed.
    (* "GetSystemPowerStatus failed" *)

Inductive exception : Type :=
| RuntimeError (msg : message)
| ValueError                   (* max() or min() of an empty sequence *)
| OSError (winerror : Z).      (* a fault inside a foreign call *)

(** What a foreign call gives back to Python: its converted return value,
    or the [OSError] that [ctypes] raises when the call faults. *)
Inductive foreign (A : Type) : Type :=
| Returned (a : A)
| Faulted (winerror : Z).
Arguments Returned {A} a.
Arguments Faulted {A} winerror.

(** Lines written by [print]. *)
Inductive console_line : Type :=
| Warning_no_current_mode
| Current_resolution (width height : Z)
| Warning_no_rates
| Available_refresh_rates (rates : list Z)
| Error_getting_rates (e : exception).

(** Updates of the window: the three Tk variables and the message boxes. *)
Inductive ui_update : Type :=
| Status_text (text : string)          (* current_status_var.set(text) *)
| Rate_text (hz : Z)                   (* current_rate_var.set(f"{hz} Hz") *)
| Rate_text_unknown                    (* current_rate_var.set("Unknown") *)
| Show_warning (title : string) (e : exception)
| Show_error (title : string) (e : exception).

Inductive event : Type :=
| Enum (device_name : option string) (iModeNum : Z)
       (r : foreign (option DEVMODEW))
| Change (device_name : option string) (dm : DEVMODEW) (flags : Z)
         (r : foreign Z)
| Power (r : foreign (option SYSTEM_POWER_STATUS))
| Print (line : console_line)
| Ui (u : ui_update)
| Enter_set_refresh_rate (target_hz : Z).   (* set_refresh_rate was called *)

(** The outcome of running a Python function on a bounded number of loop
    turns. *)
Inductive outcome (A : Type) : Type :=
| Val (a : A)
| Raise (e : exception)
| OutOfFuel.
Arguments Val {A} a.
Arguments Raise {A} e.
Arguments OutOfFuel {A}.

(** ** The Win32 boundary *)

(** [EnumDisplaySettingsW] gives [Some dm] when it returns nonzero, with
    the structure it filled in, and [None] when it returns zero;
    [GetSystemPowerStatus] likewise. [ChangeDisplaySettingsExW] gives its
    [LONG] status. Each call may change the world. *)
Record Win32 (W : Type) : Type := mkWin32 {
  EnumDisplaySettingsW :
    option string -> Z -> W -> foreign (option DEVMODEW) * W;
  ChangeDisplaySettingsExW :
    option string -> DEVMODEW -> Z -> W -> foreign Z * W;
  GetSystemPowerStatus :
    W -> foreign (option SYSTEM_POWER_STATUS) * W
}.
Arguments EnumDisplaySettingsW {W} _ _ _ _.
Arguments ChangeDisplaySettingsExW {W} _ _ _ _ _.
Arguments GetSystemPowerStatus {W} _ _.

(** ** The monad of the script *)

Record state (W : Type) : Type := mkState {
  world : W;
  trace : list event          (* oldest event first *)
}.
Arguments mkState {W} world trace.
Arguments world {W} s.
Arguments trace {W} s.

Definition M (W A : Type) : Type := state W -> outcome A * state W.

Definition ret {W A : Type} (a : A) : M W A := fun s => (Val a, s).

Definition raise {W A : Type} (e : exception) : M W A :=
  fun s => (Raise e, s).

Definition out_of_fuel {W A : Type} : M W A := fun s => (OutOfFuel, s).

Definition bind {W A B : Type} (m : M W A) (k : A -> M W B) : M W B :=
  fun s =>
    match m s with
    | (Val a, s') => k a s'
    | (Raise e, s') => (Raise e, s')
    | (OutOfFuel, s') => (OutOfFuel, s')
    end.

(** [try: body  except Exception as e: handler] *)
Definition try_except {W A : Type} (body : M W A)
    (handler : exception -> M W A) : M W A :=
  fun s =>
    match body s with
    | (Raise e, s') => handler e s'
    | other => other
    end.

Definition emit {W : Type} (e : event) : M W unit :=
  fun s => (Val tt, mkState (world s) (trace s ++ [e])).

(** [None] of an optional value raises [ValueError] ([max], [min]). *)
Definition value_of {W A : Type} (o : option A) : M W A :=
  match o with
  | Some a => ret a
  | None => raise ValueError
  end.

Declare Scope py_scope.
Delimit Scope py_scope with py.
Notation "x <- m ;; k" := (bind m (fun x => k))
  (at level 61, m at next level, right associativity) : py_scope.
Notation "m ;; k" := (bind m (fun _ => k))
  (at level 61, right associativity) : py_scope.
Local Open Scope py_scope.

(** The fallback tuple [(60, 120, 144, 165, 240)]. *)
Definition fallback_rates : list Z := [60; 120; 144; 165; 240].

(** [[r for (w,h,bpp,r) in modes if (w,h) == res]], also the [for] loop of
    [get_available_refresh_rates] that appends the same rates in turn. *)
Fixpoint rates_at (res : Z * Z) (modes : list mode) : list Z :=
  match modes with
  | [] => []
  | (w, h, _, r) :: rest =>
      if Py.pair_eqb (w, h) res then r :: rates_at res rest
      else rates_at res rest
  end.

(** The target both [poll_loop] and [on_apply_clicked] compute in
    automatic mode:
    [240 if 240 in rates else max(rates)] when plugged in,
    [60 if 60 in rates else min(rates)] otherwise. *)
Definition automatic_target (plugged : bool) (available_rates : list Z)
    : option Z :=
  if plugged then
    if Py.contains 240 available_rates then Some 240
    else Py.max available_rates
  else
    if Py.contains 60 available_rates then Some 60
    else Py.min available_rates.

(** The fields of [RefreshGUI] that the logic reads. *)
Record RefreshGUI : Type := mkRefreshGUI {
  override_var : bool;
  available_rates : list Z;
  selected_rate : Z;
  running : bool
}.

(** [plugged is not None] and [plugged is None] *)
Definition is_not_None {A : Type} (o : option A) : bool :=
  match o with Some _ => true | None => false end.
Definition is_None {A : Type} (o : option A) : bool :=
  negb (is_not_None o).

(** Truth value of [plugged], which is [True], [False] or [None]. *)
Definition truthy (plugged : option bool) : bool :=
  match plugged with Some b => b | None => false end.

(** [plugged != last_plugged] *)
Definition py_ne (a b : option bool) : bool :=
  match a, b with
  | Some x, Some y => negb (Bool.eqb x y)
  | None, None => false
  | _, _ => true
  end.

(** The test of [poll_loop]:
    [plugged is not None and
     (last_plugged is None or plugged != last_plugged)]. *)
Definition state_changed (last_plugged plugged : option bool) : bool :=
  is_not_None plugged && (is_None last_plugged || py_ne plugged last_plugged).

Definition status_text_of (plugged : option bool) : string :=
  if truthy plugged then "Plugged In (Charging)"%string
  else if is_not_None plugged then "On Battery (Discharging)"%string
  else "Unknown"%string.

Section Script.

Context {W : Type} (os : Win32 W).

Definition foreign_call {A : Type} (f : W -> foreign A * W)
    (ev : foreign A -> event) : M W A :=
  fun s =>
    let '(r, w') := f (world s) in
    let s' := mkState w' (trace s ++ [ev r]) in
    match r with
    | Returned a => (Val a, s')
    | Faulted c => (Raise (OSError c), s')
    end.

Definition call_EnumDisplaySettingsW (device_name : option string)
    (iModeNum : Z) : M W (option DEVMODEW) :=
  foreign_call (EnumDisplaySettingsW os device_name iModeNum)
               (Enum device_name iModeNum).

Definition call_ChangeDisplaySettingsExW (device_name : option string)
    (dm : DEVMODEW) (flags : Z) : M W Z :=
  foreign_call (ChangeDisplaySettingsExW os device_name dm flags)
               (Change device_name dm flags).

Definition call_GetSystemPowerStatus : M W (option SYSTEM_POWER_STATUS) :=
  foreign_call (GetSystemPowerStatus os) Power.

Definition print (line : console_line) : M W unit := emit (Print line).
Definition ui (u : ui_update) : M W unit := emit (Ui u).

(** The [while True] loop of [list_modes], [fuel] turns at most. *)
Fixpoint list_modes_loop (fuel : nat) (device_name : option string)
    (i : Z) (modes : list mode) : M W (list mode) :=
  match fuel with
  | O => out_of_fuel
  | S fuel' =>
      ok <- call_EnumDisplaySettingsW device_name i ;;
      match ok with
      | None => ret modes
      | Some dm =>
          list_modes_loop fuel' device_name (i + 1) (modes ++ [mode_of dm])
      end
  end.

(** [list_modes]: the modes the driver lists, without duplicates, sorted
    by [(width, height, frequency, bpp)]. *)
Definition list_modes (fuel : nat) (device_name : option string)
    : M W (list mode) :=
  modes <- list_modes_loop fuel device_name 0 [] ;;
  ret (Py.sorted_set mode_key_compare modes).

(** [get_current_mode]: the current [DEVMODEW], or [None]. *)
Definition get_current_mode (device_name : option string)
    : M W (option DEVMODEW) :=
  call_EnumDisplaySettingsW device_name ENUM_CURRENT_SETTINGS.

(** [get_available_refresh_rates]: the whole body is one [try] whose
    handler returns the fallback. *)
Definition get_available_refresh_rates (fuel : nat)
    (device_name : option string) : M W (list Z) :=
  try_except
    (dm <- get_current_mode device_name ;;
     match dm with
     | None =>
         print Warning_no_current_mode ;;
         ret fallback_rates
     | Some dm =>
         let current_resolution := (dmPelsWidth dm, dmPelsHeight dm) in
         print (Current_resolution (fst current_resolution)
                                   (snd current_resolution)) ;;
         all_modes <- list_modes fuel device_name ;;
         let available_rates := rates_at current_resolution all_modes in
         let available_rates := Py.sorted_set_int available_rates in
         match available_rates with
         | [] =>
             print Warning_no_rates ;;
             ret fallback_rates
         | _ :: _ =>
             print (Available_refresh_rates available_rates) ;;
             ret available_rates
         end
     end)
    (fun e =>
       print (Error_getting_rates e) ;;
       ret fallback_rates).

(** [set_refresh_rate]; its first step records in the trace that the
    function was entered, and with which target. *)
Definition set_refresh_rate (fuel : nat) (target_hz : Z)
    (device_name : option string) (test_first : bool) : M W bool :=
  emit (Enter_set_refresh_rate target_hz) ;;
  dm <- get_current_mode device_name ;;
  match dm with
  | None => raise (RuntimeError Unable_to_get_current_display_settings)
  | Some dm =>
      let cur_res := (dmPelsWidth dm, dmPelsHeight dm) in
      modes <- list_modes fuel device_name ;;
      let valid_rates := rates_at cur_res modes in
      if negb (Py.contains target_hz valid_rates) then
        raise (RuntimeError
                 (Requested_not_supported target_hz cur_res
                    (Py.sorted_set_int valid_rates)))
      else
        ok <- call_EnumDisplaySettingsW device_name ENUM_CURRENT_SETTINGS ;;
        match ok with
        | None => raise (RuntimeError Unable_to_read_current_settings)
        | Some new_dm =>
            let new_dm := set_dmDisplayFrequency new_dm target_hz in
            let new_dm :=
              set_dmFields new_dm
                (Z.lor (dmFields new_dm) DM_DISPLAYFREQUENCY) in
            (if test_first then
               res <- call_ChangeDisplaySettingsExW device_name new_dm
                        CDS_TEST ;;
               if negb (res =? DISP_CHANGE_SUCCESSFUL) then
                 raise (RuntimeError (Test_change_failed res))
               else ret tt
             else ret tt) ;;
            res <- call_ChangeDisplaySettingsExW device_name new_dm 0 ;;
            if negb (res =? DISP_CHANGE_SUCCESSFUL) then
              raise (RuntimeError (Change_failed res))
            else ret true
        end
  end.

(** [is_plugged_in]: [status.ACLineStatus == 1], the field being a
    signed byte. *)
Definition is_plugged_in : M W bool :=
  ok <- call_GetSystemPowerStatus ;;
  match ok with
  | None => raise (RuntimeError GetSystemPowerStatus_failed)
  | Some status => ret (Ctypes.BYTE (ACLineStatus status) =? 1)
  end.

(** [update_current_refresh_label], without the rescheduling of itself
    five seconds later. *)
Definition update_current_refresh_label : M W unit :=
  try_except
    (dm <- get_current_mode None ;;
     match dm with
     | Some dm => ui (Rate_text (dmDisplayFrequency dm))
     | None => ui Rate_text_unknown
     end)
    (fun _ => ui Rate_text_unknown).

(** [RefreshGUI.__init__]: the state it sets up and the first refresh
    of the rate label; building the widgets is left out. *)
Definition RefreshGUI_init (fuel : nat) : M W RefreshGUI :=
  rates <- get_available_refresh_rates fuel None ;;
  default_rate <-
    (if Py.contains 240 rates then ret 240
     else match rates with
          | _ :: _ => value_of (Py.max rates)
          | [] => ret 60
          end) ;;
  update_current_refresh_label ;;
  ret (mkRefreshGUI false rates default_rate true).

(** [on_apply_clicked], the handler of the "Apply now" button. *)
Definition on_apply_clicked (fuel : nat) (self : RefreshGUI) : M W unit :=
  try_except
    (target <-
       (if override_var self then ret (selected_rate self)
        else
          plugged <- is_plugged_in ;;
          value_of (automatic_target plugged (available_rates self))) ;;
     set_refresh_rate fuel target None true ;;
     ui (Rate_text target))
    (fun e => ui (Show_error "Error applying refresh rate" e)).

(** The first statement of the loop body of [poll_loop]:
    [try: plugged = is_plugged_in()  except Exception: plugged = None]. *)
Definition sample_power : M W (option bool) :=
  try_except (b <- is_plugged_in ;; ret (Some b)) (fun _ => ret None).

(** One turn of the [while self.running] loop of [poll_loop]; the value
    is the new [last_plugged]. The half-second sleeps are left out. *)
Definition poll_iteration (fuel : nat) (self : RefreshGUI)
    (last_plugged : option bool) : M W (option bool) :=
  plugged <- sample_power ;;
  ui (Status_text (status_text_of plugged)) ;;
  (if state_changed last_plugged plugged then
     if negb (override_var self) then
       target <-
         value_of (automatic_target (truthy plugged)
                                    (available_rates self)) ;;
       try_except
         (set_refresh_rate fuel target None true ;;
          ui (Rate_text target))
         (fun e => ui (Show_warning "Could not change refresh rate" e))
     else ret tt
   else ret tt) ;;
  ret plugged.

(** The [while self.running] loop of [poll_loop], from a given
    [last_plugged]. The window's variables are shared with the Tk thread,
    which may change them between two turns: [views] lists the
    [RefreshGUI] as the loop finds it at each successive turn, and the
    loop is followed for as many turns as there are views. *)
Fixpoint poll_turns (fuel : nat) (views : list RefreshGUI)
    (last_plugged : option bool) : M W (option bool) :=
  match views with
  | [] => ret last_plugged
  | self :: later =>
      if running self then
        plugged <- poll_iteration fuel self last_plugged ;;
        poll_turns fuel later plugged
      else ret last_plugged
  end.

(** [poll_loop]: [last_plugged = None] when the thread starts. *)
Definition poll_loop (fuel : nat) (views : list RefreshGUI)
    : M W (option bool) :=
  poll_turns fuel views None.

End Script.

(** [_tray_apply]: [try: self.on_apply_clicked()  except Exception: pass]. *)
Definition _tray_apply {W : Type} (os : Win32 W) (fuel : nat)
    (self : RefreshGUI) : M W unit :=
  try_except (on_apply_clicked os fuel self) (fun _ => ret tt).

(** ** The window and the tray icon

    The part of [RefreshGUI] that deals with the window and with the
    tray icon does not touch the display or the power status. Its state
    is the module flag [PYSTRAY_AVAILABLE], the field [tray_icon] and the
    state of the Tk root window; the calls it makes to Tk and to pystray
    are recorded in order. These calls are taken to succeed, except
    [tray_icon.stop()], which the script always wraps in a [try] that
    ignores any exception, so that what follows is the same either way.
    Each [pystray.Icon] that is created is told apart by a number. *)

Inductive window_state : Type := Normal | Withdrawn | Destroyed.

Inductive shell_event : Type :=
| Show_pystray_missing        (* messagebox.showwarning("pystray missing", ...) *)
| Root_withdraw               (* self.root.withdraw() *)
| Root_deiconify              (* self.root.deiconify() *)
| Root_lift                   (* self.root.lift() *)
| Root_destroy                (* self.root.destroy() *)
| Root_after_destroy          (* self.root.after(0, self.root.destroy) *)
| Icon_created (icon : nat)   (* pystray.Icon(...) *)
| Icon_run (icon : nat)       (* Thread(target=tray_icon.run).start() *)
| Icon_stop (icon : nat).     (* tray_icon.stop() *)

Record Shell : Type := mkShell {
  PYSTRAY_AVAILABLE : bool;
  tray_icon : option nat;
  root : window_state;
  icons_made : nat;                 (* the number of the next icon *)
  shell_trace : list shell_event    (* oldest first *)
}.

(** The shell when [__init__] returns. *)
Definition fresh_shell (available : bool) : Shell :=
  mkShell available None Normal 0 [].

Definition shell_call (e : shell_event) (sh : Shell) : Shell :=
  mkShell (PYSTRAY_AVAILABLE sh) (tray_icon sh)
    (match e with
     | Root_withdraw => Withdrawn
     | Root_deiconify => Normal
     | Root_destroy => Destroyed
     | _ => root sh
     end)
    (icons_made sh) (shell_trace sh ++ [e]).

Definition set_tray_icon (icon : option nat) (sh : Shell) : Shell :=
  mkShell (PYSTRAY_AVAILABLE sh) icon (root sh) (icons_made sh)
    (shell_trace sh).

(** [start_tray] *)
Definition start_tray (sh : Shell) : Shell :=
  match tray_icon sh with
  | Some _ => sh                       (* already running *)
  | None =>
      let icon := icons_made sh in
      let sh :=
        mkShell (PYSTRAY_AVAILABLE sh) (Some icon) (root sh) (S icon)
          (shell_trace sh ++ [Icon_created icon]) in
      shell_call (Icon_run icon) sh
  end.

(** [on_minimize] *)
Definition on_minimize (sh : Shell) : Shell :=
  if negb (PYSTRAY_AVAILABLE sh) then shell_call Show_pystray_missing sh
  else start_tray (shell_call Root_withdraw sh).

(** [if self.tray_icon: self.tray_icon.stop()], inside its [try]. *)
Definition stop_tray_icon (sh : Shell) : Shell :=
  match tray_icon sh with
  | Some icon => shell_call (Icon_stop icon) sh
  | None => sh
  end.

(** [_do_restore] *)
Definition _do_restore (sh : Shell) : Shell :=
  let sh :=
    match tray_icon sh with
    | Some icon => set_tray_icon None (shell_call (Icon_stop icon) sh)
    | None => sh
    end in
  shell_call Root_lift (shell_call Root_deiconify sh).

(** [_tray_restore]: [self.root.after(0, self._do_restore)], which Tk
    runs on its own thread. *)
Definition _tray_restore (sh : Shell) : Shell := _do_restore sh.

Definition set_running (b : bool) (self : RefreshGUI) : RefreshGUI :=
  mkRefreshGUI (override_var self) (available_rates self)
    (selected_rate self) b.

(** [on_exit] *)
Definition on_exit (self : RefreshGUI) (sh : Shell) : RefreshGUI * Shell :=
  let self := set_running false self in
  let sh := stop_tray_icon sh in
  (self, shell_call Root_destroy sh).

(** [_tray_exit], which pystray runs on the thread of the icon. It does
    not destroy the window: it hands [self.root.destroy] to Tk with
    [self.root.after(0, ...)], outside any [try], and returns. *)
Definition _tray_exit (self : RefreshGUI) (sh : Shell)
    : RefreshGUI * Shell :=
  let self := set_running false self in
  let sh := stop_tray_icon sh in
  (self, shell_call Root_after_destroy sh).

(** Tk, in its main loop, runs the [self.root.destroy] that [_tray_exit]
    scheduled. *)
Definition scheduled_destroy (sh : Shell) : Shell :=
  shell_call Root_destroy sh.

(** What the user does with the window before leaving: the button
    "Minimize to tray" and the tray entry "Open Window". *)
Inductive shell_action : Type := Minimize | Open_window.

Definition shell_step (a : shell_action) (sh : Shell) : Shell :=
  match a with
  | Minimize => on_minimize sh
  | Open_window => _tray_restore sh
  end.

Definition shell_run (actions : list shell_action) (sh : Shell) : Shell :=
  fold_left (fun sh a => shell_step a sh) actions sh.

(** The icons of a trace that were created and have not been sent
    [stop()] since. *)
Definition live_step (live : list nat) (e : shell_event) : list nat :=
  match e with
  | Icon_created icon => live ++ [icon]
  | Icon_stop icon => remove Nat.eq_dec icon live
  | _ => live
  end.

Definition live_icons (t : list shell_event) : list nat :=
  fold_left live_step t [].

Definition icon_list (icon : option nat) : list nat :=
  match icon with
  | Some i => [i]
  | None => []
  end.

(** What holds of the shell between two actions of the user. *)
Definition shell_inv (sh : Shell) : Prop :=
  (root sh = Withdrawn <-> tray_icon sh <> None) /\
  root sh <> Destroyed /\
  live_icons (shell_trace sh) = icon_list (tray_icon sh) /\
  (PYSTRAY_AVAILABLE sh = false ->
   root sh = Normal /\ forall i, ~ In (Icon_created i) (shell_trace sh)).

(** ** What a trace shows *)

(** The value [poll_loop] gives [plugged] for a power reading. *)
Definition plugged_of (r : foreign (option SYSTEM_POWER_STATUS))
    : option bool :=
  match r with
  | Returned (Some status) => Some (Ctypes.BYTE (ACLineStatus status) =? 1)
  | Returned None => None
  | Faulted _ => None
  end.

(** The power samples of a trace, in order. *)
Definition sample_of (e : event) : list (option bool) :=
  match e with
  | Power r => [plugged_of r]
  | _ => []
  end.
Definition samples (t : list event) : list (option bool) :=
  flat_map sample_of t.

(** The targets of the calls of [set_refresh_rate] of a trace, in order. *)
Definition entry_of (e : event) : list Z :=
  match e with
  | Enter_set_refresh_rate target_hz => [target_hz]
  | _ => []
  end.
Definition applies (t : list event) : list Z := flat_map entry_of t.

(** Samples and calls of [set_refresh_rate] together, in the order in
    which they happened. *)
Inductive moment : Type :=
| Sampled (plugged : option bool)
| Applied (target_hz : Z).

Definition moment_of (e : event) : list moment :=
  match e with
  | Power r => [Sampled (plugged_of r)]
  | Enter_set_refresh_rate target_hz => [Applied target_hz]
  | _ => []
  end.
Definition timeline (t : list event) : list moment := flat_map moment_of t.

(** The calls of [ChangeDisplaySettingsExW] of a trace, in order: the
    mode passed, the flags and what came back. *)
Definition change_of (e : event) : list (DEVMODEW * Z * foreign Z) :=
  match e with
  | Change _ dm flags r => [(dm, flags, r)]
  | _ => []
  end.
Definition changes (t : list event) : list (DEVMODEW * Z * foreign Z) :=
  flat_map change_of t.

(** The updates of the window of a trace, in order. *)
Definition ui_of (e : event) : list ui_update :=
  match e with
  | Ui u => [u]
  | _ => []
  end.
Definition ui_updates (t : list event) : list ui_update := flat_map ui_of t.

(** The moments a turn of the loop adds after its sample [p]: the call of
    [set_refresh_rate], when the state changed and override is off. *)
Definition turn_applies (self : RefreshGUI) (last_plugged p : option bool)
    : list moment :=
  if state_changed last_plugged p && negb (override_var self) then
    match automatic_target (truthy p) (available_rates self) with
    | Some t => [Applied t]
    | None => []
    end
  else [].

(** The moments that successive turns of the loop add when their samples
    are [ps]: each sample, followed by what the turn applies. *)
Fixpoint turns_timeline (views : list RefreshGUI)
    (last_plugged : option bool) (ps : list (option bool)) : list moment :=
  match views, ps with
  | self :: later, p :: ps' =>
      Sampled p :: turn_applies self last_plugged p
        ++ turns_timeline later p ps'
  | _, _ => []
  end.

Definition sampled_in (m : moment) : list (option bool) :=
  match m with
  | Sampled p => [p]
  | Applied _ => []
  end.

Definition applied_in (m : moment) : list Z :=
  match m with
  | Sampled _ => []
  | Applied t => [t]
  end.

(** A computation is silent for a view of the trace when it adds nothing
    that the view shows. *)
Definition silent {W A X : Type} (view : event -> list X) (m : M W A)
    : Prop :=
  forall s r s', m s = (r, s') ->
    flat_map view (trace s') = flat_map view (trace s).

(** The driver lists finitely many modes: from index [bound] on,
    [EnumDisplaySettingsW] never reports a mode. *)
Definition enum_bounded {W : Type} (os : Win32 W) (bound : nat) : Prop :=
  forall device_name i w dm w',
    Z.of_nat bound <= i ->
    EnumDisplaySettingsW os device_name i w <> (Returned (Some dm), w').

(** The state once [e] has been appended to the trace. *)
Definition logged {W : Type} (e : event) (s : state W) : state W :=
  mkState (world s) (trace s ++ [e]).

(** The order [list_modes] sorts by: the key of [a] is below the key of
    [b]. *)
Definition mode_key_lt (a b : mode) : Prop := mode_key_compare a b = Lt.

(** The calls by which an enumeration that starts at index [i] reports
    the modes [dms] one after the other. *)
Fixpoint enum_events (device_name : option string) (i : Z)
    (dms : list DEVMODEW) : list event :=
  match dms with
  | [] => []
  | dm :: rest =>
      Enum device_name i (Returned (Some dm))
        :: enum_events device_name (i + 1) rest
  end.

(** Reading the display settings does not change the world. *)
Definition enum_stable {W : Type} (os : Win32 W) : Prop :=
  forall device_name i w, snd (EnumDisplaySettingsW os device_name i w) = w.

(** A sample that gives a power state, plugged in or on battery, when
    the sample before it gave the other state, gave none because the
    query failed, or does not exist. *)
Definition new_state (before sample : option bool) : bool :=
  match sample, before with
  | Some true, Some true => false
  | Some false, Some false => false
  | Some _, _ => true
  | None, _ => false
  end.

(** The number of such samples in [ps], [last_plugged] being the sample
    before the first. *)
Fixpoint transitions (last_plugged : option bool) (ps : list (option bool))
    : nat :=
  match ps with
  | [] => 0
  | p :: rest =>
      (if new_state last_plugged p then 1 else 0) + transitions p rest
  end.

(** A computation whose value and whose effect on the world depend on
    the world alone, not on the trace. *)
Definition world_determined {W A : Type} (m : M W A) : Prop :=
  forall s t, world s = world t ->
    fst (m s) = fst (m t) /\ world (snd (m s)) = world (snd (m t)).

(** A computation that leaves the world as it found it. *)
Definition keeps_world {W A : Type} (m : M W A) : Prop :=
  forall s, world (snd (m s)) = world s.

(** The outcomes of [set_refresh_rate] that come before any call of
    [ChangeDisplaySettingsExW]. *)
Definition fails_before_change (target_hz : Z) (r : outcome bool) : Prop :=
  r = OutOfFuel \/
  (exists c, r = Raise (OSError c)) \/
  r = Raise (RuntimeError Unable_to_get_current_display_settings) \/
  (exists res valid,
     r = Raise (RuntimeError
                  (Requested_not_supported target_hz res valid))) \/
  r = Raise (RuntimeError Unable_to_read_current_settings).

(** What [set_refresh_rate] makes of the answer to its commit call. *)
Definition commit_outcome (r : foreign Z) : outcome bool :=
  match r with
  | Returned res =>
      if res =? DISP_CHANGE_SUCCESSFUL then Val true
      else Raise (RuntimeError (Change_failed res))
  | Faulted c => Raise (OSError c)
  end.

(** ** A scripted machine

    A concrete world to run the script on: a driver with a fixed mode
    list, the mode the display is in, the answers the driver will give to
    a test and to a commit, and the power readings still to come. *)
Module Laptop.

Record machine : Type := mkMachine {
  current : option DEVMODEW;
  test_status : Z;
  commit_status : Z;
  readings : list (option Z)   (* AC line bytes; None: the query fails *)
}.

Definition display_mode (w h bpp hz : Z) : DEVMODEW :=
  mkDEVMODEW 220 0x5C0000 bpp w h 0 hz.

Definition power_status (ac : Z) : SYSTEM_POWER_STATUS :=
  mkSYSTEM_POWER_STATUS ac 0 100 0 0 0.

Definition enum (driver_modes : list DEVMODEW) (_ : option string)
    (i : Z) (m : machine) : foreign (option DEVMODEW) * machine :=
  if i =? ENUM_CURRENT_SETTINGS then (Returned (current m), m)
  else if i <? 0 then (Returned None, m)
  else (Returned (nth_error driver_modes (Z.to_nat i)), m).

Definition change (_ : option string) (dm : DEVMODEW) (flags : Z)
    (m : machine) : foreign Z * machine :=
  if flags =? CDS_TEST then (Returned (test_status m), m)
  else if commit_status m =? DISP_CHANGE_SUCCESSFUL then
    (Returned (commit_status m),
     mkMachine (Some dm) (test_status m) (commit_status m) (readings m))
  else (Returned (commit_status m), m).

Definition power (m : machine)
    : foreign (option SYSTEM_POWER_STATUS) * machine :=
  match readings m with
  | [] => (Returned None, m)
  | r :: rest =>
      (Returned (option_map power_status r),
       mkMachine (current m) (test_status m) (commit_status m) rest)
  end.

Definition os (driver_modes : list DEVMODEW) : Win32 machine :=
  mkWin32 machine (enum driver_modes) change power.

(** A panel with 1920x1080 at 60, 120 Hz and 1280x720 at 60, 144,
    240 Hz; the driver lists one mode twice. *)
Definition panel : list DEVMODEW :=
  [ display_mode 1920 1080 32 60;
    display_mode 1920 1080 32 120;
    display_mode 1280 720 32 60;
    display_mode 1280 720 32 144;
    display_mode 1920 1080 32 60;
    display_mode 1280 720 32 240 ].

Definition boot (cur : option DEVMODEW) (test commit : Z)
    (feed : list (option Z)) : state machine :=
  mkState (mkMachine cur test commit feed) [].

Definition full_hd : option DEVMODEW := Some (display_mode 1920 1080 32 60).
Definition hd : option DEVMODEW := Some (display_mode 1280 720 32 60).

(** The user switches the display to another mode, outside the
    script. *)
Definition switch_resolution (cur : option DEVMODEW) (feed : list (option Z))
    (s : state machine) : state machine :=
  mkState (mkMachine cur (test_status (world s)) (commit_status (world s))
                     feed)
          (trace s).

(** The window as [__init__] leaves it on [panel] at 1920x1080. *)
Definition window (override : bool) (manual : Z) : RefreshGUI :=
  mkRefreshGUI override [60; 120] manual true.

(** A turn of the loop that was plugged in and now reads the unknown
    AC line status 255. *)
Definition after_unknown_reading : state machine :=
  snd (poll_iteration (os panel) 10 (window false 120) (Some true)
         (boot full_hd 0 0 [Some 255])).

(** Three turns in automatic mode while the machine stays plugged in
    and the second power query fails. *)
Definition after_failed_query : state machine :=
  snd (poll_loop (os panel) 10
         [window false 120; window false 120; window false 120]
         (boot full_hd 0 0 [Some 1; None; Some 1])).

(** The window is built at 1920x1080; the display is then switched to
    1280x720 and the machine is plugged in. *)
Definition built : outcome RefreshGUI * state machine :=
  RefreshGUI_init (os panel) 10 (boot full_hd 0 0 []).

Definition switched : state machine :=
  switch_resolution hd [Some 1] (snd built).

(** The first turn of the loop after the switch. *)
Definition after_switch : state machine :=
  snd (poll_iteration (os panel) 10 (window false 120) None switched).

(** The machine at rest at 1920x1080, with a driver that accepts
    every change. *)
Definition desk : state machine := boot full_hd 0 0 [].

(** The modes [list_modes] finds on [panel]. *)
Definition catalog : list mode :=
  [(1280, 720, 32, 60); (1280, 720, 32, 144); (1280, 720, 32, 240);
   (1920, 1080, 32, 60); (1920, 1080, 32, 120)].

(** The states [set_refresh_rate] goes through while it validates a
    target: after the current mode has been read, and after the modes
    have been listed. *)
Definition validating (target_hz : Z) (s : state machine)
    : state machine :=
  snd (get_current_mode (os panel) None
         (logged (Enter_set_refresh_rate target_hz) s)).

Definition listed (target_hz : Z) (s : state machine) : state machine :=
  snd (list_modes (os panel) 10 None (validating target_hz s)).

(** The candidate mode for 120 Hz at 1920x1080. *)
Definition candidate_120 : DEVMODEW :=
  set_dmFields
    (set_dmDisplayFrequency (display_mode 1920 1080 32 60) 120)
    (Z.lor (dmFields (display_mode 1920 1080 32 60)) DM_DISPLAYFREQUENCY).

(** Five turns in automatic mode: plugged, plugged, battery, battery,
    plugged. *)
Definition five_samples : state machine :=
  boot full_hd 0 0 [Some 1; Some 1; Some 0; Some 0; Some 1].

Definition five_turns : outcome (option bool) * state machine :=
  poll_loop (os panel) 10 (repeat (window false 120) 5) five_samples.

(** Two turns with override set while the machine goes from plugged to
    battery, then a click on "Apply now". *)
Definition unplugging : state machine :=
  boot full_hd 0 0 [Some 1; Some 0].

Definition overridden : outcome (option bool) * state machine :=
  poll_turns (os panel) 10 [window true 120; window true 120] None
    unplugging.

Definition clicked : outcome unit * state machine :=
  on_apply_clicked (os panel) 10 (window true 120) (snd overridden).

(** A driver that passes the test and then fails the commit with
    [DISP_CHANGE_FAILED], on a machine that is plugged in. *)
Definition failing (feed : list (option Z)) : state machine :=
  boot full_hd 0 (-1) feed.

(** The state in which the first turn of the loop on [failing feed]
    calls [set_refresh_rate], and the state in which the call raises. *)
Definition failing_sampled (feed : list (option Z)) : state machine :=
  mkState (mkMachine full_hd 0 (-1) (tl feed))
    [Power (Returned (Some (power_status 1)));
     Ui (Status_text "Plugged In (Charging)")].

Definition failing_applied (feed : list (option Z)) : state machine :=
  snd (set_refresh_rate (os panel) 10 120 None true (failing_sampled feed)).

Definition failing_warned (feed : list (option Z)) : state machine :=
  logged (Ui (Show_warning "Could not change refresh rate"
                (RuntimeError (Change_failed (-1)))))
         (failing_applied feed).

(** Two turns in automatic mode on that driver. *)
Definition failing_turns (feed : list (option Z))
    : outcome (option bool) * state machine :=
  poll_turns (os panel) 10 [window false 120; window false 120] None
    (failing feed).

(** The modes of [panel] as another driver might list them: in another
    order and with other repetitions. *)
Definition panel_shuffled : list DEVMODEW :=
  [ display_mode 1280 720 32 240;
    display_mode 1920 1080 32 120;
    display_mode 1280 720 32 144;
    display_mode 1280 720 32 240;
    display_mode 1920 1080 32 60;
    display_mode 1280 720 32 60 ].

Definition listing : outcome (list mode) * state machine :=
  list_modes (os panel) 10 None desk.

Definition listing_shuffled : outcome (list mode) * state machine :=
  list_modes (os panel_shuffled) 10 None desk.

(** A driver that refuses modes at the test with [DISP_CHANGE_BADMODE],
    and a machine whose current display settings cannot be read. *)
Definition rejecting : state machine := boot full_hd (-2) 0 [].
Definition no_display : state machine := boot None 0 0 [].

Definition apply_120 (test_first : bool) (s : state machine)
    : outcome bool * state machine :=
  set_refresh_rate (os panel) 10 120 None test_first s.

(** A driver that accepts the test and fails the commit, a display in a
    mode that the driver does not list, a machine that is plugged in, and
    a window without rates. *)
Definition commit_failing : state machine := boot full_hd 0 (-1) [].
Definition odd : state machine :=
  boot (Some (display_mode 800 600 32 60)) 0 0 [].
Definition plugged_desk : state machine := boot full_hd 0 0 [Some 1].
Definition bare_window : RefreshGUI := mkRefreshGUI false [] 60 true.

Definition offered : outcome (list Z) * state machine :=
  get_available_refresh_rates (os panel) 10 None desk.

Definition offered_odd : outcome (list Z) * state machine :=
  get_available_refresh_rates (os panel) 10 None odd.

Definition apply_at_odd : outcome bool * state machine :=
  set_refresh_rate (os panel) 10 60 None true odd.

Definition apply_now_automatic : outcome unit * state machine :=
  on_apply_clicked (os panel) 10 (window false 120) plugged_desk.

Definition first_turn : outcome (option bool) * state machine :=
  poll_iteration (os panel) 10 (window false 120) None plugged_desk.

End Laptop.

(** * Properties *)

(** ** The Python built-ins *)

Lemma contains_In (x : Z) (xs : list Z) :
  Py.contains x xs = true <-> In x xs.
Proof.
  unfold Py.contains. rewrite existsb_exists. split.
  - intros [y [Hy Heq]]. apply Z.eqb_eq in Heq. now subst.
  - intros H. exists x. split; [assumption | apply Z.eqb_refl].
Qed.

Lemma contains_not_In (x : Z) (xs : list Z) :
  Py.contains x xs = false <-> ~ In x xs.
Proof.
  rewrite <- contains_In. destruct (Py.contains x xs); split; congruence.
Qed.

Lemma fold_max_bounds (xs : list Z) : forall x,
  In (fold_left Z.max xs x) (x :: xs) /\
  Forall (fun y => y <= fold_left Z.max xs x) (x :: xs).
Proof.
  induction xs as [|a xs IH]; intros x; simpl.
  - split; [now left | constructor; [lia | constructor]].
  - destruct (IH (Z.max x a)) as [Hin Hall]. split.
    + destruct Hin as [Hin | Hin]; [| now right; right].
      rewrite <- Hin.
      destruct (Z.max_spec x a) as [[_ E] | [_ E]]; rewrite E; auto.
    + inversion Hall as [| ? ? Hm Hrest]; subst.
      constructor; [lia | constructor; [lia | assumption]].
Qed.

Lemma fold_min_bounds (xs : list Z) : forall x,
  In (fold_left Z.min xs x) (x :: xs) /\
  Forall (fun y => fold_left Z.min xs x <= y) (x :: xs).
Proof.
  induction xs as [|a xs IH]; intros x; simpl.
  - split; [now left | constructor; [lia | constructor]].
  - destruct (IH (Z.min x a)) as [Hin Hall]. split.
    + destruct Hin as [Hin | Hin]; [| now right; right].
      rewrite <- Hin.
      destruct (Z.min_spec x a) as [[_ E] | [_ E]]; rewrite E; auto.
    + inversion Hall as [| ? ? Hm Hrest]; subst.
      constructor; [lia | constructor; [lia | assumption]].
Qed.

Section SortedSetFacts.

Context {A : Type} (cmp : A -> A -> comparison).
Hypothesis cmp_eq : forall a b, cmp a b = Eq -> a = b.

Lemma In_insert (x y : A) (l : list A) :
  In y (Py.insert cmp x l) <-> y = x \/ In y l.
Proof.
  induction l as [|z l IH]; simpl.
  - intuition.
  - destruct (cmp x z) eqn:E; simpl.
    + apply cmp_eq in E. subst z. intuition.
    + intuition.
    + rewrite IH. intuition.
Qed.

Lemma In_sorted_set (y : A) (l : list A) :
  In y (Py.sorted_set cmp l) <-> In y l.
Proof.
  induction l as [|x l IH]; simpl; [reflexivity |].
  rewrite In_insert, IH. intuition.
Qed.


End SortedSetFacts.

Lemma In_sorted_set_int (y : Z) (l : list Z) :
  In y (Py.sorted_set_int l) <-> In y l.
Proof. apply In_sorted_set. intros a b. apply Z.compare_eq. Qed.


Lemma insert_int_HdRel (a x : Z) (l : list Z) :
  a < x -> HdRel Z.lt a l -> HdRel Z.lt a (Py.insert Z.compare x l).
Proof.
  intros Hax Hhd. destruct l as [|y l]; simpl.
  - now constructor.
  - destruct (x ?= y); try assumption.
    + now constructor.
    + inversion Hhd; subst. now constructor.
Qed.

Lemma insert_int_Sorted (x : Z) (l : list Z) :
  Sorted Z.lt l -> Sorted Z.lt (Py.insert Z.compare x l).
Proof.
  induction l as [|y l IH]; intros Hs; simpl.
  - repeat constructor.
  - destruct (Z.compare_spec x y) as [E | E | E]; try assumption.
    + constructor; [assumption | now constructor].
    + inversion Hs; subst. constructor; [now apply IH |].
      now apply insert_int_HdRel.
Qed.

(** [sorted(set(xs))] is strictly increasing. *)
Lemma sorted_set_int_Sorted (l : list Z) :
  Sorted Z.lt (Py.sorted_set_int l).
Proof.
  unfold Py.sorted_set_int, Py.sorted_set.
  induction l as [|x l IH]; simpl; [constructor |].
  now apply insert_int_Sorted.
Qed.

Lemma mode_key_compare_eq (a b : mode) :
  mode_key_compare a b = Eq -> a = b.
Proof.
  destruct a as [[[aw ah] ab] ar], b as [[[bw bh] bb] br]. simpl.
  destruct (Z.compare_spec aw bw); try discriminate.
  destruct (Z.compare_spec ah bh); try discriminate.
  destruct (Z.compare_spec ar br); try discriminate.
  intros E. apply Z.compare_eq in E. now subst.
Qed.

Lemma pair_eqb_eq (a b : Z * Z) : Py.pair_eqb a b = true <-> a = b.
Proof.
  destruct a as [a1 a2], b as [b1 b2]. unfold Py.pair_eqb. simpl.
  rewrite andb_true_iff, !Z.eqb_eq. split.
  - intros [-> ->]. reflexivity.
  - intros E. inversion E. auto.
Qed.

(** The rates at a resolution are the rates of the modes of that
    resolution. *)
Lemma In_rates_at (res : Z * Z) (r : Z) (modes : list mode) :
  In r (rates_at res modes) <->
  exists bpp, In (fst res, snd res, bpp, r) modes.
Proof.
  induction modes as [|[[[w h] bpp] r'] modes IH]; simpl.
  - split; [intros [] | intros [_ []]].
  - destruct (Py.pair_eqb (w, h) res) eqn:E.
    + apply pair_eqb_eq in E. subst res. simpl. rewrite IH. split.
      * intros [-> | [b Hb]]; [exists bpp; now left | exists b; now right].
      * intros [b [Hb | Hb]]; [left; congruence | right; now exists b].
    + rewrite IH. split.
      * intros [b Hb]. exists b. now right.
      * intros [b [Hb | Hb]]; [| now exists b].
        exfalso. inversion Hb; subst.
        assert (Py.pair_eqb (fst res, snd res) res = true)
          by (apply pair_eqb_eq; now destruct res).
        congruence.
Qed.

(** ** The monad *)

Lemma bind_inv {W A B : Type} (m : M W A) (k : A -> M W B)
    (s s' : state W) (r : outcome B) :
  bind m k s = (r, s') ->
  (exists a s1, m s = (Val a, s1) /\ k a s1 = (r, s')) \/
  (exists e, m s = (Raise e, s') /\ r = Raise e) \/
  (m s = (OutOfFuel, s') /\ r = OutOfFuel).
Proof.
  unfold bind. destruct (m s) as [[a | e |] s1]; intros H.
  - left. now exists a, s1.
  - right. left. exists e. now inversion H.
  - right. right. now inversion H.
Qed.

Lemma try_except_inv {W A : Type} (body : M W A)
    (handler : exception -> M W A) (s s' : state W) (r : outcome A) :
  try_except body handler s = (r, s') ->
  (exists e s1, body s = (Raise e, s1) /\ handler e s1 = (r, s')) \/
  (body s = (r, s') /\ forall e, r <> Raise e).
Proof.
  unfold try_except. destruct (body s) as [[a | e |] s1]; intros H.
  - right. inversion H; subst. split; [reflexivity | discriminate].
  - left. now exists e, s1.
  - right. inversion H; subst. split; [reflexivity | discriminate].
Qed.

Section Silent.

Context {W X : Type} (view : event -> list X).

Lemma silent_ret {A : Type} (a : A) : silent view (@ret W A a).
Proof. intros s r s' H. now inversion H. Qed.

Lemma silent_raise {A : Type} (e : exception) :
  silent view (@raise W A e).
Proof. intros s r s' H. now inversion H. Qed.

Lemma silent_out_of_fuel {A : Type} : silent view (@out_of_fuel W A).
Proof. intros s r s' H. now inversion H. Qed.

Lemma silent_value_of {A : Type} (o : option A) :
  silent view (@value_of W A o).
Proof. destruct o; [apply silent_ret | apply silent_raise]. Qed.

Lemma silent_bind {A B : Type} (m : M W A) (k : A -> M W B) :
  silent view m -> (forall a, silent view (k a)) ->
  silent view (bind m k).
Proof.
  intros Hm Hk s r s' H.
  destruct (bind_inv _ _ _ _ _ H)
    as [(a & s1 & E1 & E2) | [(e & E1 & _) | (E1 & _)]].
  - rewrite (Hk _ _ _ _ E2). exact (Hm _ _ _ E1).
  - exact (Hm _ _ _ E1).
  - exact (Hm _ _ _ E1).
Qed.

Lemma silent_try_except {A : Type} (body : M W A)
    (handler : exception -> M W A) :
  silent view body -> (forall e, silent view (handler e)) ->
  silent view (try_except body handler).
Proof.
  intros Hb Hh s r s' H.
  destruct (try_except_inv _ _ _ _ _ H)
    as [(e & s1 & E1 & E2) | (E1 & _)].
  - rewrite (Hh _ _ _ _ E2). exact (Hb _ _ _ E1).
  - exact (Hb _ _ _ E1).
Qed.

Lemma silent_emit (e : event) :
  view e = [] -> silent view (@emit W e).
Proof.
  intros He s r s' H. inversion H; subst. simpl.
  rewrite flat_map_app. simpl. rewrite He. now rewrite !app_nil_r.
Qed.

Lemma silent_foreign_call {A : Type} (f : W -> foreign A * W)
    (ev : foreign A -> event) :
  (forall r, view (ev r) = []) -> silent view (foreign_call f ev).
Proof.
  intros He s r s' H. unfold foreign_call in H.
  destruct (f (world s)) as [[a | c] w']; inversion H; subst; simpl;
    rewrite flat_map_app; simpl; rewrite He; now rewrite !app_nil_r.
Qed.

End Silent.

Ltac silence :=
  repeat first
    [ apply silent_ret
    | apply silent_raise
    | apply silent_out_of_fuel
    | apply silent_value_of
    | apply silent_emit; reflexivity
    | apply silent_foreign_call; intros; reflexivity
    | apply silent_bind
    | apply silent_try_except
    | match goal with
      | |- silent _ (match ?x with _ => _ end) => destruct x
      | |- forall _, _ => intros
      end ].

Lemma flat_map_snoc {X Y : Type} (f : X -> list Y) (l : list X) (x : X) :
  flat_map f (l ++ [x]) = flat_map f l ++ f x.
Proof. rewrite flat_map_app. simpl. now rewrite app_nil_r. Qed.

(** What [emit e ;; k] adds to a view when [k] is silent for it. *)
Lemma bind_emit_view {W X B : Type} (view : event -> list X) (e : event)
    (k : unit -> M W B) (s s' : state W) (r : outcome B) :
  (forall u, silent view (k u)) ->
  bind (emit e) k s = (r, s') ->
  flat_map view (trace s') = flat_map view (trace s) ++ view e.
Proof.
  intros Hk H. unfold bind, emit in H. apply Hk in H.
  rewrite H. simpl. apply flat_map_snoc.
Qed.

Lemma automatic_target_defined (plugged : bool) (rates : list Z) :
  rates <> [] -> exists t, automatic_target plugged rates = Some t.
Proof.
  intros Hne. destruct rates as [|x rest]; [congruence |].
  unfold automatic_target.
  destruct plugged;
    match goal with |- context [if ?c then _ else _] => destruct c end;
    simpl; eauto.
Qed.

Section ScriptFacts.

Context {W : Type} (os : Win32 W).

(** *** Enumeration *)

Lemma list_modes_loop_silent {X : Type} (view : event -> list X) :
  (forall d i r, view (Enum d i r) = []) ->
  forall fuel device_name i modes,
    silent view (list_modes_loop os fuel device_name i modes).
Proof.
  intros Hv fuel. induction fuel as [|fuel IH]; intros d i modes; simpl.
  - apply silent_out_of_fuel.
  - apply silent_bind.
    + apply silent_foreign_call. intros. apply Hv.
    + intros [dm |]; [apply IH | apply silent_ret].
Qed.

Lemma list_modes_silent {X : Type} (view : event -> list X) :
  (forall d i r, view (Enum d i r) = []) ->
  forall fuel device_name, silent view (list_modes os fuel device_name).
Proof.
  intros Hv fuel d. unfold list_modes. apply silent_bind.
  - now apply list_modes_loop_silent.
  - intros. apply silent_ret.
Qed.

Lemma get_current_mode_silent {X : Type} (view : event -> list X) :
  (forall d i r, view (Enum d i r) = []) ->
  forall device_name, silent view (get_current_mode os device_name).
Proof.
  intros Hv d. apply silent_foreign_call. intros. apply Hv.
Qed.

(** With more fuel than the driver has modes, the enumeration ends. *)
Lemma list_modes_loop_total (bound : nat) :
  enum_bounded os bound ->
  forall fuel device_name i modes s,
    (0 < fuel)%nat -> Z.of_nat bound - i < Z.of_nat fuel ->
    fst (list_modes_loop os fuel device_name i modes s) <> OutOfFuel.
Proof.
  intros Hb fuel. induction fuel as [|fuel IH]; intros d i modes s Hpos Hf.
  - lia.
  - simpl. unfold bind, call_EnumDisplaySettingsW, foreign_call.
    destruct (EnumDisplaySettingsW os d i (world s)) as [[[dm |] | c] w']
      eqn:E; simpl; try discriminate.
    destruct (Z_lt_le_dec i (Z.of_nat bound)) as [Hlt | Hge].
    + apply IH; lia.
    + exfalso. exact (Hb d i (world s) dm w' Hge E).
Qed.

Lemma list_modes_total (bound fuel : nat) (device_name : option string)
    (s : state W) :
  enum_bounded os bound -> (bound < fuel)%nat ->
  fst (list_modes os fuel device_name s) <> OutOfFuel.
Proof.
  intros Hb Hf. unfold list_modes, bind.
  pose proof (list_modes_loop_total bound Hb fuel device_name 0 [] s) as H.
  destruct (list_modes_loop os fuel device_name 0 [] s) as [[m | e |] s1];
    simpl in *; try discriminate.
  apply H; lia.
Qed.

(** *** [set_refresh_rate] *)

Lemma set_refresh_rate_timeline fuel target_hz device_name test_first
    (s s' : state W) (r : outcome bool) :
  set_refresh_rate os fuel target_hz device_name test_first s = (r, s') ->
  timeline (trace s') = timeline (trace s) ++ [Applied target_hz].
Proof.
  unfold set_refresh_rate. intros H.
  apply (bind_emit_view moment_of) in H; [exact H |].
  intros _. apply silent_bind.
  - now apply get_current_mode_silent.
  - intros [dm |]; [| apply silent_raise].
    apply silent_bind; [now apply list_modes_silent |].
    unfold call_EnumDisplaySettingsW, call_ChangeDisplaySettingsExW.
    silence.
Qed.

(** *** Sampling *)

Lemma sample_power_spec (s s' : state W) (r : outcome (option bool)) :
  sample_power os s = (r, s') ->
  exists fr w',
    GetSystemPowerStatus os (world s) = (fr, w') /\
    r = Val (plugged_of fr) /\
    s' = mkState w' (trace s ++ [Power fr]).
Proof.
  unfold sample_power, is_plugged_in, call_GetSystemPowerStatus,
    try_except, bind, foreign_call, ret, raise.
  destruct (GetSystemPowerStatus os (world s)) as [[[status |] | c] w']
    eqn:E; simpl; intros H; inversion H; subst;
    do 2 eexists; repeat split; reflexivity.
Qed.

Lemma sample_power_timeline (s s' : state W) (p : option bool) :
  sample_power os s = (Val p, s') ->
  timeline (trace s') = timeline (trace s) ++ [Sampled p].
Proof.
  intros H. destruct (sample_power_spec _ _ _ H) as (fr & w' & _ & E & ->).
  inversion E; subst. unfold timeline. cbn [trace].
  now rewrite flat_map_snoc.
Qed.

(** Once [set_refresh_rate] has been called inside a [try] whose
    handler only reports, the timeline has the call and nothing is
    raised. *)
Lemma reported_apply_timeline (fuel : nat) (t : Z) (done : ui_update)
    (report : exception -> ui_update) (sa sb : state W)
    (ra : outcome unit) :
  try_except
    (set_refresh_rate os fuel t None true ;; ui done)
    (fun e => ui (report e)) sa = (ra, sb) ->
  timeline (trace sb) = timeline (trace sa) ++ [Applied t] /\
  (ra = Val tt \/ ra = OutOfFuel).
Proof.
  intros Ht. apply try_except_inv in Ht.
  destruct Ht as [(e & s4 & Hb & Hh) | (Hb & Hn)];
    apply bind_inv in Hb;
    destruct Hb as [(b & s5 & Hset & Hui) | [(e' & Hset & ?) | (Hset & ?)]];
    try discriminate; try (inversion Hui; fail);
    apply set_refresh_rate_timeline in Hset.
  - inversion Hh; subst. unfold timeline in *. cbn [trace].
    rewrite flat_map_snoc. cbn [moment_of]. rewrite app_nil_r. auto.
  - inversion Hui; subst. unfold timeline in *. cbn [trace].
    rewrite flat_map_snoc. cbn [moment_of]. rewrite app_nil_r. auto.
  - subst. now elim (Hn e').
  - subst. auto.
Qed.

(** *** One turn of the loop *)

Lemma poll_iteration_timeline fuel self last_plugged
    (s s' : state W) (r : outcome (option bool)) :
  poll_iteration os fuel self last_plugged s = (r, s') ->
  exists p s1,
    sample_power os s = (Val p, s1) /\
    timeline (trace s') =
      timeline (trace s) ++ Sampled p :: turn_applies self last_plugged p /\
    (r = Val p \/ r = OutOfFuel \/
     (r = Raise ValueError /\
      state_changed last_plugged p && negb (override_var self) = true /\
      automatic_target (truthy p) (available_rates self) = None)).
Proof.
  unfold poll_iteration. intros H.
  apply bind_inv in H.
  destruct H as [(p & s1 & Hs & H) | [(e & Hs & _) | (Hs & _)]];
    try (destruct (sample_power_spec _ _ _ Hs) as (? & ? & _ & ? & _);
         discriminate).
  exists p, s1. split; [exact Hs |].
  apply sample_power_timeline in Hs.
  unfold bind at 1, ui at 1, emit in H.
  set (s2 := mkState (world s1) _) in H.
  assert (Hfrom : forall rest,
    timeline (trace s') = timeline (trace s2) ++ rest ->
    timeline (trace s') = timeline (trace s) ++ Sampled p :: rest).
  { intros rest ->. unfold s2, timeline in *. cbn [trace].
    rewrite flat_map_snoc, Hs. cbn [moment_of].
    now rewrite app_nil_r, <- app_assoc. }
  clearbody s2. clear Hs. unfold turn_applies.
  destruct (state_changed last_plugged p); cbn [andb].
  2:{ unfold bind, ret in H. inversion H; subst.
      split; [apply Hfrom; now rewrite app_nil_r | auto]. }
  destruct (override_var self); cbn [negb].
  { unfold bind, ret in H. inversion H; subst.
    split; [apply Hfrom; now rewrite app_nil_r | auto]. }
  destruct (automatic_target (truthy p) (available_rates self)) as [t |].
  2:{ unfold bind, value_of, raise in H. inversion H; subst.
      split; [apply Hfrom; now rewrite app_nil_r | auto 6]. }
  unfold bind at 1, value_of, ret at 1 in H.
  apply bind_inv in H.
  destruct H as [(u & s3 & Hb & H) | [(e & Hb & ->) | (Hb & ->)]];
    destruct (reported_apply_timeline _ _ _ _ _ _ _ Hb) as [Ht [Hr | Hr]];
    try discriminate.
  - inversion H; subst. split; [now apply Hfrom | auto].
  - split; [now apply Hfrom | auto].
Qed.

End ScriptFacts.

(** * The automatic policy *)

(** C5. For every non-empty collection of available rates, the automatic
    target is 240 when 240 is available and the maximum of the rates
    otherwise when plugged in, and 60 when 60 is available and the minimum
    of the rates otherwise when on battery. In particular the targets for
    (plugged, 60 144 240), (plugged, 60 120), (battery, 60 144 240) and
    (battery, 120 144) are 240, 120, 60 and 120. *)
Theorem automatic_target_prefers_240_and_60 (rates : list Z) :
  rates <> [] ->
  exists hi lo,
    (In hi rates /\ Forall (fun r => r <= hi) rates) /\
    (In lo rates /\ Forall (fun r => lo <= r) rates) /\
    automatic_target true rates =
      Some (if in_dec Z.eq_dec 240 rates then 240 else hi) /\
    automatic_target false rates =
      Some (if in_dec Z.eq_dec 60 rates then 60 else lo) /\
    automatic_target true [60; 144; 240] = Some 240 /\
    automatic_target true [60; 120] = Some 120 /\
    automatic_target false [60; 144; 240] = Some 60 /\
    automatic_target false [120; 144] = Some 120.
Proof.
  intros Hne. destruct rates as [|x rest]; [congruence |].
  exists (fold_left Z.max rest x), (fold_left Z.min rest x).
  split; [apply fold_max_bounds |].
  split; [apply fold_min_bounds |].
  unfold automatic_target.
  repeat split; try reflexivity.
  - destruct (in_dec Z.eq_dec 240 (x :: rest)) as [Hin | Hout].
    + apply contains_In in Hin. now rewrite Hin.
    + apply contains_not_In in Hout. now rewrite Hout.
  - destruct (in_dec Z.eq_dec 60 (x :: rest)) as [Hin | Hout].
    + apply contains_In in Hin. now rewrite Hin.
    + apply contains_not_In in Hout. now rewrite Hout.
Qed.

Lemma automatic_target_prefers_240_and_60_witness :
  [60; 120] <> [] /\
  exists hi lo,
    (In hi [60; 120] /\ Forall (fun r => r <= hi) [60; 120]) /\
    (In lo [60; 120] /\ Forall (fun r => lo <= r) [60; 120]) /\
    automatic_target true [60; 120] =
      Some (if in_dec Z.eq_dec 240 [60; 120] then 240 else hi) /\
    automatic_target false [60; 120] =
      Some (if in_dec Z.eq_dec 60 [60; 120] then 60 else lo) /\
    automatic_target true [60; 144; 240] = Some 240 /\
    automatic_target true [60; 120] = Some 120 /\
    automatic_target false [60; 144; 240] = Some 60 /\
    automatic_target false [120; 144] = Some 120.
Proof.
  split; [discriminate |].
  apply (automatic_target_prefers_240_and_60 [60; 120]). discriminate.
Defined.

(** * The rates of the current resolution *)

Lemma get_current_mode_returns {W : Type} (os : Win32 W)
    (device_name : option string) (s : state W) :
  fst (get_current_mode os device_name s) <> OutOfFuel.
Proof.
  unfold get_current_mode, call_EnumDisplaySettingsW, foreign_call.
  destruct (EnumDisplaySettingsW os device_name ENUM_CURRENT_SETTINGS
              (world s)) as [[a | c] w']; discriminate.
Qed.

Lemma list_modes_loop_reports {W : Type} (os : Win32 W) (fuel : nat) :
  forall device_name i acc (s s' : state W) modes,
    list_modes_loop os fuel device_name i acc s = (Val modes, s') ->
    exists dms,
      modes = acc ++ map mode_of dms /\
      trace s' =
        trace s ++ enum_events device_name i dms
          ++ [Enum device_name (i + Z.of_nat (length dms)) (Returned None)].
Proof.
  induction fuel as [|fuel IH]; intros d i acc s s' modes H; simpl in H.
  - discriminate.
  - unfold bind, call_EnumDisplaySettingsW, foreign_call in H.
    destruct (EnumDisplaySettingsW os d i (world s)) as [[[dm |] | c] w'].
    + apply IH in H. destruct H as (dms & Hm & Ht). exists (dm :: dms).
      split.
      * rewrite Hm, <- app_assoc. reflexivity.
      * rewrite Ht. cbn [trace enum_events length map].
        rewrite <- app_assoc. cbn [app].
        replace (i + 1 + Z.of_nat (length dms))
          with (i + Z.of_nat (S (length dms))) by lia.
        reflexivity.
    + inversion H; subst. exists []. cbn.
      rewrite app_nil_r, Z.add_0_r. auto.
    + discriminate.
Qed.


(** * Validation, test and commit in [set_refresh_rate] *)

Lemma changes_through_validation {W : Type} (os : Win32 W) (fuel : nat)
    (target_hz : Z) (device_name : option string) (s s1 s2 : state W)
    (o1 : outcome (option DEVMODEW)) (o2 : outcome (list mode)) :
  get_current_mode os device_name
    (logged (Enter_set_refresh_rate target_hz) s) = (o1, s1) ->
  list_modes os fuel device_name s1 = (o2, s2) ->
  changes (trace s2) = changes (trace s).
Proof.
  intros H1 H2.
  apply (list_modes_silent os change_of) in H2; [| reflexivity].
  apply (get_current_mode_silent os change_of) in H1; [| reflexivity].
  unfold changes. rewrite H2, H1. cbn [logged trace].
  rewrite flat_map_snoc. apply app_nil_r.
Qed.

(** C1. When the requested rate is not among the rates that the listed
    modes have at the resolution of the current mode (the rates that
    [get_available_refresh_rates] returns include those), then
    [set_refresh_rate] raises the [RuntimeError] "Requested ... not
    supported", which carries the requested rate, the current resolution
    and the strictly increasing list of the valid rates, and it has called
    [ChangeDisplaySettingsExW] neither to test nor to commit. *)
Theorem set_refresh_rate_rejects_unsupported {W : Type} (os : Win32 W)
    (fuel : nat) (target_hz : Z) (device_name : option string)
    (test_first : bool) (s s1 s2 : state W) (dm : DEVMODEW)
    (modes : list mode) :
  get_current_mode os device_name
    (logged (Enter_set_refresh_rate target_hz) s) = (Val (Some dm), s1) ->
  list_modes os fuel device_name s1 = (Val modes, s2) ->
  ~ In target_hz (rates_at (dmPelsWidth dm, dmPelsHeight dm) modes) ->
  exists valid,
    set_refresh_rate os fuel target_hz device_name test_first s =
      (Raise (RuntimeError
                (Requested_not_supported target_hz
                   (dmPelsWidth dm, dmPelsHeight dm) valid)),
       s2) /\
    Sorted Z.lt valid /\
    (forall r, In r valid <->
       exists bpp, In (dmPelsWidth dm, dmPelsHeight dm, bpp, r) modes) /\
    changes (trace s2) = changes (trace s).
Proof.
  intros Hcur Hmodes Hnot.
  exists (Py.sorted_set_int
            (rates_at (dmPelsWidth dm, dmPelsHeight dm) modes)).
  split; [| split; [| split]].
  - unfold set_refresh_rate. unfold bind at 1, emit at 1.
    change (mkState (world s) (trace s ++ [?e])) with (logged e s).
    unfold bind at 1. rewrite Hcur. cbv zeta.
    unfold bind at 1. rewrite Hmodes.
    apply contains_not_In in Hnot. rewrite Hnot. reflexivity.
  - apply sorted_set_int_Sorted.
  - intros r. rewrite In_sorted_set_int.
    apply (In_rates_at (dmPelsWidth dm, dmPelsHeight dm)).
  - exact (changes_through_validation _ _ _ _ _ _ _ _ _ Hcur Hmodes).
Qed.

Lemma DWORD_small (z : Z) : 0 <= z < 2 ^ 32 -> Ctypes.DWORD z = z.
Proof. intros H. unfold Ctypes.DWORD. now apply Z.mod_small. Qed.

(** C2. With the test phase on, once the requested rate has passed the
    validation, [set_refresh_rate] reads the current mode, sets its
    refresh rate to the target (and the frequency bit of [dmFields]) and
    first passes that candidate to [ChangeDisplaySettingsExW] with
    [CDS_TEST]. A status other than success makes it raise "Test-change
    failed" with that status, and no commit call is made. After a
    successful test it passes the same candidate with flags 0; a status
    other than success makes it raise "Change failed" with that status,
    and success makes it return [True]. *)
Theorem set_refresh_rate_tests_then_commits {W : Type} (os : Win32 W)
    (fuel : nat) (target_hz : Z) (device_name : option string)
    (s s1 s2 : state W) (dm new_dm : DEVMODEW) (modes : list mode)
    (w3 w4 : W) (res_test : Z) :
  let candidate :=
    set_dmFields (set_dmDisplayFrequency new_dm target_hz)
                 (Z.lor (dmFields new_dm) DM_DISPLAYFREQUENCY) in
  0 <= target_hz < 2 ^ 32 ->
  get_current_mode os device_name
    (logged (Enter_set_refresh_rate target_hz) s) = (Val (Some dm), s1) ->
  list_modes os fuel device_name s1 = (Val modes, s2) ->
  In target_hz (rates_at (dmPelsWidth dm, dmPelsHeight dm) modes) ->
  EnumDisplaySettingsW os device_name ENUM_CURRENT_SETTINGS (world s2) =
    (Returned (Some new_dm), w3) ->
  ChangeDisplaySettingsExW os device_name candidate CDS_TEST w3 =
    (Returned res_test, w4) ->
  mode_of candidate =
    (dmPelsWidth new_dm, dmPelsHeight new_dm, dmBitsPerPel new_dm,
     target_hz) /\
  (res_test <> DISP_CHANGE_SUCCESSFUL ->
   exists s',
     set_refresh_rate os fuel target_hz device_name true s =
       (Raise (RuntimeError (Test_change_failed res_test)), s') /\
     world s' = w4 /\
     changes (trace s') =
       changes (trace s) ++ [(candidate, CDS_TEST, Returned res_test)]) /\
  (res_test = DISP_CHANGE_SUCCESSFUL ->
   forall res_commit w5,
     ChangeDisplaySettingsExW os device_name candidate 0 w4 =
       (Returned res_commit, w5) ->
     exists s',
       set_refresh_rate os fuel target_hz device_name true s =
         (if res_commit =? DISP_CHANGE_SUCCESSFUL then Val true
          else Raise (RuntimeError (Change_failed res_commit)),
          s') /\
       world s' = w5 /\
       changes (trace s') =
         changes (trace s) ++
           [(candidate, CDS_TEST, Returned res_test);
            (candidate, 0, Returned res_commit)]).
Proof.
  intros candidate Hrange Hcur Hmodes Hin Hnew Htest.
  pose proof (changes_through_validation _ _ _ _ _ _ _ _ _ Hcur Hmodes)
    as Hquiet.
  assert (Hrun : set_refresh_rate os fuel target_hz device_name true s =
    ((res <- call_ChangeDisplaySettingsExW os device_name candidate
               CDS_TEST ;;
      if negb (res =? DISP_CHANGE_SUCCESSFUL) then
        raise (RuntimeError (Test_change_failed res))
      else ret tt) ;;
     res <- call_ChangeDisplaySettingsExW os device_name candidate 0 ;;
     if negb (res =? DISP_CHANGE_SUCCESSFUL) then
       raise (RuntimeError (Change_failed res))
     else ret true)
      (mkState w3
         (trace s2 ++
          [Enum device_name ENUM_CURRENT_SETTINGS
             (Returned (Some new_dm))]))).
  { unfold set_refresh_rate. unfold bind at 1, emit at 1.
    change (mkState (world s) (trace s ++ [?e])) with (logged e s).
    unfold bind at 1. rewrite Hcur. cbv zeta.
    unfold bind at 1. rewrite Hmodes.
    apply contains_In in Hin. rewrite Hin. cbn [negb].
    unfold bind at 1, call_EnumDisplaySettingsW at 1, foreign_call at 1.
    rewrite Hnew. reflexivity. }
  split; [| split].
  - unfold candidate, mode_of. cbn. now rewrite DWORD_small.
  - intros Hfail. apply Z.eqb_neq in Hfail.
    rewrite Hrun. unfold bind, call_ChangeDisplaySettingsExW, foreign_call.
    cbn [world trace]. rewrite Htest, Hfail. cbn [negb].
    eexists. split; [reflexivity |]. split; [reflexivity |].
    cbn [trace]. unfold changes in *. rewrite !flat_map_snoc, Hquiet.
    cbn [change_of]. now rewrite app_nil_r.
  - intros Hok res_commit w5 Hcommit. subst res_test.
    rewrite Hrun. unfold bind, call_ChangeDisplaySettingsExW, foreign_call.
    cbn [world trace]. rewrite Htest, Z.eqb_refl. cbn [negb].
    unfold ret at 1. cbn [world trace]. rewrite Hcommit.
    destruct (res_commit =? DISP_CHANGE_SUCCESSFUL); cbn [negb];
      (eexists; split; [reflexivity |]; split; [reflexivity |];
       cbn [trace]; unfold changes in *; rewrite !flat_map_snoc, Hquiet;
       cbn [change_of]; rewrite app_nil_r, <- app_assoc; reflexivity).
Qed.

(** * The power query *)

(** C7, as the script has it. [is_plugged_in] returns a plain boolean:
    [True] exactly when the [ACLineStatus] byte, read as a signed byte, is
    1, and [False] for every other reading. The unknown status 255 is
    reported as [False], the same result as for the offline status 0. Only
    a failed query is told apart: when [GetSystemPowerStatus] returns
    zero, [is_plugged_in] returns nothing and raises the [RuntimeError]
    "GetSystemPowerStatus failed". *)
Theorem is_plugged_in_is_online_test {W : Type} (os : Win32 W)
    (s : state W) (answer : foreign (option SYSTEM_POWER_STATUS)) (w' : W) :
  GetSystemPowerStatus os (world s) = (answer, w') ->
  is_plugged_in os s =
    (match answer with
     | Returned (Some status) =>
         Val (Ctypes.BYTE (ACLineStatus status) =? 1)
     | Returned None => Raise (RuntimeError GetSystemPowerStatus_failed)
     | Faulted c => Raise (OSError c)
     end,
     logged (Power answer) (mkState w' (trace s))) /\
  (forall status, answer = Returned (Some status) ->
     (ACLineStatus status = 1 -> fst (is_plugged_in os s) = Val true) /\
     (ACLineStatus status = 0 -> fst (is_plugged_in os s) = Val false) /\
     (ACLineStatus status = 255 -> fst (is_plugged_in os s) = Val false)) /\
  (answer = Returned None ->
   fst (is_plugged_in os s) =
     Raise (RuntimeError GetSystemPowerStatus_failed)) /\
  ((exists b, fst (is_plugged_in os s) = Val b) <->
   exists status, answer = Returned (Some status)).
Proof.
  intros H.
  assert (E : is_plugged_in os s =
    (match answer with
     | Returned (Some status) =>
         Val (Ctypes.BYTE (ACLineStatus status) =? 1)
     | Returned None => Raise (RuntimeError GetSystemPowerStatus_failed)
     | Faulted c => Raise (OSError c)
     end,
     logged (Power answer) (mkState w' (trace s)))).
  { unfold is_plugged_in, bind, call_GetSystemPowerStatus, foreign_call.
    rewrite H. now destruct answer as [[status |] | c]. }
  split; [exact E |]. rewrite E. cbn [fst].
  split; [| split].
  - intros status ->. repeat split; intros ->; reflexivity.
  - intros ->. reflexivity.
  - split.
    + intros (b & Hb). destruct answer as [[status |] | c];
        try discriminate. now exists status.
    + intros (status & ->). eexists. reflexivity.
Qed.

(** C7 fails as stated: on a reading whose [ACLineStatus] is 255,
    [is_plugged_in] answers [False], as it does on the offline reading 0,
    and the loop then shows "On Battery" and applies the battery rate. *)
Lemma is_plugged_in_unknown_reads_as_battery :
  fst (is_plugged_in (Laptop.os Laptop.panel)
         (Laptop.boot Laptop.full_hd 0 0 [Some 255])) = Val false /\
  fst (is_plugged_in (Laptop.os Laptop.panel)
         (Laptop.boot Laptop.full_hd 0 0 [Some 0])) = Val false /\
  ui_updates (trace Laptop.after_unknown_reading) =
    [Status_text "On Battery (Discharging)"; Rate_text 60] /\
  applies (trace Laptop.after_unknown_reading) = [60].
Proof. repeat split; vm_compute; reflexivity. Qed.

(** * The polling loop *)

Lemma samples_of_timeline (t : list event) :
  samples t = flat_map sampled_in (timeline t).
Proof.
  unfold samples, timeline. induction t as [|e t IH]; [reflexivity |].
  cbn [flat_map]. rewrite flat_map_app, IH. now destruct e.
Qed.

Lemma applies_of_timeline (t : list event) :
  applies t = flat_map applied_in (timeline t).
Proof.
  unfold applies, timeline. induction t as [|e t IH]; [reflexivity |].
  cbn [flat_map]. rewrite flat_map_app, IH. now destruct e.
Qed.

Lemma turn_applies_no_sample (self : RefreshGUI) (last p : option bool) :
  flat_map sampled_in (turn_applies self last p) = [].
Proof.
  unfold turn_applies.
  destruct (state_changed last p && negb (override_var self));
    [| reflexivity].
  now destruct (automatic_target (truthy p) (available_rates self)).
Qed.

Lemma turns_timeline_samples (views : list RefreshGUI) :
  forall last ps,
    (length ps <= length views)%nat ->
    flat_map sampled_in (turns_timeline views last ps) = ps.
Proof.
  induction views as [|self later IH]; intros last [|p ps] Hlen;
    simpl in *; try reflexivity; try lia.
  rewrite flat_map_app, turn_applies_no_sample, IH by lia. reflexivity.
Qed.

Section LoopFacts.

Context {W : Type} (os : Win32 W).

(** What a run of the loop adds to the timeline. *)
Lemma poll_turns_timeline (fuel : nat) (views : list RefreshGUI) :
  forall last_plugged (s s' : state W) r,
    poll_turns os fuel views last_plugged s = (r, s') ->
    exists ps,
      (length ps <= length views)%nat /\
      timeline (trace s') =
        timeline (trace s) ++ turns_timeline views last_plugged ps.
Proof.
  induction views as [|self later IH]; intros last s s' r H; simpl in H.
  - inversion H; subst. exists []. simpl. now rewrite app_nil_r.
  - destruct (running self).
    2:{ inversion H; subst. exists []. simpl.
        split; [lia | now rewrite app_nil_r]. }
    apply bind_inv in H.
    destruct H as [(p & s1 & Hit & H) | [(e & Hit & _) | (Hit & _)]].
    + apply poll_iteration_timeline in Hit.
      destruct Hit as (p' & _ & _ & Ht & [Hr | [Hr | [Hr _]]]);
        try discriminate.
      inversion Hr; subst p'.
      destruct (IH _ _ _ _ H) as (ps & Hlen & Hrest).
      exists (p :: ps). simpl. split; [lia |].
      rewrite Hrest, Ht, <- app_assoc. reflexivity.
    + apply poll_iteration_timeline in Hit.
      destruct Hit as (p & _ & _ & Ht & _).
      exists [p]. simpl. split; [lia |].
      destruct later; simpl; now rewrite Ht, ?app_nil_r.
    + apply poll_iteration_timeline in Hit.
      destruct Hit as (p & _ & _ & Ht & _).
      exists [p]. simpl. split; [lia |].
      destruct later; simpl; now rewrite Ht, ?app_nil_r.
Qed.

End LoopFacts.

Lemma turns_timeline_nil (views : list RefreshGUI) (last : option bool) :
  turns_timeline views last [] = [].
Proof. now destruct views. Qed.

(** The turn of a window in automatic mode whose rates are not empty. *)
Lemma turn_applies_automatic (self : RefreshGUI) (last p : option bool) :
  override_var self = false -> available_rates self <> [] ->
  exists t,
    automatic_target (truthy p) (available_rates self) = Some t /\
    turn_applies self last p =
      if state_changed last p then [Applied t] else [].
Proof.
  intros Hov Hne.
  destruct (automatic_target_defined (truthy p) _ Hne) as [t Ht].
  exists t. split; [exact Ht |].
  unfold turn_applies. rewrite Hov, Ht, andb_true_r. reflexivity.
Qed.

(** C3. With override off at every turn, when the samples that the loop
    takes are plugged, plugged, battery, battery, plugged, it calls
    [set_refresh_rate] exactly three times: right after the first sample,
    after the third (plugged to battery) and after the fifth (battery to
    plugged), and not after the second and the fourth. *)
Theorem poll_loop_applies_on_transitions_only {W : Type} (os : Win32 W)
    (fuel : nat) (views : list RefreshGUI) (s s' : state W)
    (r : outcome (option bool)) :
  Forall (fun self =>
            override_var self = false /\ available_rates self <> [])
         views ->
  poll_loop os fuel views s = (r, s') ->
  samples (trace s') =
    samples (trace s) ++
      [Some true; Some true; Some false; Some false; Some true] ->
  exists t1 t2 t3,
    timeline (trace s') =
      timeline (trace s) ++
        [Sampled (Some true); Applied t1;
         Sampled (Some true);
         Sampled (Some false); Applied t2;
         Sampled (Some false);
         Sampled (Some true); Applied t3] /\
    applies (trace s') = applies (trace s) ++ [t1; t2; t3] /\
    length (applies (trace s')) = (length (applies (trace s)) + 3)%nat.
Proof.
  intros Hviews Hrun Hsamples. unfold poll_loop in Hrun.
  apply poll_turns_timeline in Hrun. destruct Hrun as (ps & Hlen & Ht).
  rewrite !samples_of_timeline, Ht, flat_map_app in Hsamples.
  rewrite turns_timeline_samples in Hsamples by exact Hlen.
  apply app_inv_head in Hsamples. subst ps.
  destruct views as [|v1 [|v2 [|v3 [|v4 [|v5 rest]]]]];
    simpl in Hlen; try lia.
  repeat match goal with
         | H : Forall _ (_ :: _) |- _ => inversion H; clear H; subst
         end.
  repeat match goal with H : _ /\ _ |- _ => destruct H end.
  destruct (turn_applies_automatic v1 None (Some true)) as (t1 & _ & E1);
    try assumption.
  destruct (turn_applies_automatic v2 (Some true) (Some true))
    as (? & _ & E2); try assumption.
  destruct (turn_applies_automatic v3 (Some true) (Some false))
    as (t2 & _ & E3); try assumption.
  destruct (turn_applies_automatic v4 (Some false) (Some false))
    as (? & _ & E4); try assumption.
  destruct (turn_applies_automatic v5 (Some false) (Some true))
    as (t3 & _ & E5); try assumption.
  cbn [turns_timeline] in Ht.
  rewrite E1, E2, E3, E4, E5, turns_timeline_nil in Ht. cbn in Ht.
  exists t1, t2, t3. split; [exact Ht |].
  assert (Ha : applies (trace s') = applies (trace s) ++ [t1; t2; t3]).
  { rewrite !applies_of_timeline, Ht, flat_map_app. reflexivity. }
  split; [exact Ha |]. rewrite Ha, length_app. reflexivity.
Qed.

Lemma turns_timeline_override (views : list RefreshGUI) :
  Forall (fun self => override_var self = true) views ->
  forall last ps,
    (length ps <= length views)%nat ->
    turns_timeline views last ps = map Sampled ps.
Proof.
  induction 1 as [|self later Hov _ IH]; intros last [|p ps] Hlen;
    simpl in *; try reflexivity; try lia.
  unfold turn_applies. rewrite Hov, andb_false_r. simpl.
  now rewrite IH by lia.
Qed.

Lemma applies_of_samples (ps : list (option bool)) :
  flat_map applied_in (map Sampled ps) = [].
Proof. induction ps as [|p ps IH]; [reflexivity | exact IH]. Qed.

(** C4. While the override flag is set, the loop only samples: over any
    stretch of turns that find the flag set (a single turn is a stretch
    of one), from any [last_plugged] and whatever the power does, it
    never calls [set_refresh_rate].
    A click on "Apply now" with the flag set still calls
    [set_refresh_rate], once, with the manually selected rate, and
    without looking at the power status. *)
Theorem override_blocks_automatic_apply {W : Type} (os : Win32 W)
    (fuel : nat) (views : list RefreshGUI) (last_plugged : option bool)
    (self : RefreshGUI) (s s' s'' : state W)
    (r : outcome (option bool)) (r' : outcome unit) :
  Forall (fun v => override_var v = true) views ->
  override_var self = true ->
  poll_turns os fuel views last_plugged s = (r, s') ->
  on_apply_clicked os fuel self s' = (r', s'') ->
  (exists ps, timeline (trace s') = timeline (trace s) ++ map Sampled ps) /\
  applies (trace s') = applies (trace s) /\
  timeline (trace s'') =
    timeline (trace s') ++ [Applied (selected_rate self)] /\
  applies (trace s'') = applies (trace s') ++ [selected_rate self].
Proof.
  intros Hviews Hov Hloop Hclick.
  apply poll_turns_timeline in Hloop. destruct Hloop as (ps & Hlen & Ht).
  rewrite (turns_timeline_override views Hviews _ _ Hlen) in Ht.
  assert (Hc : timeline (trace s'') =
               timeline (trace s') ++ [Applied (selected_rate self)]).
  { unfold on_apply_clicked in Hclick. rewrite Hov in Hclick.
    change (try_except
              (set_refresh_rate os fuel (selected_rate self) None true ;;
               ui (Rate_text (selected_rate self)))
              (fun e => ui (Show_error "Error applying refresh rate" e))
              s' = (r', s'')) in Hclick.
    now apply reported_apply_timeline in Hclick. }
  split; [now exists ps |]. split; [| split; [exact Hc |]].
  - rewrite !applies_of_timeline, Ht, flat_map_app, applies_of_samples.
    apply app_nil_r.
  - rewrite !applies_of_timeline, Hc, flat_map_app. reflexivity.
Qed.

(** C8 fails on the script. The machine stays plugged in and the second
    of three power queries fails: the failed sample is shown as "Unknown"
    and applies nothing, but it is stored as [last_plugged = None], so the
    third, unchanged sample is taken for a first one and
    [set_refresh_rate] is called again. *)
Theorem poll_loop_reapplies_after_failed_query :
  timeline (trace Laptop.after_failed_query) =
    [Sampled (Some true); Applied 120;
     Sampled None;
     Sampled (Some true); Applied 120] /\
  ui_updates (trace Laptop.after_failed_query) =
    [Status_text "Plugged In (Charging)"; Rate_text 120;
     Status_text "Unknown";
     Status_text "Plugged In (Charging)"; Rate_text 120] /\
  state_changed None (Some true) = true /\
  state_changed (Some true) (Some true) = false.
Proof. repeat split; vm_compute; reflexivity. Qed.

(** * The rates the loop chooses from *)

Lemma get_available_refresh_rates_nonempty {W : Type} (os : Win32 W)
    (fuel : nat) (device_name : option string) (s s' : state W)
    (rates : list Z) :
  get_available_refresh_rates os fuel device_name s = (Val rates, s') ->
  rates <> [].
Proof.
  unfold get_available_refresh_rates, try_except. unfold bind at 1.
  destruct (get_current_mode os device_name s) as [[[dm |] | e |] s1];
    try (cbn; intros H; inversion H; now unfold fallback_rates).
  cbv zeta. unfold bind at 1, print at 1, emit at 1. unfold bind at 1.
  destruct (list_modes os fuel device_name _) as [[modes | e |] s2];
    try (cbn; intros H; inversion H; now unfold fallback_rates).
  destruct (Py.sorted_set_int _) as [|r0 found];
    cbn; intros H; inversion H; [now unfold fallback_rates | discriminate].
Qed.

(** [__init__] stores what [get_available_refresh_rates] returned. *)
Lemma RefreshGUI_init_rates {W : Type} (os : Win32 W) (fuel : nat)
    (s s' : state W) (self : RefreshGUI) :
  RefreshGUI_init os fuel s = (Val self, s') ->
  exists s1,
    get_available_refresh_rates os fuel None s =
      (Val (available_rates self), s1).
Proof.
  unfold RefreshGUI_init. intros H.
  apply bind_inv in H.
  destruct H as [(rates & s1 & Hr & H) | [(e & _ & ?) | (_ & ?)]];
    try discriminate.
  exists s1.
  apply bind_inv in H.
  destruct H as [(d & s2 & _ & H) | [(e & _ & ?) | (_ & ?)]];
    try discriminate.
  apply bind_inv in H.
  destruct H as [(u & s3 & _ & H) | [(e & _ & ?) | (_ & ?)]];
    try discriminate.
  inversion H; subst. exact Hr.
Qed.

(** C9 fails on the script. The window is built at 1920x1080, where the
    rates are 60 and 120; the display is then switched to 1280x720, where
    a fresh query gives 60, 144 and 240, and the machine is plugged in.
    The loop chooses among the rates it stored when the window was built:
    it asks for 120 and not for 240, the highest rate the display now
    offers, and [set_refresh_rate], which validates against the live
    modes, refuses the request, so that the rate does not change at
    all. *)
Theorem poll_target_ignores_live_rates :
  fst Laptop.built = Val (Laptop.window false 120) /\
  fst (get_available_refresh_rates (Laptop.os Laptop.panel) 10 None
         Laptop.switched) = Val [60; 144; 240] /\
  automatic_target true [60; 144; 240] = Some 240 /\
  timeline (trace Laptop.after_switch) = [Sampled (Some true); Applied 120] /\
  applies (trace Laptop.after_switch) <> [240] /\
  changes (trace Laptop.after_switch) = [] /\
  In (Show_warning "Could not change refresh rate"
        (RuntimeError
           (Requested_not_supported 120 (1280, 720) [60; 144; 240])))
     (ui_updates (trace Laptop.after_switch)).
Proof.
  repeat split; try (vm_compute; reflexivity).
  - vm_compute. discriminate.
  - vm_compute. auto.
Qed.

(** * A failed application *)

Lemma state_changed_same (p : option bool) : state_changed p p = false.
Proof. now destruct p as [[|] |]. Qed.

(** Turns whose samples all repeat the power state of the sample before
    them apply nothing. *)
Lemma turns_timeline_same (b : bool) (views : list RefreshGUI) :
  forall ps,
    Forall (fun p => p = Some b) ps ->
    flat_map applied_in (turns_timeline views (Some b) ps) = [].
Proof.
  induction views as [|self later IH]; intros [|p ps] H;
    cbn [turns_timeline flat_map]; try reflexivity.
  inversion H; subst. cbn [applied_in app].
  rewrite flat_map_app, IH by assumption.
  unfold turn_applies. rewrite state_changed_same. reflexivity.
Qed.

(** After [k] such turns, a turn in automatic mode whose sample gives
    the other power state applies the rate for that state. *)
Lemma turns_timeline_next_change (b : bool) (k : nat) :
  forall views final,
    nth_error views k = Some final ->
    override_var final = false -> available_rates final <> [] ->
    exists t',
      automatic_target (negb b) (available_rates final) = Some t' /\
      flat_map applied_in
        (turns_timeline views (Some b)
           (repeat (Some b) k ++ [Some (negb b)])) = [t'].
Proof.
  induction k as [|k IH]; intros [|self later] final Hnth Hov Hne;
    try discriminate; cbn [nth_error] in Hnth.
  - inversion Hnth; subst self.
    destruct (turn_applies_automatic final (Some b) (Some (negb b)) Hov Hne)
      as (t' & Ht & Happ).
    exists t'. split; [exact Ht |].
    cbn [repeat app turns_timeline flat_map applied_in].
    rewrite flat_map_app, Happ.
    replace (state_changed (Some b) (Some (negb b))) with true
      by now destruct b.
    now destruct later.
  - destruct (IH later final Hnth Hov Hne) as (t' & Ht & Happ).
    exists t'. split; [exact Ht |].
    cbn [repeat app turns_timeline flat_map applied_in].
    rewrite flat_map_app, Happ.
    unfold turn_applies. rewrite state_changed_same. reflexivity.
Qed.

(** C10. The loop is in automatic mode and its sample gives a power
    state other than the one it had before; it calls [set_refresh_rate],
    and the call raises. The loop does not stop: the turn ends with a
    warning that shows the error, and the next turn runs. When the next
    sample gives the same power state, that turn only shows the status
    and does not call [set_refresh_rate] again; when it gives the other
    power state, that turn calls [set_refresh_rate] again, with the rate
    for the new state. The same holds however long the loop goes on:
    while its samples repeat the power state, [set_refresh_rate] is not
    called again; at the first sample that gives the other state, it
    is. *)
Theorem failed_apply_keeps_the_loop_going {W : Type} (os : Win32 W)
    (fuel : nat) (self next : RefreshGUI) (last_plugged : option bool)
    (status : SYSTEM_POWER_STATUS) (b : bool) (t : Z) (e : exception)
    (s s2 : state W) (w1 w3 : W)
    (answer : foreign (option SYSTEM_POWER_STATUS)) :
  running self = true -> running next = true ->
  override_var self = false ->
  GetSystemPowerStatus os (world s) = (Returned (Some status), w1) ->
  b = (Ctypes.BYTE (ACLineStatus status) =? 1) ->
  last_plugged <> Some b ->
  automatic_target b (available_rates self) = Some t ->
  set_refresh_rate os fuel t None true
    (mkState w1
       (trace s ++ [Power (Returned (Some status));
                    Ui (Status_text (status_text_of (Some b)))]))
    = (Raise e, s2) ->
  GetSystemPowerStatus os (world s2) = (answer, w3) ->
  let warned :=
    logged (Ui (Show_warning "Could not change refresh rate" e)) s2 in
  poll_turns os fuel [self] last_plugged s = (Val (Some b), warned) /\
  (plugged_of answer = Some b ->
   poll_turns os fuel [self; next] last_plugged s =
     (Val (Some b),
      mkState w3
        (trace warned ++ [Power answer;
                          Ui (Status_text (status_text_of (Some b)))]))) /\
  (plugged_of answer = Some (negb b) ->
   override_var next = false -> available_rates next <> [] ->
   forall r s',
     poll_turns os fuel [self; next] last_plugged s = (r, s') ->
     exists t',
       automatic_target (negb b) (available_rates next) = Some t' /\
       timeline (trace s') =
         timeline (trace s) ++
           [Sampled (Some b); Applied t;
            Sampled (Some (negb b)); Applied t']) /\
  (forall nexts r s',
     poll_turns os fuel (self :: nexts) last_plugged s = (r, s') ->
     exists ps,
       samples (trace s') = samples (trace s) ++ Some b :: ps /\
       (Forall (fun p => p = Some b) ps ->
        applies (trace s') = applies (trace s) ++ [t]) /\
       (forall k final,
          ps = repeat (Some b) k ++ [Some (negb b)] ->
          nth_error nexts k = Some final ->
          override_var final = false -> available_rates final <> [] ->
          exists t',
            automatic_target (negb b) (available_rates final) = Some t' /\
            applies (trace s') = applies (trace s) ++ [t; t'])).
Proof.
  intros Hrun Hrun' Hov Hpower Hb Hlast Htarget Hset Hnext warned.
  assert (Hchanged : state_changed last_plugged (Some b) = true).
  { destruct last_plugged as [b' |]; [| reflexivity].
    destruct b, b'; try reflexivity; now elim Hlast. }
  assert (Hturn : poll_iteration os fuel self last_plugged s =
                    (Val (Some b), warned)).
  { unfold poll_iteration, sample_power, is_plugged_in,
      call_GetSystemPowerStatus, foreign_call, try_except.
    unfold bind at 1. unfold bind at 1. unfold bind at 1. rewrite Hpower.
    cbn [ret]. rewrite <- Hb.
    unfold bind at 1, ui at 1, emit at 1. cbn [world trace].
    rewrite <- app_assoc. cbn [app].
    rewrite Hchanged, Hov. cbn [negb truthy].
    unfold bind at 1. unfold bind at 1. rewrite Htarget.
    unfold value_of, ret at 1. unfold bind at 1.
    rewrite Hset. reflexivity. }
  assert (Hsample : sample_power os warned =
                      (Val (plugged_of answer),
                       mkState w3 (trace warned ++ [Power answer]))).
  { unfold sample_power, is_plugged_in, call_GetSystemPowerStatus,
      foreign_call, try_except, bind, ret, raise.
    unfold warned at 1. cbn [logged world]. rewrite Hnext.
    now destruct answer as [[st |] | c]. }
  assert (Hfirst : timeline (trace warned) =
                     timeline (trace s) ++ [Sampled (Some b); Applied t]).
  { apply poll_iteration_timeline in Hturn.
    destruct Hturn as (p & s1 & Hs & Ht & _).
    destruct (sample_power_spec _ _ _ _ Hs) as (fr & w' & Hp & Hv & _).
    rewrite Hpower in Hp. inversion Hp; subst fr w'. clear Hp.
    inversion Hv; subst p. clear Hv. cbn [plugged_of] in Ht.
    rewrite <- Hb in Ht. rewrite Ht. unfold turn_applies.
    rewrite Hchanged, Hov. cbn [andb negb truthy]. now rewrite Htarget. }
  split; [| split; [| split]].
  - cbn [poll_turns]. rewrite Hrun. unfold bind at 1. now rewrite Hturn.
  - intros Hsame. cbn [poll_turns]. rewrite Hrun, Hrun'.
    unfold bind at 1. rewrite Hturn.
    unfold bind at 1. unfold poll_iteration. unfold bind at 1.
    rewrite Hsample, Hsame.
    unfold bind at 1, ui at 1, emit at 1. cbn [world trace].
    rewrite <- app_assoc. cbn [app].
    rewrite state_changed_same. reflexivity.
  - intros Hother Hov' Hne r s' Hloop.
    cbn [poll_turns] in Hloop. rewrite Hrun, Hrun' in Hloop.
    unfold bind at 1 in Hloop. rewrite Hturn in Hloop.
    apply bind_inv in Hloop.
    assert (Hnextturn : exists r1 s1,
              poll_iteration os fuel next (Some b) warned = (r1, s1) /\
              s' = s1).
    { destruct Hloop as [(p & s1 & Hi & H) | [(x & Hi & _) | (Hi & _)]].
      - inversion H; subst. eauto.
      - eauto.
      - eauto. }
    destruct Hnextturn as (r1 & s1 & Hi & ->).
    apply poll_iteration_timeline in Hi.
    destruct Hi as (p & s0 & Hs & Ht & _).
    rewrite Hsample in Hs. inversion Hs; subst p s0. clear Hs.
    rewrite Hother in Ht.
    destruct (turn_applies_automatic next (Some b) (Some (negb b)) Hov' Hne)
      as (t' & Htarget' & Happ).
    exists t'. split; [exact Htarget' |].
    rewrite Ht, Hfirst, Happ, <- app_assoc.
    assert (Hdiff : state_changed (Some b) (Some (negb b)) = true)
      by now destruct b.
    now rewrite Hdiff.
  - intros nexts r s' Hloop.
    cbn [poll_turns] in Hloop. rewrite Hrun in Hloop.
    unfold bind at 1 in Hloop. rewrite Hturn in Hloop.
    apply poll_turns_timeline in Hloop.
    destruct Hloop as (ps & Hlen & Ht). exists ps.
    rewrite Hfirst, <- app_assoc in Ht.
    split; [| split].
    + rewrite !samples_of_timeline, Ht, !flat_map_app.
      now rewrite turns_timeline_samples.
    + intros Hsame.
      rewrite !applies_of_timeline, Ht, !flat_map_app.
      now rewrite turns_timeline_same.
    + intros k final -> Hnth Hov' Hne.
      destruct (turns_timeline_next_change b k nexts final Hnth Hov' Hne)
        as (t' & Htarget' & Happ).
      exists t'. split; [exact Htarget' |].
      rewrite !applies_of_timeline, Ht, !flat_map_app, Happ. reflexivity.
Qed.

(** * The properties on the scripted machine *)

Lemma laptop_enum_bounded (driver_modes : list DEVMODEW) :
  enum_bounded (Laptop.os driver_modes) (length driver_modes).
Proof.
  intros d i w dm w' Hi. cbn. unfold Laptop.enum.
  destruct (i =? ENUM_CURRENT_SETTINGS) eqn:E1.
  { apply Z.eqb_eq in E1. unfold ENUM_CURRENT_SETTINGS in E1. lia. }
  destruct (i <? 0); [discriminate |].
  intros H. inversion H as [[Hn Hw]].
  assert (Z.to_nat i < length driver_modes)%nat
    by (apply nth_error_Some; congruence).
  lia.
Qed.


Lemma set_refresh_rate_rejects_unsupported_witness :
  get_current_mode (Laptop.os Laptop.panel) None
    (logged (Enter_set_refresh_rate 144) Laptop.desk) =
    (Val Laptop.full_hd, Laptop.validating 144 Laptop.desk) /\
  list_modes (Laptop.os Laptop.panel) 10 None
    (Laptop.validating 144 Laptop.desk) =
    (Val Laptop.catalog, Laptop.listed 144 Laptop.desk) /\
  ~ In 144 (rates_at (1920, 1080) Laptop.catalog) /\
  exists valid,
    set_refresh_rate (Laptop.os Laptop.panel) 10 144 None true Laptop.desk =
      (Raise (RuntimeError (Requested_not_supported 144 (1920, 1080) valid)),
       Laptop.listed 144 Laptop.desk) /\
    changes (trace (Laptop.listed 144 Laptop.desk)) =
      changes (trace Laptop.desk).
Proof.
  assert (H1 : get_current_mode (Laptop.os Laptop.panel) None
                 (logged (Enter_set_refresh_rate 144) Laptop.desk) =
               (Val (Some (Laptop.display_mode 1920 1080 32 60)),
                Laptop.validating 144 Laptop.desk)) by reflexivity.
  assert (H2 : list_modes (Laptop.os Laptop.panel) 10 None
                 (Laptop.validating 144 Laptop.desk) =
               (Val Laptop.catalog, Laptop.listed 144 Laptop.desk))
    by reflexivity.
  assert (H3 : ~ In 144 (rates_at (1920, 1080) Laptop.catalog))
    by (cbn; intuition discriminate).
  split; [exact H1 |]. split; [exact H2 |]. split; [exact H3 |].
  destruct (set_refresh_rate_rejects_unsupported
              (Laptop.os Laptop.panel) 10 144 None true Laptop.desk
              _ _ _ _ H1 H2 H3) as (valid & Hrun & _ & _ & Hquiet).
  exists valid. split; [exact Hrun | exact Hquiet].
Defined.

Lemma set_refresh_rate_tests_then_commits_witness :
  0 <= 120 < 2 ^ 32 /\
  get_current_mode (Laptop.os Laptop.panel) None
    (logged (Enter_set_refresh_rate 120) Laptop.desk) =
    (Val Laptop.full_hd, Laptop.validating 120 Laptop.desk) /\
  list_modes (Laptop.os Laptop.panel) 10 None
    (Laptop.validating 120 Laptop.desk) =
    (Val Laptop.catalog, Laptop.listed 120 Laptop.desk) /\
  In 120 (rates_at (1920, 1080) Laptop.catalog) /\
  EnumDisplaySettingsW (Laptop.os Laptop.panel) None ENUM_CURRENT_SETTINGS
    (world (Laptop.listed 120 Laptop.desk)) =
    (Returned Laptop.full_hd, world Laptop.desk) /\
  ChangeDisplaySettingsExW (Laptop.os Laptop.panel) None
    Laptop.candidate_120 CDS_TEST (world Laptop.desk) =
    (Returned 0, world Laptop.desk) /\
  mode_of Laptop.candidate_120 = (1920, 1080, 32, 120) /\
  exists s',
    set_refresh_rate (Laptop.os Laptop.panel) 10 120 None true Laptop.desk =
      (Val true, s') /\
    changes (trace s') =
      [(Laptop.candidate_120, CDS_TEST, Returned 0);
       (Laptop.candidate_120, 0, Returned 0)].
Proof.
  assert (H0 : 0 <= 120 < 2 ^ 32) by (split; [discriminate | reflexivity]).
  assert (H1 : get_current_mode (Laptop.os Laptop.panel) None
                 (logged (Enter_set_refresh_rate 120) Laptop.desk) =
               (Val (Some (Laptop.display_mode 1920 1080 32 60)),
                Laptop.validating 120 Laptop.desk)) by reflexivity.
  assert (H2 : list_modes (Laptop.os Laptop.panel) 10 None
                 (Laptop.validating 120 Laptop.desk) =
               (Val Laptop.catalog, Laptop.listed 120 Laptop.desk))
    by reflexivity.
  assert (H3 : In 120 (rates_at (1920, 1080) Laptop.catalog))
    by (cbn; auto).
  assert (H4 : EnumDisplaySettingsW (Laptop.os Laptop.panel) None
                 ENUM_CURRENT_SETTINGS
                 (world (Laptop.listed 120 Laptop.desk)) =
               (Returned (Some (Laptop.display_mode 1920 1080 32 60)),
                world Laptop.desk)) by reflexivity.
  assert (H5 : ChangeDisplaySettingsExW (Laptop.os Laptop.panel) None
                 Laptop.candidate_120 CDS_TEST (world Laptop.desk) =
               (Returned 0, world Laptop.desk)) by reflexivity.
  repeat (split; [assumption |]).
  destruct (set_refresh_rate_tests_then_commits
              (Laptop.os Laptop.panel) 10 120 None Laptop.desk
              _ _ _ _ _ _ _ _ H0 H1 H2 H3 H4 H5) as (Hmode & _ & Hcommit).
  split; [exact Hmode |].
  destruct (Hcommit eq_refl 0
              (Laptop.mkMachine (Some Laptop.candidate_120) 0 0 [])
              eq_refl) as (s' & Hrun & _ & Hchanges).
  exists s'. split; [exact Hrun | exact Hchanges].
Defined.

Lemma poll_loop_applies_on_transitions_only_witness :
  Forall (fun self =>
            override_var self = false /\ available_rates self <> [])
         (repeat (Laptop.window false 120) 5) /\
  poll_loop (Laptop.os Laptop.panel) 10 (repeat (Laptop.window false 120) 5)
    Laptop.five_samples =
    (fst Laptop.five_turns, snd Laptop.five_turns) /\
  samples (trace (snd Laptop.five_turns)) =
    samples (trace Laptop.five_samples) ++
      [Some true; Some true; Some false; Some false; Some true] /\
  length (applies (trace (snd Laptop.five_turns))) =
    (length (applies (trace Laptop.five_samples)) + 3)%nat.
Proof.
  assert (H1 : Forall (fun self =>
                 override_var self = false /\ available_rates self <> [])
                 (repeat (Laptop.window false 120) 5))
    by (repeat constructor; discriminate).
  assert (H2 : poll_loop (Laptop.os Laptop.panel) 10
                 (repeat (Laptop.window false 120) 5) Laptop.five_samples =
               (fst Laptop.five_turns, snd Laptop.five_turns))
    by reflexivity.
  assert (H3 : samples (trace (snd Laptop.five_turns)) =
               samples (trace Laptop.five_samples) ++
                 [Some true; Some true; Some false; Some false; Some true])
    by reflexivity.
  repeat (split; [assumption |]).
  destruct (poll_loop_applies_on_transitions_only
              (Laptop.os Laptop.panel) 10 _ _ _ _ H1 H2 H3)
    as (t1 & t2 & t3 & _ & _ & Hcount).
  exact Hcount.
Defined.

Lemma override_blocks_automatic_apply_witness :
  Forall (fun v => override_var v = true)
         [Laptop.window true 120; Laptop.window true 120] /\
  override_var (Laptop.window true 120) = true /\
  poll_turns (Laptop.os Laptop.panel) 10
    [Laptop.window true 120; Laptop.window true 120] None
    Laptop.unplugging =
    (fst Laptop.overridden, snd Laptop.overridden) /\
  on_apply_clicked (Laptop.os Laptop.panel) 10 (Laptop.window true 120)
    (snd Laptop.overridden) = (fst Laptop.clicked, snd Laptop.clicked) /\
  samples (trace (snd Laptop.overridden)) = [Some true; Some false] /\
  applies (trace (snd Laptop.overridden)) = applies (trace Laptop.unplugging) /\
  applies (trace (snd Laptop.clicked)) =
    applies (trace (snd Laptop.overridden)) ++ [120].
Proof.
  assert (H1 : Forall (fun v => override_var v = true)
                 [Laptop.window true 120; Laptop.window true 120])
    by (repeat constructor).
  assert (H2 : override_var (Laptop.window true 120) = true) by reflexivity.
  assert (H3 : poll_turns (Laptop.os Laptop.panel) 10
                 [Laptop.window true 120; Laptop.window true 120] None
                 Laptop.unplugging =
               (fst Laptop.overridden, snd Laptop.overridden))
    by reflexivity.
  assert (H4 : on_apply_clicked (Laptop.os Laptop.panel) 10
                 (Laptop.window true 120) (snd Laptop.overridden) =
               (fst Laptop.clicked, snd Laptop.clicked)) by reflexivity.
  repeat (split; [assumption |]).
  split; [reflexivity |].
  destruct (override_blocks_automatic_apply
              (Laptop.os Laptop.panel) 10 _ _ _ _ _ _ _ _ H1 H2 H3 H4)
    as (_ & Hloop & _ & Hclick).
  split; [exact Hloop | exact Hclick].
Defined.

Lemma is_plugged_in_is_online_test_witness :
  GetSystemPowerStatus (Laptop.os Laptop.panel)
    (world (Laptop.boot Laptop.full_hd 0 0 [Some 255])) =
    (Returned (Some (Laptop.power_status 255)), world Laptop.desk) /\
  fst (is_plugged_in (Laptop.os Laptop.panel)
         (Laptop.boot Laptop.full_hd 0 0 [Some 255])) = Val false /\
  GetSystemPowerStatus (Laptop.os Laptop.panel)
    (world (Laptop.boot Laptop.full_hd 0 0 [None])) =
    (Returned None, world Laptop.desk) /\
  is_plugged_in (Laptop.os Laptop.panel)
    (Laptop.boot Laptop.full_hd 0 0 [None]) =
    (Raise (RuntimeError GetSystemPowerStatus_failed),
     logged (Power (Returned None)) Laptop.desk).
Proof.
  assert (H1 : GetSystemPowerStatus (Laptop.os Laptop.panel)
                 (world (Laptop.boot Laptop.full_hd 0 0 [Some 255])) =
               (Returned (Some (Laptop.power_status 255)),
                world Laptop.desk)) by reflexivity.
  assert (H2 : GetSystemPowerStatus (Laptop.os Laptop.panel)
                 (world (Laptop.boot Laptop.full_hd 0 0 [None])) =
               (Returned None, world Laptop.desk)) by reflexivity.
  split; [exact H1 |].
  destruct (is_plugged_in_is_online_test (Laptop.os Laptop.panel) _ _ _ H1)
    as (_ & Hread & _).
  split; [exact (proj2 (proj2 (Hread _ eq_refl)) eq_refl) |].
  split; [exact H2 |].
  exact (proj1 (is_plugged_in_is_online_test (Laptop.os Laptop.panel)
                  _ _ _ H2)).
Defined.

Lemma failed_apply_keeps_the_loop_going_witness :
  (forall feed,
     running (Laptop.window false 120) = true /\
     override_var (Laptop.window false 120) = false /\
     GetSystemPowerStatus (Laptop.os Laptop.panel)
       (world (Laptop.failing (Some 1 :: feed))) =
       (Returned (Some (Laptop.power_status 1)),
        world (Laptop.failing feed)) /\
     None <> Some true /\
     automatic_target true (available_rates (Laptop.window false 120)) =
       Some 120 /\
     set_refresh_rate (Laptop.os Laptop.panel) 10 120 None true
       (Laptop.failing_sampled (Some 1 :: feed)) =
       (Raise (RuntimeError (Change_failed (-1))),
        Laptop.failing_applied (Some 1 :: feed))) /\
  (* plugged in, then plugged in *)
  plugged_of (Returned (Some (Laptop.power_status 1))) = Some true /\
  Laptop.failing_turns [Some 1; Some 1] =
    (Val (Some true),
     mkState (world (Laptop.failing []))
       (trace (Laptop.failing_warned [Some 1; Some 1]) ++
          [Power (Returned (Some (Laptop.power_status 1)));
           Ui (Status_text "Plugged In (Charging)")])) /\
  timeline (trace (snd (Laptop.failing_turns [Some 1; Some 1]))) =
    [Sampled (Some true); Applied 120; Sampled (Some true)] /\
  (* plugged in, then on battery *)
  plugged_of (Returned (Some (Laptop.power_status 0))) = Some false /\
  timeline (trace (snd (Laptop.failing_turns [Some 1; Some 0]))) =
    [Sampled (Some true); Applied 120; Sampled (Some false); Applied 60].
Proof.
  assert (H : forall feed,
     running (Laptop.window false 120) = true /\
     override_var (Laptop.window false 120) = false /\
     GetSystemPowerStatus (Laptop.os Laptop.panel)
       (world (Laptop.failing (Some 1 :: feed))) =
       (Returned (Some (Laptop.power_status 1)),
        world (Laptop.failing feed)) /\
     None <> Some true /\
     automatic_target true (available_rates (Laptop.window false 120)) =
       Some 120 /\
     set_refresh_rate (Laptop.os Laptop.panel) 10 120 None true
       (Laptop.failing_sampled (Some 1 :: feed)) =
       (Raise (RuntimeError (Change_failed (-1))),
        Laptop.failing_applied (Some 1 :: feed))).
  { intros feed. repeat split; try reflexivity. discriminate. }
  split; [exact H |].
  destruct (H [Some 1]) as (Hr1 & Ho1 & Hp1 & Hl1 & Ht1 & Hs1).
  destruct (H [Some 0]) as (Hr0 & Ho0 & Hp0 & Hl0 & Ht0 & Hs0).
  assert (Hn1 : GetSystemPowerStatus (Laptop.os Laptop.panel)
                  (world (Laptop.failing_applied [Some 1; Some 1])) =
                (Returned (Some (Laptop.power_status 1)),
                 world (Laptop.failing []))) by reflexivity.
  assert (Hn0 : GetSystemPowerStatus (Laptop.os Laptop.panel)
                  (world (Laptop.failing_applied [Some 1; Some 0])) =
                (Returned (Some (Laptop.power_status 0)),
                 world (Laptop.failing []))) by reflexivity.
  destruct (failed_apply_keeps_the_loop_going (Laptop.os Laptop.panel) 10
              (Laptop.window false 120) (Laptop.window false 120) None
              (Laptop.power_status 1) true 120 _ _ _ _ _ _
              Hr1 Hr1 Ho1 Hp1 eq_refl Hl1 Ht1 Hs1 Hn1)
    as (_ & Hsame & _).
  destruct (failed_apply_keeps_the_loop_going (Laptop.os Laptop.panel) 10
              (Laptop.window false 120) (Laptop.window false 120) None
              (Laptop.power_status 1) true 120 _ _ _ _ _ _
              Hr0 Hr0 Ho0 Hp0 eq_refl Hl0 Ht0 Hs0 Hn0)
    as (_ & _ & Hother & _).
  split; [reflexivity |].
  split; [exact (Hsame eq_refl) |].
  split; [reflexivity |].
  split; [reflexivity |].
  destruct (Hother eq_refl eq_refl ltac:(discriminate)
              (fst (Laptop.failing_turns [Some 1; Some 0]))
              (snd (Laptop.failing_turns [Some 1; Some 0])) eq_refl)
    as (t' & Htarget & Htimeline).
  injection Htarget as <-. exact Htimeline.
Defined.

(** * Further properties of the script *)

(** ** The order of the mode list *)

Lemma mode_key_lt_iff (a b : mode) :
  mode_key_lt a b <->
  let '(aw, ah, ab, ar) := a in
  let '(bw, bh, bb, br) := b in
  aw < bw \/
  (aw = bw /\ (ah < bh \/ (ah = bh /\ (ar < br \/ (ar = br /\ ab < bb))))).
Proof.
  destruct a as [[[aw ah] ab] ar], b as [[[bw bh] bb] br].
  unfold mode_key_lt. simpl.
  destruct (Z.compare_spec aw bw); [| intuition (try lia) | ].
  - destruct (Z.compare_spec ah bh); [| intuition (try lia) | ].
    + destruct (Z.compare_spec ar br); [| intuition (try lia) | ].
      * rewrite Z.compare_lt_iff. intuition (try lia).
      * split; [discriminate | lia].
    + split; [discriminate | lia].
  - split; [discriminate | lia].
Qed.

Lemma mode_key_lt_trans (a b c : mode) :
  mode_key_lt a b -> mode_key_lt b c -> mode_key_lt a c.
Proof.
  rewrite !mode_key_lt_iff.
  destruct a as [[[aw ah] ab] ar], b as [[[bw bh] bb] br],
    c as [[[cw ch] cb] cr]. lia.
Qed.

Lemma mode_key_lt_irrefl (a : mode) : ~ mode_key_lt a a.
Proof.
  rewrite mode_key_lt_iff. destruct a as [[[aw ah] ab] ar]. lia.
Qed.

Lemma mode_key_compare_Gt (a b : mode) :
  mode_key_compare a b = Gt -> mode_key_lt b a.
Proof.
  intros H. apply mode_key_lt_iff.
  destruct a as [[[aw ah] ab] ar], b as [[[bw bh] bb] br]. simpl in H.
  destruct (Z.compare_spec aw bw); try discriminate; [| lia].
  destruct (Z.compare_spec ah bh); try discriminate; [| lia].
  destruct (Z.compare_spec ar br); try discriminate; [| lia].
  apply Z.compare_gt_iff in H. lia.
Qed.

Lemma insert_mode_HdRel (a x : mode) (l : list mode) :
  mode_key_lt a x -> HdRel mode_key_lt a l ->
  HdRel mode_key_lt a (Py.insert mode_key_compare x l).
Proof.
  intros Hax Hhd. destruct l as [|y l]; simpl.
  - now constructor.
  - destruct (mode_key_compare x y); try assumption.
    + now constructor.
    + inversion Hhd; subst. now constructor.
Qed.

Lemma insert_mode_Sorted (x : mode) (l : list mode) :
  Sorted mode_key_lt l ->
  Sorted mode_key_lt (Py.insert mode_key_compare x l).
Proof.
  induction l as [|y l IH]; intros Hs; simpl.
  - repeat constructor.
  - destruct (mode_key_compare x y) eqn:E; try assumption.
    + constructor; [assumption | now constructor].
    + inversion Hs; subst. constructor; [now apply IH |].
      apply insert_mode_HdRel; [now apply mode_key_compare_Gt | assumption].
Qed.

Lemma sorted_set_mode_StronglySorted (l : list mode) :
  StronglySorted mode_key_lt (Py.sorted_set mode_key_compare l).
Proof.
  apply Sorted_StronglySorted.
  - intros a b c. apply mode_key_lt_trans.
  - unfold Py.sorted_set. induction l as [|x l IH]; simpl; [constructor |].
    now apply insert_mode_Sorted.
Qed.

Lemma StronglySorted_mode_NoDup (l : list mode) :
  StronglySorted mode_key_lt l -> NoDup l.
Proof.
  induction 1 as [|a l Hs IH Hall]; constructor; [| assumption].
  intros Hin. rewrite Forall_forall in Hall.
  exact (mode_key_lt_irrefl a (Hall a Hin)).
Qed.

(** Two lists sorted by the key that have the same members are equal. *)
Lemma StronglySorted_mode_ext (l1 : list mode) : forall l2,
  StronglySorted mode_key_lt l1 -> StronglySorted mode_key_lt l2 ->
  (forall m, In m l1 <-> In m l2) -> l1 = l2.
Proof.
  induction l1 as [|a l1 IH]; intros [|b l2] H1 H2 Hsame.
  - reflexivity.
  - exfalso. apply (proj2 (Hsame b)). now left.
  - exfalso. apply (proj1 (Hsame a)). now left.
  - inversion H1 as [|? ? Hs1 Ha]; inversion H2 as [|? ? Hs2 Hb]; subst.
    rewrite Forall_forall in Ha, Hb.
    assert (a = b).
    { destruct (proj1 (Hsame a) (or_introl eq_refl)) as [E | Hin];
        [now symmetry |].
      destruct (proj2 (Hsame b) (or_introl eq_refl)) as [E | Hin'];
        [assumption |].
      exfalso. apply (mode_key_lt_irrefl a).
      apply (mode_key_lt_trans a b a); [now apply Ha | now apply Hb]. }
    subst b. f_equal. apply IH; try assumption.
    intros m. split; intros Hin.
    + destruct (proj1 (Hsame m) (or_intror Hin)) as [E | Hin']; [| assumption].
      subst m. exfalso. exact (mode_key_lt_irrefl a (Ha a Hin)).
    + destruct (proj2 (Hsame m) (or_intror Hin)) as [E | Hin']; [| assumption].
      subst m. exfalso. exact (mode_key_lt_irrefl a (Hb a Hin)).
Qed.

(** ** [list_modes] *)

(** X1. The list [list_modes] returns is strictly increasing in the key
    (width, height, frequency, bits per pixel), so it has no duplicates. *)
Theorem list_modes_sorted_without_duplicates {W : Type} (os : Win32 W)
    (fuel : nat) (device_name : option string) (s s' : state W)
    (modes : list mode) :
  list_modes os fuel device_name s = (Val modes, s') ->
  StronglySorted mode_key_lt modes /\ NoDup modes.
Proof.
  intros H. unfold list_modes in H. apply bind_inv in H.
  destruct H as [(raw & s1 & _ & H) | [(e & _ & ?) | (_ & ?)]];
    try discriminate.
  inversion H; subst.
  pose proof (sorted_set_mode_StronglySorted raw) as Hs.
  split; [exact Hs | now apply StronglySorted_mode_NoDup].
Qed.

(** X2. [list_modes] asks for the modes of index 0, 1, 2, ... in turn and
    stops at the first index for which [EnumDisplaySettingsW] returns
    zero; it makes no other call. The list it returns has exactly the
    modes reported on the way, so it is empty when the first call already
    returns zero. *)
Theorem list_modes_enumerates_until_refused {W : Type} (os : Win32 W)
    (fuel : nat) (device_name : option string) (s s' : state W)
    (modes : list mode) :
  list_modes os fuel device_name s = (Val modes, s') ->
  exists dms,
    trace s' =
      trace s ++ enum_events device_name 0 dms
        ++ [Enum device_name (Z.of_nat (length dms)) (Returned None)] /\
    (forall m, In m modes <-> In m (map mode_of dms)) /\
    (dms = [] -> modes = []).
Proof.
  intros H. unfold list_modes in H. apply bind_inv in H.
  destruct H as [(raw & s1 & Hloop & H) | [(e & _ & ?) | (_ & ?)]];
    try discriminate.
  inversion H; subst. clear H.
  apply list_modes_loop_reports in Hloop.
  destruct Hloop as (dms & -> & Ht). exists dms. cbn [app] in *.
  split; [exact Ht |]. split.
  - intros m. apply In_sorted_set. exact mode_key_compare_eq.
  - intros ->. reflexivity.
Qed.

(** X3. The list [list_modes] returns is determined by the set of modes
    the driver reports: two enumerations, be it on different drivers
    that list the modes in different orders and with different
    repetitions, whose results have the same members return the same
    list. *)
Theorem list_modes_canonical {W1 W2 : Type} (os1 : Win32 W1)
    (os2 : Win32 W2) (fuel1 fuel2 : nat) (device1 device2 : option string)
    (s1 s1' : state W1) (s2 s2' : state W2) (modes1 modes2 : list mode) :
  list_modes os1 fuel1 device1 s1 = (Val modes1, s1') ->
  list_modes os2 fuel2 device2 s2 = (Val modes2, s2') ->
  (forall m, In m modes1 <-> In m modes2) ->
  modes1 = modes2.
Proof.
  intros H1 H2 Hsame.
  unfold list_modes in H1, H2. apply bind_inv in H1. apply bind_inv in H2.
  destruct H1 as [(raw1 & t1 & _ & H1) | [(e & _ & ?) | (_ & ?)]];
    try discriminate.
  destruct H2 as [(raw2 & t2 & _ & H2) | [(e & _ & ?) | (_ & ?)]];
    try discriminate.
  inversion H1; inversion H2; subst.
  apply StronglySorted_mode_ext; try apply sorted_set_mode_StronglySorted.
  exact Hsame.
Qed.

(** X4. On a driver that reports no mode from index [bound] on,
    [list_modes] ends whenever it may take more than [bound] turns, and
    the only exception it can raise is the [OSError] of a call that
    faulted. *)
Theorem list_modes_ends_on_finite_driver {W : Type} (os : Win32 W)
    (bound fuel : nat) (device_name : option string) (s : state W) :
  enum_bounded os bound -> (bound < fuel)%nat ->
  (exists modes, fst (list_modes os fuel device_name s) = Val modes) \/
  (exists c, fst (list_modes os fuel device_name s) = Raise (OSError c)).
Proof.
  intros Hb Hf.
  pose proof (list_modes_loop_total os bound Hb fuel device_name 0 [] s)
    as Hend.
  assert (Hraise : forall fuel' i acc (s0 : state W) e,
    fst (list_modes_loop os fuel' device_name i acc s0) = Raise e ->
    exists c, e = OSError c).
  { induction fuel' as [|fuel' IH]; intros i acc s0 e; simpl.
    - discriminate.
    - unfold bind, call_EnumDisplaySettingsW, foreign_call.
      destruct (EnumDisplaySettingsW os device_name i (world s0))
        as [[[dm |] | c] w']; cbn [fst].
      + apply IH.
      + discriminate.
      + intros H. inversion H. now exists c. }
  unfold list_modes, bind.
  destruct (list_modes_loop os fuel device_name 0 [] s) as [[raw | e |] s1]
    eqn:E; cbn [fst] in *.
  - left. eexists. reflexivity.
  - right. destruct (Hraise fuel 0 [] s e) as [c ->]; [now rewrite E |].
    now exists c.
  - exfalso. apply Hend; [lia | lia | reflexivity].
Qed.

(** ** The calls [set_refresh_rate] makes to change the display *)

Lemma get_current_mode_raises {W : Type} (os : Win32 W)
    (device_name : option string) (s s' : state W) (e : exception) :
  get_current_mode os device_name s = (Raise e, s') ->
  exists c, e = OSError c.
Proof.
  unfold get_current_mode, call_EnumDisplaySettingsW, foreign_call.
  destruct (EnumDisplaySettingsW os device_name ENUM_CURRENT_SETTINGS
              (world s)) as [[a | c] w']; intros H; inversion H.
  now exists c.
Qed.

Lemma list_modes_raises {W : Type} (os : Win32 W) (fuel : nat)
    (device_name : option string) (s s' : state W) (e : exception) :
  list_modes os fuel device_name s = (Raise e, s') ->
  exists c, e = OSError c.
Proof.
  assert (Hloop : forall fuel' i acc (s0 s1 : state W),
    list_modes_loop os fuel' device_name i acc s0 = (Raise e, s1) ->
    exists c, e = OSError c).
  { induction fuel' as [|fuel' IH]; intros i acc s0 s1; simpl.
    - discriminate.
    - unfold bind, call_EnumDisplaySettingsW, foreign_call.
      destruct (EnumDisplaySettingsW os device_name i (world s0))
        as [[[dm |] | c] w'].
      + apply IH.
      + discriminate.
      + intros H. inversion H. now exists c. }
  unfold list_modes. intros H. apply bind_inv in H.
  destruct H as [(raw & s1 & _ & H) | [(e' & H & E) | (_ & ?)]];
    try discriminate.
  inversion E; subst e'. exact (Hloop _ _ _ _ _ H).
Qed.

(** Every run of [set_refresh_rate] ends in one of four ways: before any
    call of [ChangeDisplaySettingsExW]; after a test that was refused or
    faulted; after an accepted test and a commit; or, without the test
    phase, after a commit alone. *)
Lemma set_refresh_rate_runs {W : Type} (os : Win32 W) (fuel : nat)
    (target_hz : Z) (device_name : option string) (test_first : bool)
    (s s' : state W) (r : outcome bool) :
  set_refresh_rate os fuel target_hz device_name test_first s = (r, s') ->
  (changes (trace s') = changes (trace s) /\
   fails_before_change target_hz r) \/
  (exists cand,
     dmDisplayFrequency cand = Ctypes.DWORD target_hz /\
     ((test_first = true /\
       exists rt,
         changes (trace s') = changes (trace s) ++ [(cand, CDS_TEST, rt)] /\
         rt <> Returned DISP_CHANGE_SUCCESSFUL /\
         match rt with
         | Returned res => r = Raise (RuntimeError (Test_change_failed res))
         | Faulted c => r = Raise (OSError c)
         end) \/
      (test_first = true /\
       exists rc,
         changes (trace s') =
           changes (trace s) ++
             [(cand, CDS_TEST, Returned DISP_CHANGE_SUCCESSFUL);
              (cand, 0, rc)] /\
         r = commit_outcome rc) \/
      (test_first = false /\
       exists rc,
         changes (trace s') = changes (trace s) ++ [(cand, 0, rc)] /\
         r = commit_outcome rc))).
Proof.
  unfold set_refresh_rate. unfold bind at 1, emit at 1.
  change (mkState (world s) (trace s ++ [?e])) with (logged e s).
  unfold bind at 1.
  destruct (get_current_mode os device_name _) as [o1 s1] eqn:Hcur.
  assert (Hq1 : changes (trace s1) = changes (trace s)).
  { pose proof Hcur as Hc.
    apply (get_current_mode_silent os change_of) in Hc; [| reflexivity].
    unfold changes. rewrite Hc. cbn [logged trace].
    rewrite flat_map_snoc. apply app_nil_r. }
  destruct o1 as [[dm |] | e |].
  2:{ intros H; inversion H; subst. left. split; [exact Hq1 |].
      unfold fails_before_change. auto. }
  2:{ intros H; inversion H; subst. left. split; [exact Hq1 |].
      destruct (get_current_mode_raises _ _ _ _ _ Hcur) as [c ->].
      unfold fails_before_change. eauto. }
  2:{ intros H; inversion H; subst. left. split; [exact Hq1 |].
      unfold fails_before_change. auto. }
  cbv zeta. unfold bind at 1.
  destruct (list_modes os fuel device_name s1) as [o2 s2] eqn:Hmodes.
  pose proof (changes_through_validation _ _ _ _ _ _ _ _ _ Hcur Hmodes)
    as Hq.
  destruct o2 as [modes | e |].
  2:{ intros H; inversion H; subst. left. split; [exact Hq |].
      destruct (list_modes_raises _ _ _ _ _ _ Hmodes) as [c ->].
      unfold fails_before_change. eauto. }
  2:{ intros H; inversion H; subst. left. split; [exact Hq |].
      unfold fails_before_change. auto. }
  destruct (Py.contains target_hz _); cbn [negb].
  2:{ intros H; inversion H; subst. left. split; [exact Hq |].
      unfold fails_before_change. eauto 7. }
  unfold bind at 1, call_EnumDisplaySettingsW at 1, foreign_call at 1.
  destruct (EnumDisplaySettingsW os device_name ENUM_CURRENT_SETTINGS
              (world s2)) as [[[new_dm |] | c] w3].
  2:{ intros H; inversion H; subst. left. split.
      - cbn [trace]. unfold changes in *. rewrite flat_map_snoc, Hq.
        apply app_nil_r.
      - unfold fails_before_change. auto 7. }
  2:{ intros H; inversion H; subst. left. split.
      - cbn [trace]. unfold changes in *. rewrite flat_map_snoc, Hq.
        apply app_nil_r.
      - unfold fails_before_change. eauto. }
  cbv zeta.
  set (cand := set_dmFields (set_dmDisplayFrequency new_dm target_hz) _).
  set (s3 := mkState w3 _).
  assert (Hq3 : changes (trace s3) = changes (trace s)).
  { unfold s3. cbn [trace]. unfold changes in *.
    rewrite flat_map_snoc, Hq. apply app_nil_r. }
  clearbody s3. intros H. right. exists cand. split; [reflexivity |].
  unfold bind, call_ChangeDisplaySettingsExW, foreign_call, ret, raise in H.
  destruct test_first.
  - destruct (ChangeDisplaySettingsExW os device_name cand CDS_TEST
                (world s3)) as [[res | c] w4].
    + destruct (res =? DISP_CHANGE_SUCCESSFUL) eqn:E; cbn [negb] in H.
      * apply Z.eqb_eq in E. subst res. cbn [world trace] in H.
        right. left. split; [reflexivity |].
        destruct (ChangeDisplaySettingsExW os device_name cand 0 w4)
          as [[res2 | c2] w5].
        -- exists (Returned res2). cbn [commit_outcome].
           destruct (res2 =? DISP_CHANGE_SUCCESSFUL); cbn [negb] in H;
             inversion H; subst; (split; [| reflexivity]);
             cbn [trace]; unfold changes in *;
             rewrite !flat_map_snoc, Hq3; cbn [change_of];
             now rewrite <- app_assoc.
        -- exists (Faulted c2). inversion H; subst.
           split; [| reflexivity].
           cbn [trace]. unfold changes in *.
           rewrite !flat_map_snoc, Hq3. cbn [change_of].
           now rewrite <- app_assoc.
      * left. split; [reflexivity |]. exists (Returned res).
        inversion H; subst. split; [| split; [| reflexivity]].
        -- cbn [trace]. unfold changes in *.
           now rewrite flat_map_snoc, Hq3.
        -- apply Z.eqb_neq in E. congruence.
    + left. split; [reflexivity |]. exists (Faulted c).
      inversion H; subst. split; [| split; [discriminate | reflexivity]].
      cbn [trace]. unfold changes in *. now rewrite flat_map_snoc, Hq3.
  - right. right. split; [reflexivity |].
    destruct (ChangeDisplaySettingsExW os device_name cand 0 (world s3))
      as [[res2 | c2] w5].
    + exists (Returned res2). cbn [commit_outcome].
      destruct (res2 =? DISP_CHANGE_SUCCESSFUL); cbn [negb] in H;
        inversion H; subst; (split; [| reflexivity]);
        cbn [trace]; unfold changes in *; now rewrite flat_map_snoc, Hq3.
    + exists (Faulted c2). inversion H; subst. split; [| reflexivity].
      cbn [trace]. unfold changes in *. now rewrite flat_map_snoc, Hq3.
Qed.

Lemma fails_before_change_not_Val (target_hz : Z) (r : outcome bool) :
  fails_before_change target_hz r -> forall b, r <> Val b.
Proof.
  intros [-> | [[c ->] | [-> | [(res & valid & ->) | ->]]]] b; discriminate.
Qed.

Lemma commit_outcome_Val (rc : foreign Z) (b : bool) :
  commit_outcome rc = Val b ->
  b = true /\ rc = Returned DISP_CHANGE_SUCCESSFUL.
Proof.
  destruct rc as [res | c]; cbn; [| discriminate].
  destruct (res =? DISP_CHANGE_SUCCESSFUL) eqn:E; [| discriminate].
  intros H. inversion H. apply Z.eqb_eq in E. now subst.
Qed.

(** X5. [set_refresh_rate] returns only [True], and only after the driver
    has answered success to the commit of a mode whose frequency is the
    target; with the test phase on, the driver had accepted the test of
    that same mode just before. These are all the change calls of the
    run. *)
Theorem set_refresh_rate_true_means_committed {W : Type} (os : Win32 W)
    (fuel : nat) (target_hz : Z) (device_name : option string)
    (test_first : bool) (s s' : state W) (b : bool) :
  set_refresh_rate os fuel target_hz device_name test_first s
    = (Val b, s') ->
  b = true /\
  exists cand,
    dmDisplayFrequency cand = Ctypes.DWORD target_hz /\
    changes (trace s') =
      changes (trace s)
        ++ (if test_first
            then [(cand, CDS_TEST, Returned DISP_CHANGE_SUCCESSFUL)]
            else [])
        ++ [(cand, 0, Returned DISP_CHANGE_SUCCESSFUL)].
Proof.
  intros H. apply set_refresh_rate_runs in H.
  destruct H as [[_ Hn] | (cand & Hf & [H | [H | H]])].
  - now elim (fails_before_change_not_Val _ _ Hn b).
  - destruct H as (_ & rt & _ & _ & Hr). destruct rt; discriminate.
  - destruct H as (-> & rc & Hc & Hr). symmetry in Hr.
    apply commit_outcome_Val in Hr. destruct Hr as [-> ->].
    split; [reflexivity |]. exists cand. split; [exact Hf | exact Hc].
  - destruct H as (-> & rc & Hc & Hr). symmetry in Hr.
    apply commit_outcome_Val in Hr. destruct Hr as [-> ->].
    split; [reflexivity |]. exists cand. split; [exact Hf | exact Hc].
Qed.

(** X6. With the test phase on, [set_refresh_rate] never commits a mode
    that the driver has not just accepted in a test: whenever the run
    makes a commit call (flags 0), its change calls are exactly the
    successful test of that mode followed by this commit. *)
Theorem set_refresh_rate_commits_only_tested_modes {W : Type}
    (os : Win32 W) (fuel : nat) (target_hz : Z)
    (device_name : option string) (s s' : state W) (r : outcome bool) :
  set_refresh_rate os fuel target_hz device_name true s = (r, s') ->
  exists added,
    changes (trace s') = changes (trace s) ++ added /\
    forall cand rc,
      In (cand, 0, rc) added ->
      added = [(cand, CDS_TEST, Returned DISP_CHANGE_SUCCESSFUL);
               (cand, 0, rc)].
Proof.
  intros H. apply set_refresh_rate_runs in H.
  destruct H as [[Hc _] | (cand & _ & [H | [H | H]])].
  - exists []. split; [now rewrite app_nil_r | intros ? ? []].
  - destruct H as (_ & rt & Hc & _). eexists. split; [exact Hc |].
    intros c rc [E | []]. inversion E.
  - destruct H as (_ & rc & Hc & _). eexists. split; [exact Hc |].
    intros c rc' [E | [E | []]]; inversion E. reflexivity.
  - destruct H as (E & _). discriminate.
Qed.

(** X7. With [test_first=False], [set_refresh_rate] never calls
    [ChangeDisplaySettingsExW] with [CDS_TEST]: it makes at most one change
    call, the commit, and its outcome is what that commit answers. *)
Theorem set_refresh_rate_without_test_only_commits {W : Type}
    (os : Win32 W) (fuel : nat) (target_hz : Z)
    (device_name : option string) (s s' : state W) (r : outcome bool) :
  set_refresh_rate os fuel target_hz device_name false s = (r, s') ->
  changes (trace s') = changes (trace s) \/
  exists cand rc,
    dmDisplayFrequency cand = Ctypes.DWORD target_hz /\
    changes (trace s') = changes (trace s) ++ [(cand, 0, rc)] /\
    r = commit_outcome rc.
Proof.
  intros H. apply set_refresh_rate_runs in H.
  destruct H as [[Hc _] | (cand & Hf & [H | [H | H]])].
  - now left.
  - destruct H as (E & _). discriminate.
  - destruct H as (E & _). discriminate.
  - destruct H as (_ & rc & Hc & Hr). right. now exists cand, rc.
Qed.

(** X8. The [RuntimeError] that [set_refresh_rate] raises tells how far
    the change got. "Test-change failed (code res)": the only change call
    was a test, which answered [res], not success. "Change failed (code
    res)": the last call was the commit, which answered [res], not
    success. Any other message: no change call was made. *)
Theorem set_refresh_rate_error_tells_progress {W : Type} (os : Win32 W)
    (fuel : nat) (target_hz : Z) (device_name : option string)
    (test_first : bool) (s s' : state W) (m : message) :
  set_refresh_rate os fuel target_hz device_name test_first s
    = (Raise (RuntimeError m), s') ->
  match m with
  | Test_change_failed res =>
      res <> DISP_CHANGE_SUCCESSFUL /\
      exists cand,
        changes (trace s') =
          changes (trace s) ++ [(cand, CDS_TEST, Returned res)]
  | Change_failed res =>
      res <> DISP_CHANGE_SUCCESSFUL /\
      exists cand,
        changes (trace s') =
          changes (trace s)
            ++ (if test_first
                then [(cand, CDS_TEST, Returned DISP_CHANGE_SUCCESSFUL)]
                else [])
            ++ [(cand, 0, Returned res)]
  | _ => changes (trace s') = changes (trace s)
  end.
Proof.
  intros H.
  assert (Hcommit : forall rc,
    Raise (RuntimeError m) = commit_outcome rc ->
    exists res, m = Change_failed res /\ rc = Returned res /\
                res <> DISP_CHANGE_SUCCESSFUL).
  { intros [res | c]; cbn; [| discriminate].
    destruct (res =? DISP_CHANGE_SUCCESSFUL) eqn:E; [discriminate |].
    intros Hm. inversion Hm. apply Z.eqb_neq in E. now exists res. }
  pose proof H as Hrun. apply set_refresh_rate_runs in Hrun.
  destruct Hrun as [[Hc Hearly] | (cand & _ & [Hr | [Hr | Hr]])].
  - destruct Hearly as [E | [[c E] | [E | [(res & valid & E) | E]]]];
      inversion E; subst; exact Hc.
  - destruct Hr as (_ & rt & Hc & Hne & Hrt).
    destruct rt as [res | c]; inversion Hrt; subst.
    split; [congruence |]. now exists cand.
  - destruct Hr as (-> & rc & Hc & Hrc).
    destruct (Hcommit rc Hrc) as (res & -> & -> & Hne).
    split; [exact Hne |]. now exists cand.
  - destruct Hr as (-> & rc & Hc & Hrc).
    destruct (Hcommit rc Hrc) as (res & -> & -> & Hne).
    split; [exact Hne |]. now exists cand.
Qed.

(** X9. When the current display settings cannot be read,
    [set_refresh_rate] raises "Unable to get current display settings"
    at once, whatever the target: the modes are not enumerated (the run
    needs no loop turn at all) and nothing else is called. *)
Theorem set_refresh_rate_needs_current_mode {W : Type} (os : Win32 W)
    (fuel : nat) (target_hz : Z) (device_name : option string)
    (test_first : bool) (s : state W) (w1 : W) :
  EnumDisplaySettingsW os device_name ENUM_CURRENT_SETTINGS (world s) =
    (Returned None, w1) ->
  set_refresh_rate os fuel target_hz device_name test_first s =
    (Raise (RuntimeError Unable_to_get_current_display_settings),
     mkState w1
       (trace s ++
        [Enter_set_refresh_rate target_hz;
         Enum device_name ENUM_CURRENT_SETTINGS (Returned None)])).
Proof.
  intros H. unfold set_refresh_rate, bind, emit, get_current_mode,
    call_EnumDisplaySettingsW, foreign_call. cbn [world trace].
  rewrite H. unfold raise. now rewrite <- app_assoc.
Qed.

(** The way to the error "Requested ... not supported". *)
Lemma set_refresh_rate_not_supported_inv {W : Type} (os : Win32 W)
    (fuel : nat) (target_hz : Z) (device_name : option string)
    (test_first : bool) (s s' : state W) (t : Z) (res : Z * Z)
    (valid : list Z) :
  set_refresh_rate os fuel target_hz device_name test_first s =
    (Raise (RuntimeError (Requested_not_supported t res valid)), s') ->
  exists dm s1 modes,
    get_current_mode os device_name
      (logged (Enter_set_refresh_rate target_hz) s) = (Val (Some dm), s1) /\
    list_modes os fuel device_name s1 = (Val modes, s') /\
    t = target_hz /\
    res = (dmPelsWidth dm, dmPelsHeight dm) /\
    valid = Py.sorted_set_int (rates_at res modes) /\
    Py.contains target_hz (rates_at res modes) = false.
Proof.
  unfold set_refresh_rate. unfold bind at 1, emit at 1.
  change (mkState (world s) (trace s ++ [?e])) with (logged e s).
  unfold bind at 1.
  destruct (get_current_mode os device_name _) as [o1 s1] eqn:Hcur.
  destruct o1 as [[dm |] | e |]; try discriminate.
  2:{ intros H. inversion H; subst.
      destruct (get_current_mode_raises _ _ _ _ _ Hcur). discriminate. }
  cbv zeta. unfold bind at 1.
  destruct (list_modes os fuel device_name s1) as [o2 s2] eqn:Hmodes.
  destruct o2 as [modes | e |]; try discriminate.
  2:{ intros H. inversion H; subst.
      destruct (list_modes_raises _ _ _ _ _ _ Hmodes). discriminate. }
  destruct (Py.contains target_hz _) eqn:Hin; cbn [negb].
  - unfold bind at 1, call_EnumDisplaySettingsW at 1, foreign_call at 1.
    destruct (EnumDisplaySettingsW os device_name ENUM_CURRENT_SETTINGS
                (world s2)) as [[[new_dm |] | c] w3]; try discriminate.
    cbv zeta.
    set (cand := set_dmFields (set_dmDisplayFrequency new_dm target_hz) _).
    set (s3 := mkState w3 _). clearbody s3.
    unfold bind, call_ChangeDisplaySettingsExW, foreign_call, ret, raise.
    destruct test_first.
    + destruct (ChangeDisplaySettingsExW os device_name cand CDS_TEST
                  (world s3)) as [[rt | c] w4]; try discriminate.
      destruct (rt =? DISP_CHANGE_SUCCESSFUL); cbn [negb];
        try discriminate.
      cbn [world trace].
      destruct (ChangeDisplaySettingsExW os device_name cand 0 w4)
        as [[rc | c] w5]; try discriminate.
      destruct (rc =? DISP_CHANGE_SUCCESSFUL); discriminate.
    + destruct (ChangeDisplaySettingsExW os device_name cand 0 (world s3))
        as [[rc | c] w5]; try discriminate.
      destruct (rc =? DISP_CHANGE_SUCCESSFUL); discriminate.
  - intros H. inversion H; subst. exists dm, s1, modes. auto 7.
Qed.

(** X10. "Requested ... not supported" is raised only for a target that
    no listed mode has at the resolution of the current mode: the error
    carries the target that was requested, that resolution and the
    sorted valid rates, and the target is not one of them. *)
Theorem set_refresh_rate_not_supported_is_justified {W : Type}
    (os : Win32 W) (fuel : nat) (target_hz : Z)
    (device_name : option string) (test_first : bool) (s s' : state W)
    (t : Z) (res : Z * Z) (valid : list Z) :
  set_refresh_rate os fuel target_hz device_name test_first s =
    (Raise (RuntimeError (Requested_not_supported t res valid)), s') ->
  t = target_hz /\ ~ In target_hz valid /\
  exists dm s1 modes,
    get_current_mode os device_name
      (logged (Enter_set_refresh_rate target_hz) s) = (Val (Some dm), s1) /\
    list_modes os fuel device_name s1 = (Val modes, s') /\
    res = (dmPelsWidth dm, dmPelsHeight dm) /\
    forall r, In r valid <-> exists bpp, In (fst res, snd res, bpp, r) modes.
Proof.
  intros H. apply set_refresh_rate_not_supported_inv in H.
  destruct H as (dm & s1 & modes & Hcur & Hmodes & -> & Hres & -> & Hout).
  apply contains_not_In in Hout.
  split; [reflexivity |]. split.
  - now rewrite In_sorted_set_int.
  - exists dm, s1, modes. repeat split; try assumption;
      rewrite In_sorted_set_int; apply In_rates_at.
Qed.

(** ** [get_available_refresh_rates] *)

Lemma get_available_refresh_rates_silent {W X : Type} (os : Win32 W)
    (view : event -> list X) (fuel : nat) (device_name : option string) :
  (forall d i r, view (Enum d i r) = []) ->
  (forall l, view (Print l) = []) ->
  silent view (get_available_refresh_rates os fuel device_name).
Proof.
  intros He Hp. unfold get_available_refresh_rates, print.
  apply silent_try_except.
  - apply silent_bind; [now apply get_current_mode_silent |].
    intros [dm |].
    + apply silent_bind; [apply silent_emit, Hp |]. intros _.
      apply silent_bind; [now apply list_modes_silent |]. intros modes.
      cbv zeta. destruct (Py.sorted_set_int _);
        (apply silent_bind; [apply silent_emit, Hp |]);
        intros; apply silent_ret.
    + apply silent_bind; [apply silent_emit, Hp |].
      intros; apply silent_ret.
  - intros e. apply silent_bind; [apply silent_emit, Hp |].
    intros; apply silent_ret.
Qed.

(** X11. [get_available_refresh_rates] never raises, whatever the calls
    it makes answer and even when one of them faults, and it only reads:
    it makes no call of [ChangeDisplaySettingsExW], no power query and no
    update of the window. *)
Theorem get_available_refresh_rates_only_reads {W : Type} (os : Win32 W)
    (fuel : nat) (device_name : option string) (s s' : state W)
    (r : outcome (list Z)) :
  get_available_refresh_rates os fuel device_name s = (r, s') ->
  (forall e, r <> Raise e) /\
  changes (trace s') = changes (trace s) /\
  timeline (trace s') = timeline (trace s) /\
  ui_updates (trace s') = ui_updates (trace s).
Proof.
  intros H. split; [| repeat split].
  - unfold get_available_refresh_rates in H. apply try_except_inv in H.
    destruct H as [(e & s1 & _ & Hh) | (_ & Hn)]; [| exact Hn].
    inversion Hh. discriminate.
  - now apply (get_available_refresh_rates_silent os change_of) in H.
  - now apply (get_available_refresh_rates_silent os moment_of) in H.
  - now apply (get_available_refresh_rates_silent os ui_of) in H.
Qed.

(** ** The trace is only written *)

Section WorldFacts.

Context {W : Type}.

Lemma wd_ret {A : Type} (a : A) : world_determined (@ret W A a).
Proof. intros s t E. auto. Qed.

Lemma wd_raise {A : Type} (e : exception) : world_determined (@raise W A e).
Proof. intros s t E. auto. Qed.

Lemma wd_out_of_fuel {A : Type} : world_determined (@out_of_fuel W A).
Proof. intros s t E. auto. Qed.

Lemma wd_emit (e : event) : world_determined (@emit W e).
Proof. intros s t E. auto. Qed.

Lemma wd_bind {A B : Type} (m : M W A) (k : A -> M W B) :
  world_determined m -> (forall a, world_determined (k a)) ->
  world_determined (bind m k).
Proof.
  intros Hm Hk s t E. unfold bind. destruct (Hm s t E) as [Hf Hw].
  destruct (m s) as [[a | e |] s1], (m t) as [[a' | e' |] t1];
    cbn in *; try discriminate; inversion Hf; subst; auto.
  now apply Hk.
Qed.

Lemma wd_try_except {A : Type} (body : M W A)
    (handler : exception -> M W A) :
  world_determined body -> (forall e, world_determined (handler e)) ->
  world_determined (try_except body handler).
Proof.
  intros Hb Hh s t E. unfold try_except. destruct (Hb s t E) as [Hf Hw].
  destruct (body s) as [[a | e |] s1], (body t) as [[a' | e' |] t1];
    cbn in *; try discriminate; inversion Hf; subst; auto.
  now apply Hh.
Qed.

Lemma wd_foreign_call {A : Type} (f : W -> foreign A * W)
    (ev : foreign A -> event) : world_determined (foreign_call f ev).
Proof.
  intros s t E. unfold foreign_call. rewrite E.
  destruct (f (world t)) as [[a | c] w']; auto.
Qed.

Lemma kw_ret {A : Type} (a : A) : keeps_world (@ret W A a).
Proof. intros s. reflexivity. Qed.

Lemma kw_raise {A : Type} (e : exception) : keeps_world (@raise W A e).
Proof. intros s. reflexivity. Qed.

Lemma kw_out_of_fuel {A : Type} : keeps_world (@out_of_fuel W A).
Proof. intros s. reflexivity. Qed.

Lemma kw_emit (e : event) : keeps_world (@emit W e).
Proof. intros s. reflexivity. Qed.

Lemma kw_bind {A B : Type} (m : M W A) (k : A -> M W B) :
  keeps_world m -> (forall a, keeps_world (k a)) -> keeps_world (bind m k).
Proof.
  intros Hm Hk s. unfold bind. specialize (Hm s).
  destruct (m s) as [[a | e |] s1]; cbn in *; try assumption.
  now rewrite Hk.
Qed.

Lemma kw_try_except {A : Type} (body : M W A)
    (handler : exception -> M W A) :
  keeps_world body -> (forall e, keeps_world (handler e)) ->
  keeps_world (try_except body handler).
Proof.
  intros Hb Hh s. unfold try_except. specialize (Hb s).
  destruct (body s) as [[a | e |] s1]; cbn in *; try assumption.
  now rewrite Hh.
Qed.

Lemma kw_foreign_call {A : Type} (f : W -> foreign A * W)
    (ev : foreign A -> event) :
  (forall w, snd (f w) = w) -> keeps_world (foreign_call f ev).
Proof.
  intros Hf s. unfold foreign_call. specialize (Hf (world s)).
  destruct (f (world s)) as [[a | c] w']; exact Hf.
Qed.

Context (os : Win32 W).

Lemma wd_list_modes (fuel : nat) (device_name : option string) :
  world_determined (list_modes os fuel device_name).
Proof.
  unfold list_modes. apply wd_bind; [| intros; apply wd_ret].
  generalize 0 at 1. generalize (@nil mode).
  induction fuel as [|fuel IH]; intros acc i; simpl.
  - apply wd_out_of_fuel.
  - apply wd_bind; [apply wd_foreign_call |].
    intros [dm |]; [apply IH | apply wd_ret].
Qed.

Lemma wd_get_current_mode (device_name : option string) :
  world_determined (get_current_mode os device_name).
Proof. apply wd_foreign_call. Qed.

Lemma wd_get_available_refresh_rates (fuel : nat)
    (device_name : option string) :
  world_determined (get_available_refresh_rates os fuel device_name).
Proof.
  unfold get_available_refresh_rates, print. apply wd_try_except.
  - apply wd_bind; [apply wd_get_current_mode |]. intros [dm |].
    + apply wd_bind; [apply wd_emit |]. intros _.
      apply wd_bind; [apply wd_list_modes |]. intros modes. cbv zeta.
      destruct (Py.sorted_set_int _);
        (apply wd_bind; [apply wd_emit | intros; apply wd_ret]).
    + apply wd_bind; [apply wd_emit | intros; apply wd_ret].
  - intros e. apply wd_bind; [apply wd_emit | intros; apply wd_ret].
Qed.

Lemma kw_list_modes (fuel : nat) (device_name : option string) :
  enum_stable os -> keeps_world (list_modes os fuel device_name).
Proof.
  intros Hst. unfold list_modes. apply kw_bind; [| intros; apply kw_ret].
  generalize 0 at 1. generalize (@nil mode).
  induction fuel as [|fuel IH]; intros acc i; simpl.
  - apply kw_out_of_fuel.
  - apply kw_bind; [apply kw_foreign_call; intros; apply Hst |].
    intros [dm |]; [apply IH | apply kw_ret].
Qed.

Lemma kw_get_available_refresh_rates (fuel : nat)
    (device_name : option string) :
  enum_stable os ->
  keeps_world (get_available_refresh_rates os fuel device_name).
Proof.
  intros Hst. unfold get_available_refresh_rates, print.
  apply kw_try_except.
  - apply kw_bind; [apply kw_foreign_call; intros; apply Hst |].
    intros [dm |].
    + apply kw_bind; [apply kw_emit |]. intros _.
      apply kw_bind; [now apply kw_list_modes |]. intros modes. cbv zeta.
      destruct (Py.sorted_set_int _);
        (apply kw_bind; [apply kw_emit | intros; apply kw_ret]).
    + apply kw_bind; [apply kw_emit | intros; apply kw_ret].
  - intros e. apply kw_bind; [apply kw_emit | intros; apply kw_ret].
Qed.

End WorldFacts.

(** ** The rates offered and the validation *)

(** X12. A rate that [get_available_refresh_rates] returned passes the
    validation of [set_refresh_rate] when the latter runs in the world
    in which the rates were computed: it can be refused as "not
    supported" only in the case where no listed mode has the current
    resolution at all (the rates returned were then the fallback, and the
    error carries an empty list of valid rates). *)
Theorem offered_rates_pass_validation {W : Type} (os : Win32 W)
    (fuel : nat) (device_name : option string) (test_first : bool)
    (s s1 s2 s3 : state W) (rates : list Z) (r t : Z) (res : Z * Z)
    (valid : list Z) :
  get_available_refresh_rates os fuel device_name s = (Val rates, s1) ->
  world s2 = world s ->
  In r rates ->
  set_refresh_rate os fuel r device_name test_first s2 =
    (Raise (RuntimeError (Requested_not_supported t res valid)), s3) ->
  valid = [] /\ rates = fallback_rates.
Proof.
  intros Hga Hworld Hin Hset.
  apply set_refresh_rate_not_supported_inv in Hset.
  destruct Hset as (dm & t1 & modes & Hcur & Hmodes & _ & -> & -> & Hout).
  unfold get_available_refresh_rates, try_except in Hga.
  unfold bind at 1 in Hga.
  destruct (wd_get_current_mode os device_name s
              (logged (Enter_set_refresh_rate r) s2)) as [Hf Hw];
    [cbn [logged world]; now rewrite Hworld |].
  rewrite Hcur in Hf, Hw. cbn [fst snd] in Hf, Hw.
  destruct (get_current_mode os device_name s) as [o u1].
  cbn [fst snd] in Hf, Hw. subst o. cbv zeta in Hga.
  unfold bind at 1, print at 1, emit at 1 in Hga. unfold bind at 1 in Hga.
  match type of Hga with
  | context [list_modes os fuel device_name ?u] =>
      destruct (wd_list_modes os fuel device_name u t1) as [Hf2 _];
        [exact Hw |]
  end.
  rewrite Hmodes in Hf2. cbn [fst] in Hf2.
  destruct (list_modes os fuel device_name _) as [o2 u2].
  cbn [fst] in Hf2. subst o2.
  destruct (Py.sorted_set_int
              (rates_at (dmPelsWidth dm, dmPelsHeight dm) modes))
    as [|r0 found] eqn:Hset.
  - cbn in Hga. inversion Hga. auto.
  - exfalso. cbn in Hga. inversion Hga; subst rates.
    rewrite <- Hset in Hin.
    apply (proj1 (In_sorted_set_int _ _)) in Hin.
    apply (proj2 (contains_In _ _)) in Hin. congruence.
Qed.

(** X13. Where reading the display settings does not change the world,
    [get_available_refresh_rates] leaves the world as it was, and a
    second call returns the same rates as the first. *)
Theorem get_available_refresh_rates_repeatable {W : Type} (os : Win32 W)
    (fuel : nat) (device_name : option string) (s s1 : state W)
    (rates : list Z) :
  enum_stable os ->
  get_available_refresh_rates os fuel device_name s = (Val rates, s1) ->
  world s1 = world s /\
  exists s2,
    get_available_refresh_rates os fuel device_name s1 = (Val rates, s2).
Proof.
  intros Hst H.
  pose proof (kw_get_available_refresh_rates os fuel device_name Hst s)
    as Hkeep.
  rewrite H in Hkeep. cbn [snd] in Hkeep. split; [exact Hkeep |].
  destruct (wd_get_available_refresh_rates os fuel device_name s1 s Hkeep)
    as [Hf _].
  rewrite H in Hf. cbn [fst] in Hf.
  destruct (get_available_refresh_rates os fuel device_name s1) as [o s2].
  cbn [fst] in Hf. subst o. now exists s2.
Qed.

(** ** Building the window *)

Lemma get_available_refresh_rates_no_raise {W : Type} (os : Win32 W)
    (fuel : nat) (device_name : option string) (s s' : state W)
    (e : exception) :
  get_available_refresh_rates os fuel device_name s <> (Raise e, s').
Proof.
  intros H. unfold get_available_refresh_rates in H.
  apply try_except_inv in H.
  destruct H as [(e' & s1 & _ & Hh) | (_ & Hn)]; [inversion Hh |].
  now apply (Hn e).
Qed.

Lemma update_current_refresh_label_returns {W : Type} (os : Win32 W)
    (s : state W) :
  fst (update_current_refresh_label os s) = Val tt.
Proof.
  unfold update_current_refresh_label, try_except, bind, get_current_mode,
    call_EnumDisplaySettingsW, foreign_call.
  destruct (EnumDisplaySettingsW os None ENUM_CURRENT_SETTINGS (world s))
    as [[[dm |] | c] w']; reflexivity.
Qed.

(** X14. [__init__] never raises. The window it builds has override off
    and the loop enabled, a non-empty tuple of rates, and as the selected
    rate of the dropdown one of these rates: 240 when it is among them,
    their maximum otherwise, which is the rate automatic mode chooses
    when plugged in. *)
Theorem RefreshGUI_init_selects_an_offered_rate {W : Type} (os : Win32 W)
    (fuel : nat) (s s' : state W) (r : outcome RefreshGUI) :
  RefreshGUI_init os fuel s = (r, s') ->
  (forall e, r <> Raise e) /\
  forall self, r = Val self ->
    override_var self = false /\ running self = true /\
    available_rates self <> [] /\
    In (selected_rate self) (available_rates self) /\
    (In 240 (available_rates self) -> selected_rate self = 240) /\
    (~ In 240 (available_rates self) ->
     Forall (fun x => x <= selected_rate self) (available_rates self)) /\
    automatic_target true (available_rates self)
      = Some (selected_rate self).
Proof.
  unfold RefreshGUI_init. intros H. apply bind_inv in H.
  destruct H as [(rates & s1 & Hr & H) | [(e & Hr & _) | (_ & ->)]].
  2:{ now elim (get_available_refresh_rates_no_raise _ _ _ _ _ _ Hr). }
  2:{ split; [discriminate | discriminate]. }
  pose proof (get_available_refresh_rates_nonempty _ _ _ _ _ _ Hr) as Hne.
  destruct rates as [|x rest]; [congruence |].
  assert (Hdef : exists d,
    automatic_target true (x :: rest) = Some d /\
    In d (x :: rest) /\
    (In 240 (x :: rest) -> d = 240) /\
    (~ In 240 (x :: rest) -> Forall (fun y => y <= d) (x :: rest)) /\
    (if Py.contains 240 (x :: rest) then ret 240
     else value_of (Py.max (x :: rest))) s1 = (Val d, s1)).
  { unfold automatic_target.
    destruct (Py.contains 240 (x :: rest)) eqn:E.
    - apply contains_In in E. exists 240. repeat split; auto.
      intros Hn. contradiction.
    - apply contains_not_In in E.
      destruct (fold_max_bounds rest x) as [Hin Hall].
      exists (fold_left Z.max rest x). repeat split; auto.
      intros Hy. contradiction. }
  destruct Hdef as (d & Ht & Hin & H240 & Hmax & Hd).
  apply bind_inv in H.
  destruct H as [(d' & s2 & Hd' & H) | [(e & Hd' & _) | (Hd' & _)]];
    rewrite Hd in Hd'; try discriminate.
  inversion Hd'; subst d' s2. clear Hd'.
  pose proof (update_current_refresh_label_returns os s1) as Hlabel.
  unfold bind in H.
  destruct (update_current_refresh_label os s1) as [o s3].
  cbn [fst] in Hlabel. subst o. inversion H; subst.
  split; [discriminate |].
  intros self E. inversion E; subst self. cbn. auto 8.
Qed.

(** ** "Apply now" *)

Lemma set_refresh_rate_silent_ui {W : Type} (os : Win32 W) (fuel : nat)
    (target_hz : Z) (device_name : option string) (test_first : bool) :
  silent ui_of (set_refresh_rate os fuel target_hz device_name test_first).
Proof.
  unfold set_refresh_rate. apply silent_bind; [now apply silent_emit |].
  intros _. apply silent_bind; [now apply get_current_mode_silent |].
  intros [dm |]; [| apply silent_raise].
  apply silent_bind; [now apply list_modes_silent |].
  unfold call_EnumDisplaySettingsW, call_ChangeDisplaySettingsExW.
  silence.
Qed.

(** The [try] around [set_refresh_rate] and the update of the rate label:
    what it comes to for each outcome of [set_refresh_rate]. *)
Lemma reported_apply_cases {W : Type} (os : Win32 W) (fuel : nat) (t : Z)
    (done : ui_update) (report : exception -> ui_update)
    (sa sb : state W) (ra : outcome unit) :
  try_except
    (set_refresh_rate os fuel t None true ;; ui done)
    (fun e => ui (report e)) sa = (ra, sb) ->
  (exists b sx,
     set_refresh_rate os fuel t None true sa = (Val b, sx) /\
     ra = Val tt /\ sb = logged (Ui done) sx) \/
  (exists e sx,
     set_refresh_rate os fuel t None true sa = (Raise e, sx) /\
     ra = Val tt /\ sb = logged (Ui (report e)) sx) \/
  (set_refresh_rate os fuel t None true sa = (OutOfFuel, sb) /\
   ra = OutOfFuel).
Proof.
  unfold try_except, bind.
  destruct (set_refresh_rate os fuel t None true sa) as [[b | e |] sx];
    intros H; inversion H; subst; eauto 7.
Qed.

(** What the [try] adds to the window and to the change calls. *)
Lemma reported_apply_ui {W : Type} (os : Win32 W) (fuel : nat) (t : Z)
    (report : exception -> ui_update) (sa sb : state W) :
  try_except
    (set_refresh_rate os fuel t None true ;; ui (Rate_text t))
    (fun e => ui (report e)) sa = (Val tt, sb) ->
  (ui_updates (trace sb) = ui_updates (trace sa) ++ [Rate_text t] /\
   exists cand,
     dmDisplayFrequency cand = Ctypes.DWORD t /\
     changes (trace sb) =
       changes (trace sa) ++
         [(cand, CDS_TEST, Returned DISP_CHANGE_SUCCESSFUL);
          (cand, 0, Returned DISP_CHANGE_SUCCESSFUL)]) \/
  (exists e added,
     ui_updates (trace sb) = ui_updates (trace sa) ++ [report e] /\
     changes (trace sb) = changes (trace sa) ++ added /\
     forall cand, ~ In (cand, 0, Returned DISP_CHANGE_SUCCESSFUL) added).
Proof.
  intros H. apply reported_apply_cases in H.
  destruct H as [(b & sx & Hset & _ & ->) |
                 [(e & sx & Hset & _ & ->) | (_ & ?)]];
    try discriminate.
  - left.
    pose proof (set_refresh_rate_silent_ui os fuel t None true _ _ _ Hset)
      as Hui.
    apply set_refresh_rate_runs in Hset.
    destruct Hset as [[_ Hn] | (cand & Hf & [Hr | [Hr | Hr]])].
    + now elim (fails_before_change_not_Val _ _ Hn b).
    + destruct Hr as (_ & rt & _ & _ & Hr). destruct rt; discriminate.
    + destruct Hr as (_ & rc & Hc & Hr). symmetry in Hr.
      apply commit_outcome_Val in Hr. destruct Hr as [_ ->].
      split.
      * unfold ui_updates in *. cbn [logged trace].
        now rewrite flat_map_snoc, Hui.
      * exists cand. split; [exact Hf |].
        unfold changes in *. cbn [logged trace].
        rewrite flat_map_snoc, Hc. cbn [change_of]. apply app_nil_r.
    + destruct Hr as (E & _). discriminate.
  - right. exists e.
    pose proof (set_refresh_rate_silent_ui os fuel t None true _ _ _ Hset)
      as Hui.
    assert (Hsame : changes (trace (logged (Ui (report e)) sx))
                    = changes (trace sx)).
    { unfold changes. cbn [logged trace]. rewrite flat_map_snoc.
      apply app_nil_r. }
    assert (Hu : ui_updates (trace (logged (Ui (report e)) sx))
                 = ui_updates (trace sa) ++ [report e]).
    { unfold ui_updates in *. cbn [logged trace].
      now rewrite flat_map_snoc, Hui. }
    rewrite Hsame. clear Hsame.
    apply set_refresh_rate_runs in Hset.
    destruct Hset as [[Hc _] | (cand & _ & [Hr | [Hr | Hr]])].
    + exists []. rewrite app_nil_r. repeat split; auto.
    + destruct Hr as (_ & rt & Hc & _). eexists.
      split; [exact Hu |]. split; [exact Hc |].
      intros c [Hin | []]. inversion Hin.
    + destruct Hr as (_ & rc & Hc & Hr). eexists.
      split; [exact Hu |]. split; [exact Hc |].
      intros c [Hin | [Hin | []]]; inversion Hin; subst.
      cbn in Hr. discriminate.
    + destruct Hr as (E & _). discriminate.
Qed.

(** The two ways through [on_apply_clicked]: a target is chosen and
    [set_refresh_rate] is tried, or no target can be chosen in automatic
    mode and the error is shown. *)
Lemma on_apply_clicked_cases {W : Type} (os : Win32 W) (fuel : nat)
    (self : RefreshGUI) (s s' : state W) (r : outcome unit) :
  on_apply_clicked os fuel self s = (r, s') ->
  (exists t s0,
     ((override_var self = true /\ t = selected_rate self /\ s0 = s) \/
      (override_var self = false /\
       exists status w1,
         GetSystemPowerStatus os (world s)
           = (Returned (Some status), w1) /\
         automatic_target (Ctypes.BYTE (ACLineStatus status) =? 1)
           (available_rates self) = Some t /\
         s0 = mkState w1 (trace s ++ [Power (Returned (Some status))]))) /\
     try_except
       (set_refresh_rate os fuel t None true ;; ui (Rate_text t))
       (fun e => ui (Show_error "Error applying refresh rate" e)) s0
       = (r, s')) \/
  (override_var self = false /\
   exists fr w1 e,
     GetSystemPowerStatus os (world s) = (fr, w1) /\
     ((fr = Returned None /\ e = RuntimeError GetSystemPowerStatus_failed) \/
      (exists c, fr = Faulted c /\ e = OSError c) \/
      (exists status,
         fr = Returned (Some status) /\ e = ValueError /\
         automatic_target (Ctypes.BYTE (ACLineStatus status) =? 1)
           (available_rates self) = None)) /\
     r = Val tt /\
     s' = mkState w1
            (trace s ++
             [Power fr; Ui (Show_error "Error applying refresh rate" e)])).
Proof.
  unfold on_apply_clicked. destruct (override_var self).
  - intros H. left. exists (selected_rate self), s. split; [auto |].
    exact H.
  - unfold try_except. unfold bind at 1. unfold bind at 1.
    unfold is_plugged_in, bind at 1, call_GetSystemPowerStatus,
      foreign_call.
    destruct (GetSystemPowerStatus os (world s)) as [[[status |] | c] w1].
    + cbn [world trace]. unfold ret at 1.
      destruct (automatic_target _ (available_rates self)) as [t |] eqn:Et.
      * intros H. left. eexists t, _. split.
        -- right. split; [reflexivity |]. exists status, w1. eauto.
        -- exact H.
      * intros H. right. split; [reflexivity |].
        exists (Returned (Some status)), w1, ValueError.
        cbn in H. inversion H; subst.
        split; [reflexivity |]. split; [eauto 6 |].
        split; [reflexivity |]. now rewrite <- app_assoc.
    + intros H. right. split; [reflexivity |].
      exists (Returned None), w1, (RuntimeError GetSystemPowerStatus_failed).
      cbn in H. inversion H; subst.
      split; [reflexivity |]. split; [auto |].
      split; [reflexivity |]. now rewrite <- app_assoc.
    + intros H. right. split; [reflexivity |].
      exists (Faulted c), w1, (OSError c).
      cbn in H. inversion H; subst.
      split; [reflexivity |]. split; [eauto |].
      split; [reflexivity |]. now rewrite <- app_assoc.
Qed.

Lemma ui_updates_snoc (t : list event) (e : event) :
  ui_updates (t ++ [e]) = ui_updates t ++ ui_of e.
Proof. apply flat_map_snoc. Qed.

Lemma changes_snoc (t : list event) (e : event) :
  changes (t ++ [e]) = changes t ++ change_of e.
Proof. apply flat_map_snoc. Qed.

Lemma timeline_snoc (t : list event) (e : event) :
  timeline (t ++ [e]) = timeline t ++ moment_of e.
Proof. apply flat_map_snoc. Qed.

(** X15. [on_apply_clicked] never raises: every exception of the power
    query, of the choice of the target and of [set_refresh_rate] ends in
    the error box. A click that returns has updated the window exactly
    once: by the new rate, or by the error box. *)
Theorem on_apply_clicked_reports_once {W : Type} (os : Win32 W)
    (fuel : nat) (self : RefreshGUI) (s s' : state W) (r : outcome unit) :
  on_apply_clicked os fuel self s = (r, s') ->
  (forall e, r <> Raise e) /\
  (r = Val tt ->
   exists u,
     ui_updates (trace s') = ui_updates (trace s) ++ [u] /\
     ((exists t, u = Rate_text t) \/
      (exists e, u = Show_error "Error applying refresh rate" e))).
Proof.
  intros H. apply on_apply_clicked_cases in H.
  destruct H as [(t & s0 & Hs0 & Htry) | (_ & fr & w1 & e & _ & _ & -> & ->)].
  - assert (Hu0 : ui_updates (trace s0) = ui_updates (trace s)).
    { destruct Hs0 as [(_ & _ & ->) | (_ & st & w1 & _ & _ & ->)];
        [reflexivity |].
      cbn [trace]. rewrite ui_updates_snoc. apply app_nil_r. }
    split.
    + intros e ->. apply reported_apply_cases in Htry.
      destruct Htry as [(? & ? & _ & ? & _) | [(? & ? & _ & ? & _) | (_ & ?)]];
        discriminate.
    + intros ->. apply reported_apply_ui in Htry. rewrite <- Hu0.
      destruct Htry as [[Hu _] | (e & added & Hu & _)]; eauto 6.
  - split; [discriminate |]. intros _.
    exists (Show_error "Error applying refresh rate" e). split; [| eauto].
    cbn [trace].
    change (trace s ++ [Power fr; Ui (Show_error "Error applying refresh rate" e)])
      with (trace s ++ [Power fr] ++ [Ui (Show_error "Error applying refresh rate" e)]).
    rewrite app_assoc, !ui_updates_snoc. cbn [ui_of].
    now rewrite app_nil_r.
Qed.

(** X16. "Apply now" in automatic mode asks for the power status once.
    When the query fails (or faults), the error box shows that error,
    [set_refresh_rate] is not called and the display is not touched. *)
Theorem on_apply_clicked_without_power_status {W : Type} (os : Win32 W)
    (fuel : nat) (self : RefreshGUI) (s : state W)
    (fr : foreign (option SYSTEM_POWER_STATUS)) (w1 : W) :
  override_var self = false ->
  GetSystemPowerStatus os (world s) = (fr, w1) ->
  plugged_of fr = None ->
  exists e,
    on_apply_clicked os fuel self s =
      (Val tt,
       mkState w1
         (trace s ++
          [Power fr; Ui (Show_error "Error applying refresh rate" e)])) /\
    match fr with
    | Faulted c => e = OSError c
    | _ => e = RuntimeError GetSystemPowerStatus_failed
    end.
Proof.
  intros Hov Hp Hnone.
  unfold on_apply_clicked, try_except. rewrite Hov.
  unfold bind at 1. unfold bind at 1.
  unfold is_plugged_in, bind at 1, call_GetSystemPowerStatus, foreign_call.
  rewrite Hp. destruct fr as [[status |] | c]; [discriminate | |];
    eexists; (split; [| reflexivity]);
    unfold raise, ui, emit; cbn [world trace];
    now rewrite <- app_assoc.
Qed.

(** X17. "Apply now" in automatic mode chooses its target from a power
    status it reads at that moment, not from what the loop saw last: it
    samples once and then calls [set_refresh_rate] once, with 240 or the
    maximum of the stored rates when that status is on line, and with 60
    or their minimum otherwise. *)
Theorem on_apply_clicked_automatic_target {W : Type} (os : Win32 W)
    (fuel : nat) (self : RefreshGUI) (s s' : state W) (r : outcome unit)
    (status : SYSTEM_POWER_STATUS) (w1 : W) :
  override_var self = false ->
  available_rates self <> [] ->
  GetSystemPowerStatus os (world s) = (Returned (Some status), w1) ->
  on_apply_clicked os fuel self s = (r, s') ->
  exists t,
    automatic_target (Ctypes.BYTE (ACLineStatus status) =? 1)
      (available_rates self) = Some t /\
    timeline (trace s') =
      timeline (trace s) ++
        [Sampled (Some (Ctypes.BYTE (ACLineStatus status) =? 1));
         Applied t].
Proof.
  intros Hov Hne Hp H. apply on_apply_clicked_cases in H.
  destruct H as [(t & s0 & Hs0 & Htry) | (_ & fr & w2 & e & Hp' & He & _)].
  - destruct Hs0 as [(E & _) | (_ & st & w2 & Hp' & Ht & ->)];
      [congruence |].
    rewrite Hp in Hp'. inversion Hp'; subst st w2.
    exists t. split; [exact Ht |].
    apply reported_apply_timeline in Htry. destruct Htry as [Htl _].
    rewrite Htl. cbn [trace]. rewrite timeline_snoc. cbn [moment_of plugged_of].
    now rewrite <- app_assoc.
  - exfalso. rewrite Hp in Hp'. inversion Hp'; subst fr w2.
    destruct He as [[E _] | [(c & E & _) | (st & E & _ & Hnone)]];
      try discriminate.
    inversion E; subst st.
    destruct (automatic_target_defined
                (Ctypes.BYTE (ACLineStatus status) =? 1) _ Hne) as [t Ht].
    congruence.
Qed.

(** X18. After a click on "Apply now", the window shows a new rate only
    when the driver has accepted the test and the commit of a mode with
    that frequency, these being the change calls of the click; and when
    it shows the error box instead, no commit was accepted. *)
Theorem on_apply_clicked_shows_what_happened {W : Type} (os : Win32 W)
    (fuel : nat) (self : RefreshGUI) (s s' : state W) (r : outcome unit)
    (u : ui_update) :
  on_apply_clicked os fuel self s = (r, s') ->
  ui_updates (trace s') = ui_updates (trace s) ++ [u] ->
  match u with
  | Rate_text t =>
      exists cand,
        dmDisplayFrequency cand = Ctypes.DWORD t /\
        changes (trace s') =
          changes (trace s) ++
            [(cand, CDS_TEST, Returned DISP_CHANGE_SUCCESSFUL);
             (cand, 0, Returned DISP_CHANGE_SUCCESSFUL)]
  | _ =>
      exists added,
        changes (trace s') = changes (trace s) ++ added /\
        forall cand, ~ In (cand, 0, Returned DISP_CHANGE_SUCCESSFUL) added
  end.
Proof.
  intros H Hu. apply on_apply_clicked_cases in H.
  destruct H as [(t & s0 & Hs0 & Htry) | (_ & fr & w1 & e & _ & _ & -> & ->)].
  - assert (Hu0 : ui_updates (trace s0) = ui_updates (trace s) /\
                  changes (trace s0) = changes (trace s)).
    { destruct Hs0 as [(_ & _ & ->) | (_ & st & w1 & _ & _ & ->)];
        [split; reflexivity |].
      cbn [trace]. rewrite ui_updates_snoc, changes_snoc.
      split; apply app_nil_r. }
    destruct Hu0 as [Hu0 Hc0].
    pose proof Htry as Hcases. apply reported_apply_cases in Hcases.
    assert (r = Val tt) as ->.
    { destruct Hcases as [(? & ? & _ & ? & _) | [(? & ? & _ & ? & _)
                         | (Hset & _)]]; try assumption.
      exfalso.
      apply (set_refresh_rate_silent_ui os fuel t None true) in Hset.
      unfold ui_updates in *. rewrite Hset, Hu0 in Hu.
      rewrite <- (app_nil_r (flat_map ui_of (trace s))) in Hu at 1.
      apply app_inv_head in Hu. discriminate. }
    apply reported_apply_ui in Htry. rewrite <- Hu0 in Hu. rewrite <- Hc0.
    destruct Htry as [[Hu' Hc] | (e & added & Hu' & Hc & Hno)];
      rewrite Hu' in Hu; apply app_inv_head in Hu; inversion Hu; subst u.
    + exact Hc.
    + now exists added.
  - cbn [trace] in *.
    change (trace s ++ [Power fr; Ui (Show_error "Error applying refresh rate" e)])
      with (trace s ++ [Power fr] ++ [Ui (Show_error "Error applying refresh rate" e)])
      in *.
    rewrite app_assoc, !ui_updates_snoc in Hu. cbn [ui_of] in Hu.
    rewrite app_nil_r in Hu. apply app_inv_head in Hu.
    inversion Hu; subst u.
    exists []. rewrite app_assoc, !changes_snoc. cbn [change_of].
    rewrite !app_nil_r. split; [reflexivity | intros ? []].
Qed.

(** ** One turn of the loop, in full *)

(** The three ways through a turn of the loop. *)
Lemma poll_iteration_cases {W : Type} (os : Win32 W) (fuel : nat)
    (self : RefreshGUI) (last_plugged : option bool) (s s' : state W)
    (r : outcome (option bool)) :
  poll_iteration os fuel self last_plugged s = (r, s') ->
  exists fr w1,
    GetSystemPowerStatus os (world s) = (fr, w1) /\
    let p := plugged_of fr in
    let s1 :=
      mkState w1
        (trace s ++ [Power fr; Ui (Status_text (status_text_of p))]) in
    (state_changed last_plugged p && negb (override_var self) = false /\
     r = Val p /\ s' = s1) \/
    (state_changed last_plugged p && negb (override_var self) = true /\
     automatic_target (truthy p) (available_rates self) = None /\
     r = Raise ValueError /\ s' = s1) \/
    (state_changed last_plugged p && negb (override_var self) = true /\
     exists t rb,
       automatic_target (truthy p) (available_rates self) = Some t /\
       try_except
         (set_refresh_rate os fuel t None true ;; ui (Rate_text t))
         (fun e => ui (Show_warning "Could not change refresh rate" e))
         s1 = (rb, s') /\
       ((rb = Val tt /\ r = Val p) \/ (rb = OutOfFuel /\ r = OutOfFuel))).
Proof.
  unfold poll_iteration. intros H. apply bind_inv in H.
  destruct H as [(p & s0 & Hs & H) | [(e & Hs & _) | (Hs & _)]];
    try (destruct (sample_power_spec _ _ _ _ Hs) as (? & ? & _ & ? & _);
         discriminate).
  destruct (sample_power_spec _ _ _ _ Hs) as (fr & w1 & Hp & Hv & ->).
  inversion Hv; subst p. clear Hv Hs.
  exists fr, w1. split; [exact Hp |]. cbv zeta.
  unfold bind at 1, ui at 1, emit at 1 in H. cbn [world trace] in H.
  rewrite <- app_assoc in H. cbn [app] in H.
  destruct (state_changed last_plugged (plugged_of fr)); cbn [andb].
  2:{ unfold bind, ret in H. inversion H; subst. auto. }
  destruct (override_var self); cbn [negb].
  { unfold bind, ret in H. inversion H; subst. auto. }
  destruct (automatic_target _ (available_rates self)) as [t |].
  2:{ unfold bind, value_of, raise in H. inversion H; subst. auto 6. }
  right. right. split; [reflexivity |].
  unfold bind at 1, value_of, ret at 1 in H. apply bind_inv in H.
  destruct H as [(u & sb & Hb & H) | [(e & Hb & ->) | (Hb & ->)]].
  - inversion H; subst. destruct u. exists t, (Val tt). auto.
  - exfalso. apply reported_apply_cases in Hb.
    destruct Hb as [(? & ? & _ & ? & _) | [(? & ? & _ & ? & _) | (_ & ?)]];
      discriminate.
  - exists t, OutOfFuel. auto.
Qed.

Lemma status_text_unknown (p : option bool) :
  status_text_of p = "Unknown"%string <-> p = None.
Proof.
  destruct p as [[|] |]; cbn; split; intros H; try discriminate;
    reflexivity.
Qed.

(** X19. A turn of the loop that ends normally first shows the power
    status it sampled, "Unknown" exactly when the query failed. After
    that it shows nothing more and has made no change call, or it shows
    the new rate, which is the automatic target, after the driver has
    accepted the test and the commit of a mode with that frequency, or it
    shows the warning, and then no commit was accepted. *)
Theorem poll_iteration_shows_what_happened {W : Type} (os : Win32 W)
    (fuel : nat) (self : RefreshGUI) (last_plugged p : option bool)
    (s s' : state W) :
  poll_iteration os fuel self last_plugged s = (Val p, s') ->
  (status_text_of p = "Unknown"%string <-> p = None) /\
  exists rest,
    ui_updates (trace s') =
      ui_updates (trace s) ++ Status_text (status_text_of p) :: rest /\
    ((rest = [] /\ changes (trace s') = changes (trace s)) \/
     (exists t cand,
        rest = [Rate_text t] /\
        automatic_target (truthy p) (available_rates self) = Some t /\
        dmDisplayFrequency cand = Ctypes.DWORD t /\
        changes (trace s') =
          changes (trace s) ++
            [(cand, CDS_TEST, Returned DISP_CHANGE_SUCCESSFUL);
             (cand, 0, Returned DISP_CHANGE_SUCCESSFUL)]) \/
     (exists e added,
        rest = [Show_warning "Could not change refresh rate" e] /\
        changes (trace s') = changes (trace s) ++ added /\
        forall cand,
          ~ In (cand, 0, Returned DISP_CHANGE_SUCCESSFUL) added)).
Proof.
  intros H. split; [apply status_text_unknown |].
  apply poll_iteration_cases in H.
  destruct H as (fr & w1 & Hp & H). cbv zeta in H.
  set (s1 := mkState w1 _) in H.
  assert (Hs1 : ui_updates (trace s1) =
                ui_updates (trace s)
                  ++ [Status_text (status_text_of (plugged_of fr))] /\
                changes (trace s1) = changes (trace s)).
  { unfold s1. cbn [trace].
    change (trace s ++ [Power fr; ?x]) with (trace s ++ [Power fr] ++ [x]).
    rewrite app_assoc, !ui_updates_snoc, !changes_snoc. cbn.
    now rewrite !app_nil_r. }
  destruct Hs1 as [Hu1 Hc1]. clearbody s1.
  destruct H as [(_ & Hr & ->) | [(_ & _ & Hr & _) | (_ & t & rb & Ht & Htry & Hr)]];
    try discriminate.
  - inversion Hr; subst p. exists []. split; [exact Hu1 | auto].
  - destruct Hr as [[-> Hr] | [_ Hr]]; [| discriminate].
    inversion Hr; subst p.
    apply reported_apply_ui in Htry.
    destruct Htry as [[Hu (cand & Hf & Hc)] | (e & added & Hu & Hc & Hno)].
    + exists [Rate_text t]. split.
      * rewrite Hu, Hu1, <- app_assoc. reflexivity.
      * right. left. exists t, cand. rewrite Hc, Hc1. auto.
    + exists [Show_warning "Could not change refresh rate" e]. split.
      * rewrite Hu, Hu1, <- app_assoc. reflexivity.
      * right. right. exists e, added. rewrite Hc, Hc1. auto.
Qed.

(** X20. A turn on which the state did not change, or that finds override
    set, makes one power query and one update of the status text and
    nothing else: it does not read or change the display settings. *)
Theorem poll_iteration_quiet_turn {W : Type} (os : Win32 W) (fuel : nat)
    (self : RefreshGUI) (last_plugged : option bool) (s : state W)
    (fr : foreign (option SYSTEM_POWER_STATUS)) (w1 : W) :
  GetSystemPowerStatus os (world s) = (fr, w1) ->
  state_changed last_plugged (plugged_of fr) && negb (override_var self)
    = false ->
  poll_iteration os fuel self last_plugged s =
    (Val (plugged_of fr),
     mkState w1
       (trace s ++
        [Power fr; Ui (Status_text (status_text_of (plugged_of fr)))])).
Proof.
  intros Hp Hquiet.
  destruct (poll_iteration os fuel self last_plugged s) as [r s'] eqn:H.
  apply poll_iteration_cases in H.
  destruct H as (fr' & w1' & Hp' & H). rewrite Hp in Hp'.
  inversion Hp'; subst fr' w1'. cbv zeta in H.
  destruct H as [(_ & -> & ->) | [(E & _) | (E & _)]];
    [reflexivity | congruence | congruence].
Qed.

(** X21. With an empty tuple of rates, a turn in automatic mode on which
    the state changed raises [ValueError], from [max] or [min], before
    [set_refresh_rate] is called and outside any [try]: the loop ends
    there, whatever the turns that would have followed. *)
Theorem poll_turns_dies_without_rates {W : Type} (os : Win32 W)
    (fuel : nat) (self : RefreshGUI) (later : list RefreshGUI)
    (last_plugged : option bool) (s : state W)
    (fr : foreign (option SYSTEM_POWER_STATUS)) (w1 : W) :
  running self = true -> override_var self = false ->
  available_rates self = [] ->
  GetSystemPowerStatus os (world s) = (fr, w1) ->
  state_changed last_plugged (plugged_of fr) = true ->
  poll_turns os fuel (self :: later) last_plugged s =
    (Raise ValueError,
     mkState w1
       (trace s ++
        [Power fr; Ui (Status_text (status_text_of (plugged_of fr)))])).
Proof.
  intros Hrun Hov Hrates Hp Hchanged. cbn [poll_turns]. rewrite Hrun.
  unfold bind at 1.
  destruct (poll_iteration os fuel self last_plugged s) as [r s'] eqn:H.
  apply poll_iteration_cases in H.
  destruct H as (fr' & w1' & Hp' & H). rewrite Hp in Hp'.
  inversion Hp'; subst fr' w1'. cbv zeta in H.
  rewrite Hchanged, Hov, Hrates in H. cbn [andb negb] in H.
  assert (Hnone : forall b, automatic_target b [] = None)
    by (intros [|]; reflexivity).
  destruct H as [(E & _) | [(_ & _ & -> & ->) | (_ & t & rb & Ht & _)]].
  - discriminate.
  - reflexivity.
  - rewrite Hnone in Ht. discriminate.
Qed.

(** ** The loop as a whole *)

(** The test of [poll_loop] picks out the samples that give a new
    power state. *)
Lemma state_changed_new_state (last p : option bool) :
  state_changed last p = new_state last p.
Proof. now destruct last as [[|] |], p as [[|] |]. Qed.

Lemma turn_applies_count (self : RefreshGUI) (last p : option bool) :
  (length (flat_map applied_in (turn_applies self last p))
   <= if new_state last p then 1 else 0)%nat.
Proof.
  unfold turn_applies. rewrite state_changed_new_state.
  destruct (new_state last p); cbn [andb];
    [| cbn; lia].
  destruct (negb (override_var self)); [| cbn; lia].
  destruct (automatic_target _ _); cbn; lia.
Qed.

Lemma turns_timeline_count_le (views : list RefreshGUI) :
  forall last ps,
    (length (flat_map applied_in (turns_timeline views last ps))
     <= transitions last ps)%nat.
Proof.
  induction views as [|self later IH]; intros last [|p ps];
    cbn [turns_timeline transitions flat_map applied_in app length];
    try lia.
  rewrite flat_map_app, length_app.
  pose proof (turn_applies_count self last p).
  specialize (IH p ps). lia.
Qed.

Lemma turns_timeline_count_eq (views : list RefreshGUI) :
  Forall (fun v => override_var v = false /\ available_rates v <> [])
         views ->
  forall last ps,
    (length ps <= length views)%nat ->
    length (flat_map applied_in (turns_timeline views last ps))
      = transitions last ps.
Proof.
  induction 1 as [|self later [Hov Hne] _ IH]; intros last [|p ps] Hlen;
    cbn [turns_timeline transitions flat_map applied_in app length] in *;
    try lia.
  rewrite flat_map_app, length_app, IH by lia.
  destruct (turn_applies_automatic self last p Hov Hne) as (t & _ & ->).
  rewrite state_changed_new_state. now destruct (new_state last p).
Qed.

(** X22. However long the loop runs and whatever it samples, the number
    of its calls of [set_refresh_rate] is at most the number of its
    samples that give a new power state: a state, plugged in or on
    battery, that the sample before did not give, because it gave the
    other state, because its query failed, or because there was no sample
    before. In automatic mode with rates to choose from the two numbers
    are equal; so the loop calls [set_refresh_rate] again at the first
    successful sample after a failed query, also when the power state is
    the one it had before the failure. *)
Theorem poll_turns_applies_once_per_change {W : Type} (os : Win32 W)
    (fuel : nat) (views : list RefreshGUI) (last_plugged : option bool)
    (s s' : state W) (r : outcome (option bool)) :
  poll_turns os fuel views last_plugged s = (r, s') ->
  exists ps,
    samples (trace s') = samples (trace s) ++ ps /\
    (length (applies (trace s'))
     <= length (applies (trace s)) + transitions last_plugged ps)%nat /\
    (Forall (fun v => override_var v = false /\ available_rates v <> [])
            views ->
     length (applies (trace s'))
       = (length (applies (trace s)) + transitions last_plugged ps)%nat).
Proof.
  intros H. apply poll_turns_timeline in H.
  destruct H as (ps & Hlen & Ht). exists ps.
  split; [| split].
  - rewrite !samples_of_timeline, Ht, flat_map_app.
    now rewrite turns_timeline_samples.
  - rewrite !applies_of_timeline, Ht, flat_map_app, length_app.
    pose proof (turns_timeline_count_le views last_plugged ps). lia.
  - intros Hauto.
    rewrite !applies_of_timeline, Ht, flat_map_app, length_app.
    now rewrite turns_timeline_count_eq.
Qed.

Lemma set_refresh_rate_ends {W : Type} (os : Win32 W) (bound fuel : nat)
    (target_hz : Z) (device_name : option string) (test_first : bool)
    (s : state W) :
  enum_bounded os bound -> (bound < fuel)%nat ->
  fst (set_refresh_rate os fuel target_hz device_name test_first s)
    <> OutOfFuel.
Proof.
  intros Hb Hf. unfold set_refresh_rate. unfold bind at 1, emit at 1.
  unfold bind at 1.
  pose proof (get_current_mode_returns os device_name
                (mkState (world s)
                   (trace s ++ [Enter_set_refresh_rate target_hz])))
    as Hcur.
  destruct (get_current_mode os device_name _) as [[[dm |] | e |] s1];
    cbn [fst] in *; try discriminate; try congruence.
  cbv zeta. unfold bind at 1.
  pose proof (list_modes_total os bound fuel device_name s1 Hb Hf) as Hl.
  destruct (list_modes os fuel device_name s1) as [[modes | e |] s2];
    cbn [fst] in *; try discriminate; try congruence.
  destruct (Py.contains target_hz _); cbn [negb]; [| discriminate].
  unfold bind at 1, call_EnumDisplaySettingsW at 1, foreign_call at 1.
  destruct (EnumDisplaySettingsW os device_name ENUM_CURRENT_SETTINGS
              (world s2)) as [[[new_dm |] | c] w3]; try discriminate.
  cbv zeta.
  set (cand := set_dmFields (set_dmDisplayFrequency new_dm target_hz) _).
  set (s3 := mkState w3 _). clearbody s3.
  unfold bind, call_ChangeDisplaySettingsExW, foreign_call, ret, raise.
  destruct test_first.
  - destruct (ChangeDisplaySettingsExW os device_name cand CDS_TEST
                (world s3)) as [[rt | c] w4]; try discriminate.
    destruct (rt =? DISP_CHANGE_SUCCESSFUL); cbn [negb]; try discriminate.
    cbn [world trace].
    destruct (ChangeDisplaySettingsExW os device_name cand 0 w4)
      as [[rc | c] w5]; try discriminate.
    destruct (rc =? DISP_CHANGE_SUCCESSFUL); discriminate.
  - destruct (ChangeDisplaySettingsExW os device_name cand 0 (world s3))
      as [[rc | c] w5]; try discriminate.
    destruct (rc =? DISP_CHANGE_SUCCESSFUL); discriminate.
Qed.

Lemma poll_iteration_ends {W : Type} (os : Win32 W) (bound fuel : nat)
    (self : RefreshGUI) (last_plugged : option bool) (s s' : state W)
    (r : outcome (option bool)) :
  enum_bounded os bound -> (bound < fuel)%nat ->
  available_rates self <> [] ->
  poll_iteration os fuel self last_plugged s = (r, s') ->
  exists p, r = Val p.
Proof.
  intros Hb Hf Hne H. apply poll_iteration_cases in H.
  destruct H as (fr & w1 & _ & H). cbv zeta in H.
  destruct H as [(_ & -> & _) | [(_ & Hnone & _) | (_ & t & rb & _ & Htry & Hr)]].
  - eauto.
  - destruct (automatic_target_defined (truthy (plugged_of fr)) _ Hne)
      as [t Ht]. congruence.
  - destruct Hr as [[_ ->] | [-> _]]; [eauto |].
    exfalso. apply reported_apply_cases in Htry.
    destruct Htry as [(? & ? & _ & ? & _) | [(? & ? & _ & ? & _) | (Hset & _)]];
      try discriminate.
    eapply (set_refresh_rate_ends os bound fuel t None true); eauto.
    now rewrite Hset.
Qed.

Lemma last_nonempty_default {A : Type} (l : list A) :
  forall (x d d' : A), last (x :: l) d = last (x :: l) d'.
Proof.
  induction l as [|y l IH]; intros x d d'; [reflexivity |].
  change (last (y :: l) d = last (y :: l) d'). apply IH.
Qed.

(** X23. On a driver that lists finitely many modes, given more loop
    turns than it has modes, the loop survives everything the system can
    answer: as long as the window has rates and is not closed, every turn
    is completed, none raises, and each takes exactly one power sample,
    the last of which is what the loop remembers. *)
Theorem poll_turns_completes_every_turn {W : Type} (os : Win32 W)
    (bound fuel : nat) (views : list RefreshGUI) :
  enum_bounded os bound -> (bound < fuel)%nat ->
  Forall (fun v => running v = true /\ available_rates v <> []) views ->
  forall (last_plugged : option bool) (s : state W),
  exists ps s',
    poll_turns os fuel views last_plugged s = (Val (last ps last_plugged), s')
    /\ samples (trace s') = samples (trace s) ++ ps
    /\ length ps = length views.
Proof.
  intros Hb Hf Hviews.
  induction Hviews as [|self later [Hrun Hne] _ IH]; intros lp s.
  - exists [], s. cbn. now rewrite app_nil_r.
  - cbn [poll_turns]. rewrite Hrun. unfold bind at 1.
    destruct (poll_iteration os fuel self lp s) as [r s1] eqn:H.
    destruct (poll_iteration_ends os bound fuel _ _ _ _ _ Hb Hf Hne H)
      as [p ->].
    apply poll_iteration_timeline in H.
    destruct H as (p' & _ & _ & Ht & [Hr | [Hr | [Hr _]]]);
      try discriminate.
    inversion Hr; subst p'.
    destruct (IH p s1) as (ps & s' & Hrest & Hsamp & Hlen).
    exists (p :: ps), s'. split; [| split].
    + rewrite Hrest. f_equal. f_equal.
      destruct ps as [|q ps]; [reflexivity |].
      change (last (p :: q :: ps) lp) with (last (q :: ps) lp).
      apply last_nonempty_default.
    + rewrite Hsamp, !samples_of_timeline, Ht, flat_map_app.
      cbn [flat_map sampled_in]. rewrite turn_applies_no_sample.
      now rewrite <- app_assoc.
    + cbn. now rewrite Hlen.
Qed.

(** ** The rate label and the tray entry *)

(** X24. [update_current_refresh_label] never raises and never changes
    the display: it reads the current settings once and sets the rate
    label once, to the frequency read, or to "Unknown" when the settings
    cannot be read or the call faults. *)
Theorem update_current_refresh_label_shows_current_rate {W : Type}
    (os : Win32 W) (s : state W) (r : foreign (option DEVMODEW)) (w1 : W) :
  EnumDisplaySettingsW os None ENUM_CURRENT_SETTINGS (world s) = (r, w1) ->
  update_current_refresh_label os s =
    (Val tt,
     mkState w1
       (trace s ++
        [Enum None ENUM_CURRENT_SETTINGS r;
         Ui (match r with
             | Returned (Some dm) => Rate_text (dmDisplayFrequency dm)
             | _ => Rate_text_unknown
             end)])).
Proof.
  intros H.
  unfold update_current_refresh_label, try_except, bind, get_current_mode,
    call_EnumDisplaySettingsW, foreign_call, ui, emit.
  rewrite H. destruct r as [[dm |] | c]; cbn [world trace];
    now rewrite <- app_assoc.
Qed.

(** X25. The [try] of [_tray_apply] never catches anything: the tray
    entry "Apply now" does exactly what the button does. *)
Theorem tray_apply_is_apply_now {W : Type} (os : Win32 W) (fuel : nat)
    (self : RefreshGUI) (s : state W) :
  _tray_apply os fuel self s = on_apply_clicked os fuel self s.
Proof.
  unfold _tray_apply, try_except.
  destruct (on_apply_clicked os fuel self s) as [[u | e |] s'] eqn:H;
    try reflexivity.
  exfalso. apply on_apply_clicked_cases in H.
  destruct H as [(t & s0 & _ & Htry) | (_ & _ & _ & _ & _ & _ & E & _)];
    [| discriminate].
  apply reported_apply_cases in Htry.
  destruct Htry as [(? & ? & _ & ? & _) | [(? & ? & _ & ? & _) | (_ & ?)]];
    discriminate.
Qed.

(** ** The window and the tray icon *)

Lemma live_icons_snoc (t : list shell_event) (e : shell_event) :
  live_icons (t ++ [e]) = live_step (live_icons t) e.
Proof. unfold live_icons. now rewrite fold_left_app. Qed.

Lemma shell_inv_fresh (available : bool) : shell_inv (fresh_shell available).
Proof.
  unfold shell_inv, fresh_shell. cbn. repeat split; try discriminate;
    auto; intros H; congruence.
Qed.

Lemma shell_step_available (a : shell_action) (sh : Shell) :
  PYSTRAY_AVAILABLE (shell_step a sh) = PYSTRAY_AVAILABLE sh.
Proof.
  destruct a; cbn; unfold on_minimize, _tray_restore, _do_restore,
    start_tray.
  - destruct (PYSTRAY_AVAILABLE sh) eqn:E; cbn; [| exact E].
    destruct (tray_icon sh); cbn; exact E.
  - destruct (tray_icon sh); reflexivity.
Qed.

Ltac shell_simpl :=
  cbn [shell_call set_tray_icon root tray_icon PYSTRAY_AVAILABLE
       shell_trace icons_made].

Lemma shell_inv_step (a : shell_action) (sh : Shell) :
  shell_inv sh -> shell_inv (shell_step a sh).
Proof.
  intros (Hw & Hd & Hl & Ha). destruct a; cbn [shell_step].
  - unfold on_minimize. destruct (PYSTRAY_AVAILABLE sh) eqn:Eav; cbn [negb].
    + unfold start_tray. shell_simpl.
      destruct (tray_icon sh) as [icon |] eqn:Et.
      * unfold shell_inv. shell_simpl.
        rewrite ?Et, Eav, live_icons_snoc, Hl. cbn [live_step icon_list].
        repeat split; try discriminate; auto.
      * unfold shell_inv. shell_simpl.
        rewrite Eav, !live_icons_snoc, Hl. cbn [live_step icon_list app].
        repeat split; try discriminate; auto.
    + destruct (Ha eq_refl) as [Hn Hnone].
      unfold shell_inv. shell_simpl.
      rewrite Eav, live_icons_snoc, Hl. cbn [live_step].
      split; [exact Hw |]. split; [exact Hd |]. split; [reflexivity |].
      intros _. split; [exact Hn |].
      intros i Hin. apply in_app_or in Hin.
      destruct Hin as [Hin | [Hin | []]]; [now apply (Hnone i) |].
      discriminate.
  - unfold _tray_restore, _do_restore.
    destruct (tray_icon sh) as [icon |] eqn:Et.
    + unfold shell_inv. shell_simpl.
      rewrite !live_icons_snoc, Hl. cbn [live_step icon_list remove].
      destruct (Nat.eq_dec icon icon) as [_ | Hn]; [| congruence].
      split; [split; [discriminate | congruence] |].
      split; [discriminate |]. split; [reflexivity |].
      intros Hav. destruct (Ha Hav) as [Hn _].
      exfalso. destruct Hw as [_ Hw].
      rewrite Hw in Hn; [discriminate | discriminate].
    + unfold shell_inv. shell_simpl.
      rewrite ?Et, !live_icons_snoc, Hl. cbn [live_step icon_list].
      split; [split; [discriminate | congruence] |].
      split; [discriminate |]. split; [reflexivity |].
      intros Hav. destruct (Ha Hav) as [_ Hnone]. split; [reflexivity |].
      intros i Hin. apply in_app_or in Hin.
      destruct Hin as [Hin | [Hin | []]]; [| discriminate].
      apply in_app_or in Hin.
      destruct Hin as [Hin | [Hin | []]]; [now apply (Hnone i) |].
      discriminate.
Qed.

Lemma shell_inv_run (actions : list shell_action) :
  forall sh, shell_inv sh -> shell_inv (shell_run actions sh).
Proof.
  induction actions as [|a actions IH]; intros sh H; [exact H |].
  cbn. apply IH. now apply shell_inv_step.
Qed.

Lemma shell_run_available (actions : list shell_action) :
  forall sh,
    PYSTRAY_AVAILABLE (shell_run actions sh) = PYSTRAY_AVAILABLE sh.
Proof.
  induction actions as [|a actions IH]; intros sh; [reflexivity |].
  cbn. change (fold_left _ actions ?x) with (shell_run actions x).
  now rewrite IH, shell_step_available.
Qed.

(** X26. However the user alternates "Minimize to tray" and "Open
    Window", the window is hidden exactly while the script holds a tray
    icon by which to bring it back; every icon that was ever created,
    except the one the script holds, has been sent [stop()], so there is
    never more than one; and without pystray the window is never hidden
    and no icon is ever created. *)
Theorem window_is_hidden_only_behind_its_icon (available : bool)
    (actions : list shell_action) :
  (root (shell_run actions (fresh_shell available)) = Withdrawn <->
   tray_icon (shell_run actions (fresh_shell available)) <> None) /\
  live_icons (shell_trace (shell_run actions (fresh_shell available)))
    = icon_list (tray_icon (shell_run actions (fresh_shell available))) /\
  (available = false ->
   root (shell_run actions (fresh_shell available)) = Normal /\
   forall i,
     ~ In (Icon_created i)
          (shell_trace (shell_run actions (fresh_shell available)))).
Proof.
  pose proof (shell_inv_run actions _ (shell_inv_fresh available))
    as (Hw & _ & Hl & Ha).
  split; [exact Hw |]. split; [exact Hl |].
  intros ->. apply Ha. now rewrite shell_run_available.
Qed.

(** X27. Leaving after any use of the window, by the button "Exit" or
    by the tray entry "Exit". Either way the icon the script holds, if
    any, is sent [stop()], so that of all the icons ever created none is
    left running; and [running] is cleared, so that the polling loop ends
    at its next test of [self.running] without a further power query or
    display call. The two ways differ in the window. The button destroys
    it at once. The tray entry only schedules the call of [destroy] with
    Tk: when it returns the window is not destroyed but hidden or shown as
    it was, and it is destroyed once Tk has run the scheduled call, after
    the same calls as by the button. *)
Theorem exit_stops_icon_and_loop {W : Type} (os : Win32 W) (fuel : nat)
    (available : bool) (actions : list shell_action) (self : RefreshGUI)
    (later : list RefreshGUI) (last_plugged : option bool) (s : state W) :
  let sh := shell_run actions (fresh_shell available) in
  let by_button := on_exit self sh in
  let by_tray := _tray_exit self sh in
  live_icons (shell_trace (snd by_button)) = [] /\
  live_icons (shell_trace (snd by_tray)) = [] /\
  root (snd by_button) = Destroyed /\
  root (snd by_tray) = root sh /\
  root (snd by_tray) <> Destroyed /\
  root (scheduled_destroy (snd by_tray)) = Destroyed /\
  (exists calls,
     shell_trace (snd by_button) = calls ++ [Root_destroy] /\
     shell_trace (scheduled_destroy (snd by_tray)) =
       calls ++ [Root_after_destroy; Root_destroy]) /\
  poll_turns os fuel (fst by_button :: later) last_plugged s =
    (Val last_plugged, s) /\
  poll_turns os fuel (fst by_tray :: later) last_plugged s =
    (Val last_plugged, s).
Proof.
  pose proof (shell_inv_run actions _ (shell_inv_fresh available))
    as (_ & Hd & Hl & _).
  set (sh := shell_run actions (fresh_shell available)) in *.
  cbv zeta. unfold on_exit, _tray_exit, scheduled_destroy, stop_tray_icon.
  cbn [fst snd].
  destruct (tray_icon sh) as [icon |]; shell_simpl;
    rewrite ?live_icons_snoc, Hl; cbn [live_step icon_list remove].
  - destruct (Nat.eq_dec icon icon) as [_ | Hn]; [| congruence].
    repeat split; try assumption.
    exists (shell_trace sh ++ [Icon_stop icon]).
    split; [reflexivity |]. now rewrite <- app_assoc.
  - repeat split; try assumption.
    exists (shell_trace sh). split; [reflexivity |].
    now rewrite <- app_assoc.
Qed.

(** ** The further properties on the scripted machine *)

Lemma laptop_enum_stable (driver_modes : list DEVMODEW) :
  enum_stable (Laptop.os driver_modes).
Proof.
  intros d i w. cbn. unfold Laptop.enum.
  destruct (i =? ENUM_CURRENT_SETTINGS); [reflexivity |].
  destruct (i <? 0); reflexivity.
Qed.

Lemma list_modes_sorted_without_duplicates_witness :
  list_modes (Laptop.os Laptop.panel) 10 None Laptop.desk =
    (Val Laptop.catalog, snd Laptop.listing) /\
  NoDup Laptop.catalog.
Proof.
  assert (H : list_modes (Laptop.os Laptop.panel) 10 None Laptop.desk =
              (Val Laptop.catalog, snd Laptop.listing)) by reflexivity.
  split; [exact H |].
  exact (proj2 (list_modes_sorted_without_duplicates _ _ _ _ _ _ H)).
Defined.

Lemma list_modes_enumerates_until_refused_witness :
  list_modes (Laptop.os Laptop.panel) 10 None Laptop.desk =
    (Val Laptop.catalog, snd Laptop.listing) /\
  exists dms,
    trace (snd Laptop.listing) =
      trace Laptop.desk ++ enum_events None 0 dms
        ++ [Enum None (Z.of_nat (length dms)) (Returned None)].
Proof.
  assert (H : list_modes (Laptop.os Laptop.panel) 10 None Laptop.desk =
              (Val Laptop.catalog, snd Laptop.listing)) by reflexivity.
  split; [exact H |].
  destruct (list_modes_enumerates_until_refused _ _ _ _ _ _ H)
    as (dms & Ht & _).
  now exists dms.
Defined.

Lemma list_modes_canonical_witness :
  list_modes (Laptop.os Laptop.panel) 10 None Laptop.desk =
    (Val Laptop.catalog, snd Laptop.listing) /\
  list_modes (Laptop.os Laptop.panel_shuffled) 10 None Laptop.desk =
    (Val (Py.sorted_set mode_key_compare
            (map mode_of Laptop.panel_shuffled)),
     snd Laptop.listing_shuffled) /\
  (forall m,
     In m Laptop.catalog <->
     In m (Py.sorted_set mode_key_compare
             (map mode_of Laptop.panel_shuffled))) /\
  Laptop.catalog =
    Py.sorted_set mode_key_compare (map mode_of Laptop.panel_shuffled).
Proof.
  assert (H1 : list_modes (Laptop.os Laptop.panel) 10 None Laptop.desk =
               (Val Laptop.catalog, snd Laptop.listing)) by reflexivity.
  assert (H2 : list_modes (Laptop.os Laptop.panel_shuffled) 10 None
                 Laptop.desk =
               (Val (Py.sorted_set mode_key_compare
                       (map mode_of Laptop.panel_shuffled)),
                snd Laptop.listing_shuffled)) by reflexivity.
  assert (H3 : forall m,
                 In m Laptop.catalog <->
                 In m (Py.sorted_set mode_key_compare
                         (map mode_of Laptop.panel_shuffled)))
    by (intros m; reflexivity).
  split; [exact H1 |]. split; [exact H2 |]. split; [exact H3 |].
  exact (list_modes_canonical _ _ _ _ _ _ _ _ _ _ _ _ H1 H2 H3).
Defined.

Lemma list_modes_ends_on_finite_driver_witness :
  enum_bounded (Laptop.os Laptop.panel) 6 /\ (6 < 10)%nat /\
  ((exists modes,
      fst (list_modes (Laptop.os Laptop.panel) 10 None Laptop.desk)
        = Val modes) \/
   (exists c,
      fst (list_modes (Laptop.os Laptop.panel) 10 None Laptop.desk)
        = Raise (OSError c))).
Proof.
  split; [exact (laptop_enum_bounded Laptop.panel) |]. split; [lia |].
  apply (list_modes_ends_on_finite_driver (Laptop.os Laptop.panel) 6 10);
    [exact (laptop_enum_bounded Laptop.panel) | lia].
Defined.

Lemma set_refresh_rate_true_means_committed_witness :
  set_refresh_rate (Laptop.os Laptop.panel) 10 120 None true Laptop.desk =
    (Val true, snd (Laptop.apply_120 true Laptop.desk)) /\
  exists cand,
    dmDisplayFrequency cand = Ctypes.DWORD 120 /\
    changes (trace (snd (Laptop.apply_120 true Laptop.desk))) =
      changes (trace Laptop.desk)
        ++ [(cand, CDS_TEST, Returned DISP_CHANGE_SUCCESSFUL)]
        ++ [(cand, 0, Returned DISP_CHANGE_SUCCESSFUL)].
Proof.
  assert (H : set_refresh_rate (Laptop.os Laptop.panel) 10 120 None true
                Laptop.desk =
              (Val true, snd (Laptop.apply_120 true Laptop.desk)))
    by reflexivity.
  split; [exact H |].
  exact (proj2 (set_refresh_rate_true_means_committed _ _ _ _ _ _ _ _ H)).
Defined.

Lemma set_refresh_rate_commits_only_tested_modes_witness :
  set_refresh_rate (Laptop.os Laptop.panel) 10 120 None true
    Laptop.commit_failing =
    (Raise (RuntimeError (Change_failed (-1))),
     snd (Laptop.apply_120 true Laptop.commit_failing)) /\
  exists added,
    changes (trace (snd (Laptop.apply_120 true Laptop.commit_failing))) =
      changes (trace Laptop.commit_failing) ++ added /\
    forall cand rc,
      In (cand, 0, rc) added ->
      added = [(cand, CDS_TEST, Returned DISP_CHANGE_SUCCESSFUL);
               (cand, 0, rc)].
Proof.
  assert (H : set_refresh_rate (Laptop.os Laptop.panel) 10 120 None true
                Laptop.commit_failing =
              (Raise (RuntimeError (Change_failed (-1))),
               snd (Laptop.apply_120 true Laptop.commit_failing)))
    by reflexivity.
  split; [exact H |].
  exact (set_refresh_rate_commits_only_tested_modes _ _ _ _ _ _ _ H).
Defined.

Lemma set_refresh_rate_without_test_only_commits_witness :
  set_refresh_rate (Laptop.os Laptop.panel) 10 120 None false
    Laptop.rejecting =
    (Val true, snd (Laptop.apply_120 false Laptop.rejecting)) /\
  (changes (trace (snd (Laptop.apply_120 false Laptop.rejecting))) =
     changes (trace Laptop.rejecting) \/
   exists cand rc,
     dmDisplayFrequency cand = Ctypes.DWORD 120 /\
     changes (trace (snd (Laptop.apply_120 false Laptop.rejecting))) =
       changes (trace Laptop.rejecting) ++ [(cand, 0, rc)] /\
     Val true = commit_outcome rc).
Proof.
  assert (H : set_refresh_rate (Laptop.os Laptop.panel) 10 120 None false
                Laptop.rejecting =
              (Val true, snd (Laptop.apply_120 false Laptop.rejecting)))
    by reflexivity.
  split; [exact H |].
  exact (set_refresh_rate_without_test_only_commits _ _ _ _ _ _ _ H).
Defined.

Lemma set_refresh_rate_error_tells_progress_witness :
  set_refresh_rate (Laptop.os Laptop.panel) 10 120 None true
    Laptop.rejecting =
    (Raise (RuntimeError (Test_change_failed (-2))),
     snd (Laptop.apply_120 true Laptop.rejecting)) /\
  -2 <> DISP_CHANGE_SUCCESSFUL /\
  exists cand,
    changes (trace (snd (Laptop.apply_120 true Laptop.rejecting))) =
      changes (trace Laptop.rejecting)
        ++ [(cand, CDS_TEST, Returned (-2))].
Proof.
  assert (H : set_refresh_rate (Laptop.os Laptop.panel) 10 120 None true
                Laptop.rejecting =
              (Raise (RuntimeError (Test_change_failed (-2))),
               snd (Laptop.apply_120 true Laptop.rejecting)))
    by reflexivity.
  split; [exact H |].
  exact (set_refresh_rate_error_tells_progress _ _ _ _ _ _ _ _ H).
Defined.

Lemma set_refresh_rate_needs_current_mode_witness :
  EnumDisplaySettingsW (Laptop.os Laptop.panel) None ENUM_CURRENT_SETTINGS
    (world Laptop.no_display) = (Returned None, world Laptop.no_display) /\
  fst (set_refresh_rate (Laptop.os Laptop.panel) 0 120 None true
         Laptop.no_display) =
    Raise (RuntimeError Unable_to_get_current_display_settings).
Proof.
  assert (H : EnumDisplaySettingsW (Laptop.os Laptop.panel) None
                ENUM_CURRENT_SETTINGS (world Laptop.no_display) =
              (Returned None, world Laptop.no_display)) by reflexivity.
  split; [exact H |].
  rewrite (set_refresh_rate_needs_current_mode
             (Laptop.os Laptop.panel) 0 120 None true _ _ H).
  reflexivity.
Defined.

Lemma set_refresh_rate_not_supported_is_justified_witness :
  set_refresh_rate (Laptop.os Laptop.panel) 10 144 None true Laptop.desk =
    (Raise (RuntimeError
              (Requested_not_supported 144 (1920, 1080) [60; 120])),
     Laptop.listed 144 Laptop.desk) /\
  ~ In 144 [60; 120].
Proof.
  assert (H : set_refresh_rate (Laptop.os Laptop.panel) 10 144 None true
                Laptop.desk =
              (Raise (RuntimeError
                        (Requested_not_supported 144 (1920, 1080)
                           [60; 120])),
               Laptop.listed 144 Laptop.desk)) by reflexivity.
  split; [exact H |].
  exact (proj1 (proj2
    (set_refresh_rate_not_supported_is_justified _ _ _ _ _ _ _ _ _ _ H))).
Defined.

Lemma get_available_refresh_rates_only_reads_witness :
  get_available_refresh_rates (Laptop.os Laptop.panel) 10 None Laptop.desk =
    (Val [60; 120], snd Laptop.offered) /\
  changes (trace (snd Laptop.offered)) = changes (trace Laptop.desk).
Proof.
  assert (H : get_available_refresh_rates (Laptop.os Laptop.panel) 10 None
                Laptop.desk = (Val [60; 120], snd Laptop.offered))
    by reflexivity.
  split; [exact H |].
  exact (proj1 (proj2
    (get_available_refresh_rates_only_reads _ _ _ _ _ _ H))).
Defined.

Lemma offered_rates_pass_validation_witness :
  get_available_refresh_rates (Laptop.os Laptop.panel) 10 None Laptop.odd =
    (Val fallback_rates, snd Laptop.offered_odd) /\
  world Laptop.odd = world Laptop.odd /\
  In 60 fallback_rates /\
  set_refresh_rate (Laptop.os Laptop.panel) 10 60 None true Laptop.odd =
    (Raise (RuntimeError (Requested_not_supported 60 (800, 600) [])),
     snd Laptop.apply_at_odd) /\
  @nil Z = [] /\ fallback_rates = fallback_rates.
Proof.
  assert (H1 : get_available_refresh_rates (Laptop.os Laptop.panel) 10 None
                 Laptop.odd =
               (Val fallback_rates, snd Laptop.offered_odd))
    by reflexivity.
  assert (H2 : world Laptop.odd = world Laptop.odd) by reflexivity.
  assert (H3 : In 60 fallback_rates) by (cbn; auto).
  assert (H4 : set_refresh_rate (Laptop.os Laptop.panel) 10 60 None true
                 Laptop.odd =
               (Raise (RuntimeError
                         (Requested_not_supported 60 (800, 600) [])),
                snd Laptop.apply_at_odd)) by reflexivity.
  repeat (split; [assumption |]).
  exact (offered_rates_pass_validation _ _ _ _ _ _ _ _ _ _ _ _ _
           H1 H2 H3 H4).
Defined.

Lemma get_available_refresh_rates_repeatable_witness :
  enum_stable (Laptop.os Laptop.panel) /\
  get_available_refresh_rates (Laptop.os Laptop.panel) 10 None Laptop.desk =
    (Val [60; 120], snd Laptop.offered) /\
  world (snd Laptop.offered) = world Laptop.desk /\
  exists s2,
    get_available_refresh_rates (Laptop.os Laptop.panel) 10 None
      (snd Laptop.offered) = (Val [60; 120], s2).
Proof.
  assert (H : get_available_refresh_rates (Laptop.os Laptop.panel) 10 None
                Laptop.desk = (Val [60; 120], snd Laptop.offered))
    by reflexivity.
  split; [exact (laptop_enum_stable Laptop.panel) |]. split; [exact H |].
  exact (get_available_refresh_rates_repeatable _ _ _ _ _ _
           (laptop_enum_stable Laptop.panel) H).
Defined.

Lemma RefreshGUI_init_selects_an_offered_rate_witness :
  RefreshGUI_init (Laptop.os Laptop.panel) 10 Laptop.desk =
    (Val (Laptop.window false 120), snd Laptop.built) /\
  In (selected_rate (Laptop.window false 120))
     (available_rates (Laptop.window false 120)).
Proof.
  assert (H : RefreshGUI_init (Laptop.os Laptop.panel) 10 Laptop.desk =
              (Val (Laptop.window false 120), snd Laptop.built))
    by reflexivity.
  split; [exact H |].
  destruct (RefreshGUI_init_selects_an_offered_rate _ _ _ _ _ H)
    as [_ Hself].
  destruct (Hself _ eq_refl) as (_ & _ & _ & Hin & _).
  exact Hin.
Defined.

Lemma on_apply_clicked_reports_once_witness :
  on_apply_clicked (Laptop.os Laptop.panel) 10 (Laptop.window true 120)
    (snd Laptop.overridden) = (Val tt, snd Laptop.clicked) /\
  forall e, Val tt <> @Raise unit e.
Proof.
  assert (H : on_apply_clicked (Laptop.os Laptop.panel) 10
                (Laptop.window true 120) (snd Laptop.overridden) =
              (Val tt, snd Laptop.clicked)) by reflexivity.
  split; [exact H |].
  exact (proj1 (on_apply_clicked_reports_once _ _ _ _ _ _ H)).
Defined.

Lemma on_apply_clicked_without_power_status_witness :
  override_var (Laptop.window false 120) = false /\
  GetSystemPowerStatus (Laptop.os Laptop.panel) (world Laptop.desk) =
    (Returned None, world Laptop.desk) /\
  plugged_of (Returned None) = None /\
  exists e,
    on_apply_clicked (Laptop.os Laptop.panel) 10 (Laptop.window false 120)
      Laptop.desk =
      (Val tt,
       mkState (world Laptop.desk)
         (trace Laptop.desk ++
          [Power (Returned None);
           Ui (Show_error "Error applying refresh rate" e)])) /\
    e = RuntimeError GetSystemPowerStatus_failed.
Proof.
  assert (H1 : override_var (Laptop.window false 120) = false)
    by reflexivity.
  assert (H2 : GetSystemPowerStatus (Laptop.os Laptop.panel)
                 (world Laptop.desk) =
               (Returned None, world Laptop.desk)) by reflexivity.
  assert (H3 : plugged_of (Returned None) = None) by reflexivity.
  repeat (split; [assumption |]).
  exact (on_apply_clicked_without_power_status
           (Laptop.os Laptop.panel) 10 _ _ _ _ H1 H2 H3).
Defined.

Lemma on_apply_clicked_automatic_target_witness :
  override_var (Laptop.window false 120) = false /\
  available_rates (Laptop.window false 120) <> [] /\
  GetSystemPowerStatus (Laptop.os Laptop.panel) (world Laptop.plugged_desk) =
    (Returned (Some (Laptop.power_status 1)), world Laptop.desk) /\
  on_apply_clicked (Laptop.os Laptop.panel) 10 (Laptop.window false 120)
    Laptop.plugged_desk =
    (fst Laptop.apply_now_automatic, snd Laptop.apply_now_automatic) /\
  exists t,
    automatic_target true [60; 120] = Some t /\
    timeline (trace (snd Laptop.apply_now_automatic)) =
      timeline (trace Laptop.plugged_desk) ++
        [Sampled (Some true); Applied t].
Proof.
  assert (H1 : override_var (Laptop.window false 120) = false)
    by reflexivity.
  assert (H2 : available_rates (Laptop.window false 120) <> [])
    by discriminate.
  assert (H3 : GetSystemPowerStatus (Laptop.os Laptop.panel)
                 (world Laptop.plugged_desk) =
               (Returned (Some (Laptop.power_status 1)), world Laptop.desk))
    by reflexivity.
  assert (H4 : on_apply_clicked (Laptop.os Laptop.panel) 10
                 (Laptop.window false 120) Laptop.plugged_desk =
               (fst Laptop.apply_now_automatic,
                snd Laptop.apply_now_automatic)) by reflexivity.
  repeat (split; [assumption |]).
  exact (on_apply_clicked_automatic_target _ _ _ _ _ _ _ _ H1 H2 H3 H4).
Defined.

Lemma on_apply_clicked_shows_what_happened_witness :
  on_apply_clicked (Laptop.os Laptop.panel) 10 (Laptop.window true 120)
    (snd Laptop.overridden) = (Val tt, snd Laptop.clicked) /\
  ui_updates (trace (snd Laptop.clicked)) =
    ui_updates (trace (snd Laptop.overridden)) ++ [Rate_text 120] /\
  exists cand,
    dmDisplayFrequency cand = Ctypes.DWORD 120 /\
    changes (trace (snd Laptop.clicked)) =
      changes (trace (snd Laptop.overridden)) ++
        [(cand, CDS_TEST, Returned DISP_CHANGE_SUCCESSFUL);
         (cand, 0, Returned DISP_CHANGE_SUCCESSFUL)].
Proof.
  assert (H1 : on_apply_clicked (Laptop.os Laptop.panel) 10
                 (Laptop.window true 120) (snd Laptop.overridden) =
               (Val tt, snd Laptop.clicked)) by reflexivity.
  assert (H2 : ui_updates (trace (snd Laptop.clicked)) =
               ui_updates (trace (snd Laptop.overridden))
                 ++ [Rate_text 120]) by reflexivity.
  repeat (split; [assumption |]).
  exact (on_apply_clicked_shows_what_happened _ _ _ _ _ _ _ H1 H2).
Defined.

Lemma poll_iteration_shows_what_happened_witness :
  poll_iteration (Laptop.os Laptop.panel) 10 (Laptop.window false 120) None
    Laptop.plugged_desk = (Val (Some true), snd Laptop.first_turn) /\
  exists rest,
    ui_updates (trace (snd Laptop.first_turn)) =
      ui_updates (trace Laptop.plugged_desk)
        ++ Status_text (status_text_of (Some true)) :: rest.
Proof.
  assert (H : poll_iteration (Laptop.os Laptop.panel) 10
                (Laptop.window false 120) None Laptop.plugged_desk =
              (Val (Some true), snd Laptop.first_turn)) by reflexivity.
  split; [exact H |].
  destruct (poll_iteration_shows_what_happened _ _ _ _ _ _ _ H)
    as (_ & rest & Hu & _).
  now exists rest.
Defined.

Lemma poll_iteration_quiet_turn_witness :
  GetSystemPowerStatus (Laptop.os Laptop.panel) (world Laptop.plugged_desk) =
    (Returned (Some (Laptop.power_status 1)), world Laptop.desk) /\
  state_changed (Some true)
    (plugged_of (Returned (Some (Laptop.power_status 1))))
    && negb (override_var (Laptop.window false 120)) = false /\
  poll_iteration (Laptop.os Laptop.panel) 10 (Laptop.window false 120)
    (Some true) Laptop.plugged_desk =
    (Val (Some true),
     mkState (world Laptop.desk)
       (trace Laptop.plugged_desk ++
        [Power (Returned (Some (Laptop.power_status 1)));
         Ui (Status_text "Plugged In (Charging)")])).
Proof.
  assert (H1 : GetSystemPowerStatus (Laptop.os Laptop.panel)
                 (world Laptop.plugged_desk) =
               (Returned (Some (Laptop.power_status 1)), world Laptop.desk))
    by reflexivity.
  assert (H2 : state_changed (Some true)
                 (plugged_of (Returned (Some (Laptop.power_status 1))))
                 && negb (override_var (Laptop.window false 120)) = false)
    by reflexivity.
  repeat (split; [assumption |]).
  exact (poll_iteration_quiet_turn (Laptop.os Laptop.panel) 10
           _ _ _ _ _ H1 H2).
Defined.

Lemma poll_turns_dies_without_rates_witness :
  running Laptop.bare_window = true /\
  override_var Laptop.bare_window = false /\
  available_rates Laptop.bare_window = [] /\
  GetSystemPowerStatus (Laptop.os Laptop.panel) (world Laptop.plugged_desk) =
    (Returned (Some (Laptop.power_status 1)), world Laptop.desk) /\
  state_changed None (plugged_of (Returned (Some (Laptop.power_status 1))))
    = true /\
  fst (poll_turns (Laptop.os Laptop.panel) 10
         [Laptop.bare_window; Laptop.window false 120] None
         Laptop.plugged_desk) = Raise ValueError.
Proof.
  assert (H1 : running Laptop.bare_window = true) by reflexivity.
  assert (H2 : override_var Laptop.bare_window = false) by reflexivity.
  assert (H3 : available_rates Laptop.bare_window = []) by reflexivity.
  assert (H4 : GetSystemPowerStatus (Laptop.os Laptop.panel)
                 (world Laptop.plugged_desk) =
               (Returned (Some (Laptop.power_status 1)), world Laptop.desk))
    by reflexivity.
  assert (H5 : state_changed None
                 (plugged_of (Returned (Some (Laptop.power_status 1))))
               = true) by reflexivity.
  repeat (split; [assumption |]).
  rewrite (poll_turns_dies_without_rates (Laptop.os Laptop.panel) 10
             _ [Laptop.window false 120] _ _ _ _ H1 H2 H3 H4 H5).
  reflexivity.
Defined.

Lemma poll_turns_applies_once_per_change_witness :
  poll_turns (Laptop.os Laptop.panel) 10
    [Laptop.window false 120; Laptop.window false 120;
     Laptop.window false 120]
    None (Laptop.boot Laptop.full_hd 0 0 [Some 1; None; Some 1]) =
    (Val (Some true), Laptop.after_failed_query) /\
  Forall (fun v => override_var v = false /\ available_rates v <> [])
    [Laptop.window false 120; Laptop.window false 120;
     Laptop.window false 120] /\
  samples (trace Laptop.after_failed_query) =
    [Some true; None; Some true] /\
  transitions None [Some true; None; Some true] = 2%nat /\
  length (applies (trace Laptop.after_failed_query)) = 2%nat.
Proof.
  assert (H : poll_turns (Laptop.os Laptop.panel) 10
                [Laptop.window false 120; Laptop.window false 120;
                 Laptop.window false 120]
                None (Laptop.boot Laptop.full_hd 0 0 [Some 1; None; Some 1]) =
              (Val (Some true), Laptop.after_failed_query))
    by reflexivity.
  assert (Hauto : Forall (fun v => override_var v = false /\
                                   available_rates v <> [])
                    [Laptop.window false 120; Laptop.window false 120;
                     Laptop.window false 120])
    by (repeat constructor; discriminate).
  assert (E : samples (trace Laptop.after_failed_query) =
              [Some true; None; Some true]) by reflexivity.
  split; [exact H |]. split; [exact Hauto |]. split; [exact E |].
  split; [reflexivity |].
  destruct (poll_turns_applies_once_per_change _ _ _ _ _ _ _ H)
    as (ps & Hs & _ & Heq).
  rewrite E in Hs. change ([Some true; None; Some true] = ps) in Hs.
  subst ps. exact (Heq Hauto).
Defined.

Lemma poll_turns_completes_every_turn_witness :
  enum_bounded (Laptop.os Laptop.panel) 6 /\ (6 < 10)%nat /\
  Forall (fun v => running v = true /\ available_rates v <> [])
         (repeat (Laptop.window false 120) 5) /\
  exists ps s',
    poll_turns (Laptop.os Laptop.panel) 10
      (repeat (Laptop.window false 120) 5) None Laptop.five_samples =
      (Val (last ps None), s') /\
    samples (trace s') = samples (trace Laptop.five_samples) ++ ps /\
    length ps = length (repeat (Laptop.window false 120) 5).
Proof.
  assert (H3 : Forall (fun v => running v = true /\ available_rates v <> [])
                 (repeat (Laptop.window false 120) 5))
    by (repeat constructor; discriminate).
  split; [exact (laptop_enum_bounded Laptop.panel) |]. split; [lia |].
  split; [exact H3 |].
  apply (poll_turns_completes_every_turn (Laptop.os Laptop.panel) 6 10);
    [exact (laptop_enum_bounded Laptop.panel) | lia | exact H3].
Defined.

Lemma update_current_refresh_label_shows_current_rate_witness :
  EnumDisplaySettingsW (Laptop.os Laptop.panel) None ENUM_CURRENT_SETTINGS
    (world Laptop.desk) = (Returned Laptop.full_hd, world Laptop.desk) /\
  ui_updates
    (trace (snd (update_current_refresh_label (Laptop.os Laptop.panel)
                   Laptop.desk))) = [Rate_text 60].
Proof.
  assert (H : EnumDisplaySettingsW (Laptop.os Laptop.panel) None
                ENUM_CURRENT_SETTINGS (world Laptop.desk) =
              (Returned Laptop.full_hd, world Laptop.desk)) by reflexivity.
  split; [exact H |].
  rewrite (update_current_refresh_label_shows_current_rate
             (Laptop.os Laptop.panel) _ _ _ H).
  reflexivity.
Defined.
